(** * MotorController2026: the plotting and animation front end

    A shallow embedding of [python/dataplotter.py] (classes
    [MotorDataPlotter] and [myPlot]) and [python/motorAnimation.py]
    (class [ACMotorAnimation]), with the properties of the incremental
    rendering state machines proved about it.

    Conventions of the embedding:
    - a Python method is a computation in the monad [M S], where [S] is
      the object the method mutates; a raised exception keeps the
      mutations made before it;
    - numbers are binary64 floats ([float]), with the arithmetic of the
      processor; [np.cos] and [np.sin], which are functions of the
      numerical library, are parameters of the schematic ([Numpy]), and
      [np.pi] is the float nearest to pi;
    - matplotlib objects that the code mutates after creation (lines,
      patches) live in an object store, addressed by their position, so
      that two references to one object are two equal addresses;
    - the plotting library is seen through the handles it hands out.
      Three refusals of the library are part of the model, each a
      [ValueError]: a figure without rows ([plt.subplots]), a line whose
      x- and y-data cannot be broadcast against each other (when the
      line is registered with the axes, and when the data limits are
      recomputed), and axis limits that are not finite ([plt.axis]). *)

From Stdlib Require Import Floats Uint63.
From stdpp Require Import gmap strings pretty list fin_maps.

Set Default Proof Using "Type".
Set Warnings "-inexact-float".

(** ** Exceptions and the state-and-exception monad *)

Inductive exn : Type :=
| IndexError
| AttributeError
| ValueError.

(** A computation over a mutable object of type [S]: it returns the
    object as it is left, and either the exception raised or the result. *)
Definition M (S A : Type) : Type := S -> S * (exn + A).

Definition ret {S A} (a : A) : M S A := fun s => (s, inr a).

Definition raise {S A} (e : exn) : M S A := fun s => (s, inl e).

Definition bind {S A B} (m : M S A) (k : A -> M S B) : M S B :=
  fun s =>
    match m s with
    | (s', inl e) => (s', inl e)
    | (s', inr a) => k a s'
    end.

Definition get {S} : M S S := fun s => (s, inr s).

Definition modify {S} (f : S -> S) : M S unit := fun s => (f s, inr tt).

Declare Scope py_scope.
Delimit Scope py_scope with py.
Notation "x <- m ;; k" := (bind m (fun x => k))
  (at level 100, m at next level, right associativity) : py_scope.
Notation "m ;; k" := (bind m (fun _ => k))
  (at level 100, right associativity) : py_scope.
Open Scope py_scope.

(** [for x in l: body x]; the loop stops at the first exception. *)
Fixpoint for_each {S A} (body : A -> M S unit) (l : list A) : M S unit :=
  match l with
  | [] => ret tt
  | a :: l' => body a ;; for_each body l'
  end.

(** [l[i]] for a non-negative index [i]. *)
Definition index {S A} (l : list A) (i : nat) : M S A :=
  match l !! i with
  | Some a => ret a
  | None => raise IndexError
  end.

(** [l[-1]]. *)
Definition index_last {S A} (l : list A) : M S A :=
  match last l with
  | Some a => ret a
  | None => raise IndexError
  end.

(** [enumerate(l)]. *)
Definition enumerate {A} (l : list A) : list (nat * A) := zip (seq 0 (length l)) l.

(** The object left by a call, whatever its outcome. *)
Definition state_after {S A} (m : M S A) (s : S) : S := fst (m s).

(** Whether a call returned normally. *)
Definition returns {S A} (m : M S A) (s : S) : Prop := exists a, snd (m s) = inr a.

(** ** [myPlot]: one subplot with its line objects *)

Module Panel.

(** A [matplotlib.lines.Line2D], reduced to what [myPlot] sets and to
    the label, which the axes may set too. *)
Record Line2D : Type := mkLine2D {
  xdata : list float;
  ydata : list float;
  color : string;
  ls : string;
  label : option string
}.

(** The axes of one subplot: decorations, the registered lines and the
    handles of the legend, by address. *)
Record Axes : Type := mkAxes {
  ax_xlabel : string;
  ax_ylabel : string;
  ax_title : string;
  ax_grid : bool;
  ax_lines : list nat;
  ax_legend : option (list nat)
}.

(** What [plt.subplots] hands out: undecorated, empty axes. *)
Definition blank_axes : Axes := mkAxes "" "" "" false [] None.

(** The attributes of a [myPlot]; [heap] is the store of the [Line2D]
    objects this subplot has created, [line] and [ax_lines] hold
    addresses into it. *)
Record myPlot : Type := mkPlot {
  legend : option (list string);
  ax : Axes;
  colors : list string;
  line_styles : list string;
  line : list nat;
  init : bool;
  heap : list Line2D
}.

Definition set_ax (f : Axes -> Axes) (p : myPlot) : myPlot :=
  mkPlot (legend p) (f (ax p)) (colors p) (line_styles p) (line p) (init p) (heap p).

Definition set_line (f : list nat -> list nat) (p : myPlot) : myPlot :=
  mkPlot (legend p) (ax p) (colors p) (line_styles p) (f (line p)) (init p) (heap p).

Definition set_init (b : bool) (p : myPlot) : myPlot :=
  mkPlot (legend p) (ax p) (colors p) (line_styles p) (line p) b (heap p).

Definition set_heap (f : list Line2D -> list Line2D) (p : myPlot) : myPlot :=
  mkPlot (legend p) (ax p) (colors p) (line_styles p) (line p) (init p) (f (heap p)).

(** The two palettes that [__init__] stores in [self.colors] and
    [self.line_styles]. *)
Definition palette_colors : list string := ["b"; "g"; "r"; "c"; "m"; "y"; "k"].
Definition palette_styles : list string := ["-"; "-"; "--"; "-."; ":"].

(** [myPlot.__init__(ax, xlabel, ylabel, title, legend)].  Nothing is
    checked: the legend is stored as given. *)
Definition __init__ (ax0 : Axes) (xlabel ylabel title : string)
    (legend0 : option (list string)) : myPlot :=
  {| legend := legend0;
     ax := {| ax_xlabel := xlabel; ax_ylabel := ylabel; ax_title := title;
              ax_grid := true;
              ax_lines := ax_lines ax0; ax_legend := ax_legend ax0 |};
     colors := palette_colors;
     line_styles := palette_styles;
     line := [];
     init := true;
     heap := [] |}.

(** [Line2D(...)]: a new object, at the next free address. *)
Definition alloc (l : Line2D) : M myPlot nat :=
  self <- get ;;
  modify (set_heap (fun h => h ++ [l])) ;;
  ret (length (heap self)).

(** numpy broadcasts two one-dimensional arrays against each other
    when they have the same length or one of them has length 1. *)
Definition broadcastable (n m : nat) : bool :=
  (n =? m) || (n =? 1) || (m =? 1).

(** Whether matplotlib can build the path of a line: it broadcasts the
    x-data against the y-data. *)
Definition drawable (l : Line2D) : bool :=
  broadcastable (length (xdata l)) (length (ydata l)).

(** Python's truth value of the label of a line, negated: [None] and
    the empty string count as no label. *)
Definition unlabelled (l : Line2D) : bool :=
  match label l with
  | Some s => bool_decide (s = "")
  | None => true
  end.

(** What the axes do to the label of a line they register as their
    child number [n]: a line without label is given the placeholder
    [_child<n>] (the name that matplotlib 3.5 and later use). *)
Definition placeholder (n : nat) (l : Line2D) : Line2D :=
  if unlabelled l
  then mkLine2D (xdata l) (ydata l) (color l) (ls l) (Some ("_child" +:+ pretty n))
  else l.

(** [self.ax.add_line(a)]: the axes compute the data limits of the
    line, which raises [ValueError] when its path cannot be built; then
    they give a line without label its placeholder, and register the
    line. *)
Definition add_line (a : nat) : M myPlot unit :=
  self <- get ;;
  if match heap self !! a with
     | Some l => drawable l
     | None => true
     end
  then
    modify (set_heap (alter (placeholder (length (ax_lines (ax self)))) a)) ;;
    modify (set_ax (fun x =>
      mkAxes (ax_xlabel x) (ax_ylabel x) (ax_title x) (ax_grid x)
             (ax_lines x ++ [a]) (ax_legend x)))
  else raise ValueError.

(** [self.ax.legend(handles=hs)]. *)
Definition ax_set_legend (hs : list nat) : M myPlot unit :=
  modify (set_ax (fun x =>
    mkAxes (ax_xlabel x) (ax_ylabel x) (ax_title x) (ax_grid x)
           (ax_lines x) (Some hs))).

(** [a.set_xdata(x)] and [a.set_ydata(y)]: the object at address [a] is
    changed in place. *)
Definition set_xdata (a : nat) (x : list float) : M myPlot unit :=
  modify (set_heap (alter (fun l =>
    mkLine2D x (ydata l) (color l) (ls l) (label l)) a)).

Definition set_ydata (a : nat) (y : list float) : M myPlot unit :=
  modify (set_heap (alter (fun l =>
    mkLine2D (xdata l) y (color l) (ls l) (label l)) a)).

(** [self.ax.relim()]: the data limits are recomputed from the
    registered lines, which raises [ValueError] at a line whose path
    cannot be built.  The limits themselves are not part of the
    modelled axes. *)
Definition relim : M myPlot unit :=
  self <- get ;;
  if forallb (fun a => match heap self !! a with
                       | Some l => drawable l
                       | None => true
                       end) (ax_lines (ax self))
  then ret tt
  else raise ValueError.

(** [self.ax.autoscale()]: the view limits are not part of the modelled
    axes. *)
Definition autoscale : M myPlot unit := ret tt.

(** The body of the initialisation loop of [update], for index [i]:
    the arguments of [Line2D(...)] are evaluated left to right, the new
    line is appended to [self.line], and [self.line[i]] is registered
    with the axes. *)
Definition new_line (time : list float) (data : list (list float)) (i : nat)
    : M myPlot unit :=
  self <- get ;;
  d <- index data i ;;
  c <- index (colors self) (i mod length (colors self)) ;;
  s <- index (line_styles self) (i mod length (line_styles self)) ;;
  lbl <- match legend self with
         | Some lg => l <- index lg i ;; ret (Some l)
         | None => ret None
         end ;;
  a <- alloc (mkLine2D time d c s lbl) ;;
  modify (set_line (fun ln => ln ++ [a])) ;;
  self <- get ;;
  b <- index (line self) i ;;
  add_line b.

(** The body of the refresh loop of [update], for index [i]. *)
Definition refresh_line (time : list float) (data : list (list float)) (i : nat)
    : M myPlot unit :=
  self <- get ;;
  a <- index (line self) i ;;
  set_xdata a time ;;
  a' <- index (line self) i ;;
  d <- index data i ;;
  set_ydata a' d.

(** [myPlot.update(time, data)]. *)
Definition update (time : list float) (data : list (list float)) : M myPlot unit :=
  self <- get ;;
  (if init self then
     for_each (new_line time data) (seq 0 (length data)) ;;
     modify (set_init false) ;;
     self <- get ;;
     match legend self with
     | Some _ => ax_set_legend (line self)
     | None => ret tt
     end
   else
     for_each (refresh_line time data) (seq 0 (length (line self)))) ;;
  relim ;;
  autoscale.

(** [update] called once per element of [calls], in order, as long as
    the calls return. *)
Definition updates (calls : list (list float * list (list float))) : M myPlot unit :=
  for_each (fun c => update (fst c) (snd c)) calls.

End Panel.

(** ** [MotorDataPlotter]: the stack of subplots and the sample history *)

Module Plotter.

(** One entry of [plot_config]: a dict with the key ['signals'] and the
    optional keys read with [plot.get]. *)
Record PlotConfig : Type := mkConfig {
  signals : list string;
  ylabel : option string;
  xlabel : option string;
  title : option string;
  legend : option (list string);
  conversion : option float
}.

(** [np.pi], the binary64 float nearest to pi. *)
Definition np_pi : float := 0x1.921fb54442d18p+1%float.

(** The configuration used when [plot_config] is [None]. *)
Definition default_config : list PlotConfig :=
  [ mkConfig ["theta_ref"; "theta"] (Some "Angle (deg)") None (Some "AC Motor Data")
             (Some ["Reference"; "Actual"]) (Some (180 / np_pi)%float);
    mkConfig ["omega"] (Some "Velocity (rad/s)") None None None None;
    mkConfig ["current_d"; "current_q"] (Some "Current (A)") None None
             (Some ["I_d"; "I_q"]) None;
    mkConfig ["torque"] (Some "Torque (N-m)") (Some "t (s)") None None None ].

(** The attributes of a [MotorDataPlotter].  The figure and the axes are
    reached through the subplots in [handle], which own them. *)
Record MotorDataPlotter : Type := mkPlotter {
  plot_config : list PlotConfig;
  num_plots : nat;
  time_history : list float;
  data_histories : gmap string (list float);
  handle : list Panel.myPlot
}.

Definition set_time_history (f : list float -> list float) (p : MotorDataPlotter)
    : MotorDataPlotter :=
  mkPlotter (plot_config p) (num_plots p) (f (time_history p)) (data_histories p) (handle p).

Definition set_data_histories (f : gmap string (list float) -> gmap string (list float))
    (p : MotorDataPlotter) : MotorDataPlotter :=
  mkPlotter (plot_config p) (num_plots p) (time_history p) (f (data_histories p)) (handle p).

Definition set_handle (f : list Panel.myPlot -> list Panel.myPlot) (p : MotorDataPlotter)
    : MotorDataPlotter :=
  mkPlotter (plot_config p) (num_plots p) (time_history p) (data_histories p) (f (handle p)).

(** [plt.subplots(nrows, 1, sharex=True, ...)]: matplotlib's grid
    specification refuses a grid without rows with a [ValueError];
    otherwise one blank axes per row is returned (for a single row
    [__init__] wraps the axes in a list itself). *)
Definition subplots (nrows : nat) : exn + list Panel.Axes :=
  match nrows with
  | O => inl ValueError
  | S _ => inr (replicate nrows Panel.blank_axes)
  end.

(** The loops of [__init__] that create one empty history per signal. *)
Definition init_histories (config : list PlotConfig) : gmap string (list float) :=
  foldl (fun h plot => foldl (fun h' signal => <[signal := []]> h') h (signals plot))
        ∅ config.

(** The loop of [__init__] that creates the subplots; the object under
    construction is the list [self.handle]. *)
Definition init_handles (axs : list Panel.Axes) (config : list PlotConfig)
    : M (list Panel.myPlot) unit :=
  for_each (fun ip : nat * PlotConfig =>
              a <- index axs (fst ip) ;;
              modify (fun h => h ++
                [Panel.__init__ a (default "" (xlabel (snd ip)))
                                  (default "" (ylabel (snd ip)))
                                  (default "" (title (snd ip)))
                                  (legend (snd ip))]))
           (enumerate config).

(** [MotorDataPlotter.__init__(plot_config)]. *)
Definition __init__ (plot_config0 : option (list PlotConfig)) : exn + MotorDataPlotter :=
  let config := match plot_config0 with
                | None => default_config
                | Some c => c
                end in
  let n := length config in
  match subplots n with
  | inl e => inl e
  | inr axs =>
      match init_handles axs config [] with
      | (_, inl e) => inl e
      | (hs, inr _) =>
          inr {| plot_config := config;
                 num_plots := n;
                 time_history := [];
                 data_histories := init_histories config;
                 handle := hs |}
      end
  end.

(** The body of the loop over [kwargs.items()]. *)
Definition record_signal (kv : string * float) : M MotorDataPlotter unit :=
  self <- get ;;
  match data_histories self !! fst kv with
  | Some hist => modify (set_data_histories <[fst kv := hist ++ [snd kv]]>)
  | None => ret tt
  end.

(** The list [plot_data] built for one subplot. *)
Definition plot_data (self : MotorDataPlotter) (plot : PlotConfig) : list (list float) :=
  let conv := default 1%float (conversion plot) in
  map (fun signal =>
         match data_histories self !! signal with
         | Some hist => map (fun val => (val * conv)%float) hist
         | None => []
         end)
      (signals plot).

(** [self.handle[i].m(...)]: the method [m] runs on the subplot stored
    at position [i], which is changed in place. *)
Definition at_handle {A} (i : nat) (m : M Panel.myPlot A) : M MotorDataPlotter A :=
  fun self =>
    match handle self !! i with
    | None => (self, inl IndexError)
    | Some p => let (p', r) := m p in (set_handle <[i := p']> self, r)
    end.

(** The body of the loop over [enumerate(self.plot_config)]. *)
Definition refresh_panel (ip : nat * PlotConfig) : M MotorDataPlotter unit :=
  self <- get ;;
  at_handle (fst ip) (Panel.update (time_history self) (plot_data self (snd ip))).

(** [MotorDataPlotter.update(t, **kwargs)]; [kwargs] is the list of the
    keyword arguments in call order. *)
Definition update (t : float) (kwargs : list (string * float)) : M MotorDataPlotter unit :=
  modify (set_time_history (fun h => h ++ [t])) ;;
  for_each record_signal kwargs ;;
  self <- get ;;
  for_each refresh_panel (enumerate (plot_config self)).

(** The plotter after a sequence of [update] calls, each call run on
    the object as the previous one left it, whether it returned or raised. *)
Definition after_calls (self : MotorDataPlotter) (calls : list (float * list (string * float)))
    : MotorDataPlotter :=
  foldl (fun s c => state_after (update (fst c) (snd c)) s) self calls.

(** The same sequence, as long as the calls return. *)
Definition updates (calls : list (float * list (string * float))) : M MotorDataPlotter unit :=
  for_each (fun c => update (fst c) (snd c)) calls.

(** A signal name is declared when some configured group lists it. *)
Definition declared (self : MotorDataPlotter) (name : string) : Prop :=
  exists plot, plot ∈ plot_config self /\ name ∈ signals plot.

End Plotter.

(** ** [ACMotorAnimation]: the schematic of the motor *)

Module Motor.

(** The two functions of numpy that the schematic calls. *)
Class Numpy : Type := {
  np_cos : float -> float;
  np_sin : float -> float
}.

(** [np.pi], the binary64 float nearest to pi. *)
Definition np_pi : float := 0x1.921fb54442d18p+1%float.

(** A Python integer used in float arithmetic. *)
Definition float_of_nat (n : nat) : float :=
  PrimFloat.of_uint63 (Uint63.of_Z (Z.of_nat n)).

(** The drawable objects of the schematic: a [plt.Circle] with its
    centre, radius and colour, and a line of [ax.plot] with its data and
    format string. *)
Inductive Artist : Type :=
| Circle (xy : float * float) (radius : float) (colour : string)
| Line (xs ys : list float) (fmt : string).

(** A piece of an f-string: literal text, or a number formatted with
    [:.2f]. *)
Inductive piece : Type :=
| Lit (s : string)
| Fmt2f (x : float).

(** The axes of the schematic: the decorations, and the registered
    patches and lines, by address.  The view limits, which matplotlib
    derives from the arguments of [plt.axis], are not recorded. *)
Record Axes : Type := mkAxes {
  ax_xlabel : string;
  ax_ylabel : string;
  ax_title : list piece;
  children : list nat
}.

(** The attributes of an [ACMotorAnimation].  [rotor_bar_handles] and
    [ref_mark] do not exist before the first drawing; [heap] is the
    store of the patches and lines the renderer holds.  The exit button
    and the signal handler are left out. *)
Record ACMotorAnimation : Type := mkAnim {
  flagInit : bool;
  stator_radius : float;
  rotor_radius : float;
  shaft_radius : float;
  ax : Axes;
  handle : list nat;
  rotor_bar_handles : option (list nat);
  ref_mark : option nat;
  heap : list Artist
}.

Definition set_flagInit (b : bool) (a : ACMotorAnimation) : ACMotorAnimation :=
  mkAnim b (stator_radius a) (rotor_radius a) (shaft_radius a) (ax a) (handle a)
         (rotor_bar_handles a) (ref_mark a) (heap a).

Definition set_ax (f : Axes -> Axes) (a : ACMotorAnimation) : ACMotorAnimation :=
  mkAnim (flagInit a) (stator_radius a) (rotor_radius a) (shaft_radius a) (f (ax a))
         (handle a) (rotor_bar_handles a) (ref_mark a) (heap a).

Definition set_handle (f : list nat -> list nat) (a : ACMotorAnimation) : ACMotorAnimation :=
  mkAnim (flagInit a) (stator_radius a) (rotor_radius a) (shaft_radius a) (ax a)
         (f (handle a)) (rotor_bar_handles a) (ref_mark a) (heap a).

Definition set_rotor_bar_handles (v : option (list nat)) (a : ACMotorAnimation)
    : ACMotorAnimation :=
  mkAnim (flagInit a) (stator_radius a) (rotor_radius a) (shaft_radius a) (ax a)
         (handle a) v (ref_mark a) (heap a).

Definition set_ref_mark (v : option nat) (a : ACMotorAnimation) : ACMotorAnimation :=
  mkAnim (flagInit a) (stator_radius a) (rotor_radius a) (shaft_radius a) (ax a)
         (handle a) (rotor_bar_handles a) v (heap a).

Definition set_heap (f : list Artist -> list Artist) (a : ACMotorAnimation)
    : ACMotorAnimation :=
  mkAnim (flagInit a) (stator_radius a) (rotor_radius a) (shaft_radius a) (ax a)
         (handle a) (rotor_bar_handles a) (ref_mark a) (f (heap a)).

Local Open Scope float_scope.

(** The object that [__init__] leaves when it returns: the radii stored
    as given, no handle yet. *)
Definition constructed (stator_radius0 rotor_radius0 shaft_radius0 : float)
    : ACMotorAnimation :=
  {| flagInit := true;
     stator_radius := stator_radius0;
     rotor_radius := rotor_radius0;
     shaft_radius := shaft_radius0;
     ax := {| ax_xlabel := "Position (m)";
              ax_ylabel := "Position (m)";
              ax_title := [Lit "AC Motor Visualization"];
              children := [] |};
     handle := [];
     rotor_bar_handles := None;
     ref_mark := None;
     heap := [] |}.

(** [ACMotorAnimation.__init__(stator_radius, rotor_radius, shaft_radius)].
    The radii are compared with nothing.  The call
    [plt.axis([-limit, limit, -limit, limit])] with
    [limit = 1.5 * stator_radius] raises [ValueError] when the limit is
    NaN or infinite; no other statement depends on the arguments. *)
Definition __init__ (stator_radius0 rotor_radius0 shaft_radius0 : float)
    : exn + ACMotorAnimation :=
  let limit := 1.5 * stator_radius0 in
  if PrimFloat.is_finite limit
  then inr (constructed stator_radius0 rotor_radius0 shaft_radius0)
  else inl ValueError.

(** The construction with the default radii. *)
Definition default_init : exn + ACMotorAnimation := __init__ 1.0 0.6 0.15.

(** An object enters the store when the renderer first keeps a
    reference to it; it gets the next free address. *)
Definition alloc (o : Artist) : M ACMotorAnimation nat :=
  self <- get ;;
  modify (set_heap (fun h => h ++ [o])) ;;
  ret (length (heap self)).

(** [self.handle.append(o)] for a new object [o]. *)
Definition handle_append_new (o : Artist) : M ACMotorAnimation unit :=
  a <- alloc o ;;
  modify (set_handle (fun h => h ++ [a])).

(** [self.ax.add_patch(a)]. *)
Definition add_patch (a : nat) : M ACMotorAnimation unit :=
  modify (set_ax (fun x =>
    mkAxes (ax_xlabel x) (ax_ylabel x) (ax_title x) (children x ++ [a]))).

(** [self.ax.plot([], [], fmt, linewidth=3)]: an empty line is created,
    registered with the axes and returned. *)
Definition ax_plot (fmt : string) : M ACMotorAnimation nat :=
  a <- alloc (Line [] [] fmt) ;;
  add_patch a ;;
  ret a.

(** [a.set_data(x, y)]: the line at address [a] is changed in place. *)
Definition set_data (a : nat) (x y : list float) : M ACMotorAnimation unit :=
  modify (set_heap (alter (fun o =>
    match o with
    | Line _ _ fmt => Line x y fmt
    | Circle _ _ _ => o
    end) a)).

(** [self.ax.set_title(t)]. *)
Definition set_title (t : list piece) : M ACMotorAnimation unit :=
  modify (set_ax (fun x =>
    mkAxes (ax_xlabel x) (ax_ylabel x) t (children x))).

Section WithNumpy.
Context {numpy : Numpy}.

(** [ACMotorAnimation.drawStator()]. *)
Definition drawStator : M ACMotorAnimation unit :=
  self <- get ;;
  let stator_outer := Circle (0, 0) (stator_radius self) "gray" in
  let stator_inner := Circle (0, 0) (rotor_radius self + 0.05) "white" in
  if flagInit self then
    handle_append_new stator_outer ;;
    handle_append_new stator_inner ;;
    self1 <- get ;;
    h0 <- index (handle self1) 0 ;;
    add_patch h0 ;;
    h1 <- index (handle self1) 1 ;;
    add_patch h1 ;;
    for_each (fun i : nat =>
                let angle := float_of_nat i * np_pi / 3 in
                let x := (stator_radius self - 0.15) * np_cos angle in
                let y := (stator_radius self - 0.15) * np_sin angle in
                c <- index ["red"; "yellow"; "blue"]%string (i mod 3)%nat ;;
                let coil := Circle (x, y) 0.08 c in
                handle_append_new coil ;;
                self2 <- get ;;
                h <- index_last (handle self2) ;;
                add_patch h)
             (seq 0 6)
  else ret tt.

(** The body of the loop that creates the rotor bars. *)
Definition new_rotor_bar : M ACMotorAnimation unit :=
  line_handle <- ax_plot "k-" ;;
  self <- get ;;
  match rotor_bar_handles self with
  | Some bars =>
      modify (set_rotor_bar_handles (Some (bars ++ [line_handle]))) ;;
      modify (set_handle (fun h => h ++ [line_handle]))
  | None => raise AttributeError
  end.

(** [ACMotorAnimation.drawRotor(theta)]; in [i * 2 * np.pi / 8] the
    product [i * 2] is an integer product. *)
Definition drawRotor (theta : float) : M ACMotorAnimation unit :=
  self <- get ;;
  let rotor_body := Circle (0, 0) (rotor_radius self) "lightblue" in
  (if flagInit self then
     handle_append_new rotor_body ;;
     self1 <- get ;;
     h <- index_last (handle self1) ;;
     add_patch h ;;
     modify (set_rotor_bar_handles (Some [])) ;;
     for_each (fun _ : nat => new_rotor_bar) (seq 0 8)
   else ret tt) ;;
  self3 <- get ;;
  match rotor_bar_handles self3 with
  | None => raise AttributeError
  | Some bars =>
      for_each (fun il : nat * nat =>
                  let angle := theta + float_of_nat (fst il * 2) * np_pi / 8 in
                  let r_inner := shaft_radius self + 0.05 in
                  let r_outer := rotor_radius self - 0.05 in
                  let x := [r_inner * np_cos angle; r_outer * np_cos angle] in
                  let y := [r_inner * np_sin angle; r_outer * np_sin angle] in
                  set_data (snd il) x y)
               (enumerate bars)
  end.

(** [ACMotorAnimation.drawShaft(theta)]. *)
Definition drawShaft (theta : float) : M ACMotorAnimation unit :=
  self <- get ;;
  let shaft := Circle (0, 0) (shaft_radius self) "darkgray" in
  (if flagInit self then
     handle_append_new shaft ;;
     self1 <- get ;;
     h <- index_last (handle self1) ;;
     add_patch h ;;
     m <- ax_plot "r-" ;;
     modify (set_ref_mark (Some m)) ;;
     modify (set_handle (fun hs => hs ++ [m]))
   else ret tt) ;;
  self2 <- get ;;
  let x := [0; shaft_radius self * np_cos theta] in
  let y := [0; shaft_radius self * np_sin theta] in
  match ref_mark self2 with
  | None => raise AttributeError
  | Some m => set_data m x y
  end.

(** The three f-strings of [update]. *)
Definition title_text (theta : float) (omega torque : option float) : list piece :=
  match omega, torque with
  | Some w, Some tq =>
      [Lit "AC Motor: θ="; Fmt2f theta; Lit " rad, ω="; Fmt2f w;
       Lit " rad/s, τ="; Fmt2f tq; Lit " N-m"]
  | Some w, None =>
      [Lit "AC Motor: θ="; Fmt2f theta; Lit " rad, ω="; Fmt2f w; Lit " rad/s"]
  | None, _ =>
      [Lit "AC Motor: θ="; Fmt2f theta; Lit " rad"]
  end.

(** [ACMotorAnimation.update(theta, omega, torque)]. *)
Definition update (theta : float) (omega torque : option float)
    : M ACMotorAnimation unit :=
  drawStator ;;
  drawRotor theta ;;
  drawShaft theta ;;
  set_title (title_text theta omega torque) ;;
  self <- get ;;
  if flagInit self then modify (set_flagInit false) else ret tt.

(** The renderers a program can hold: a constructed one, updated any
    number of times. *)
Inductive reachable : ACMotorAnimation -> Prop :=
| reach_init (rs rr rsh : float) (a : ACMotorAnimation) :
    __init__ rs rr rsh = inr a -> reachable a
| reach_update (a : ACMotorAnimation) (theta : float) (omega torque : option float) :
    reachable a -> reachable (state_after (update theta omega torque) a).

(** The renderer after one [update] on a new object. *)
Definition drawn (rs rr rsh theta : float) (omega torque : option float)
    : ACMotorAnimation :=
  state_after (update theta omega torque) (constructed rs rr rsh).

End WithNumpy.

(** Whether [needle] occurs in [s]. *)
Fixpoint occurs (needle s : string) : bool :=
  if String.prefix needle s then true
  else match s with
       | EmptyString => false
       | String _ s' => occurs needle s'
       end.

(** The title names the quantity [sym] when one of its literal parts
    contains [sym] followed by an equals sign. *)
Definition mentions (sym : string) (t : list piece) : bool :=
  existsb (fun p => match p with
                    | Lit s => occurs (sym ++ "=") s
                    | Fmt2f _ => false
                    end) t.

(** The title shows the value [v] for [sym]: a literal part ending in
    [sym=] is directly followed by the formatted [v]. *)
Definition displays (sym : string) (v : float) (t : list piece) : Prop :=
  exists pre s post,
    t = pre ++ Lit s :: Fmt2f v :: post /\
    exists s0, s = (s0 ++ sym ++ "=")%string.

(** The radii a schematic is meant to have:
    [stator_radius > rotor_radius > shaft_radius > 0]. *)
Definition ordered_radii (stator_radius0 rotor_radius0 shaft_radius0 : float) : bool :=
  (rotor_radius0 <? stator_radius0) && (shaft_radius0 <? rotor_radius0)
  && (0 <? shaft_radius0).

(** The values of [np.cos] and [np.sin] at 0 and at [np.pi / 2] that
    the examples use: 1 and 0 at 0, 6.123233995736766e-17 and 1 at
    [np.pi / 2]. *)
Definition numpy_at_quarter_turns (numpy : Numpy) : Prop :=
  np_cos 0 = 1 /\ np_sin 0 = 0 /\
  np_cos (np_pi / 2) = 6.123233995736766e-17 /\ np_sin (np_pi / 2) = 1.

(** An instance with these four values, and 0 elsewhere. *)
Definition quarter_turns : Numpy :=
  {| np_cos := fun x => if x =? 0 then 1
                        else if x =? np_pi / 2 then 6.123233995736766e-17 else 0;
     np_sin := fun x => if x =? np_pi / 2 then 1 else 0 |}.

End Motor.
(** ** Closed forms of the states the subplot goes through *)

Module PanelState.
Import Panel.

(** The line object that [Line2D(...)] yields in the initialisation
    loop at index [i], from the series [d]. *)
Definition created (lg : option (list string)) (time : list float) (i : nat)
    (d : list float) : Line2D :=
  {| xdata := time;
     ydata := d;
     color := default "" (palette_colors !! (i mod 7));
     ls := default "" (palette_styles !! (i mod 5));
     label := match lg with
              | Some l => l !! i
              | None => None
              end |}.

(** That line once the axes [ax0], which had [length (ax_lines ax0)]
    children at construction, have registered it after the lines of the
    lower indices. *)
Definition registered (ax0 : Axes) (lg : option (list string)) (time : list float)
    (i : nat) (d : list float) : Line2D :=
  placeholder (length (ax_lines ax0) + i) (created lg time i d).

(** The subplot in the middle of its initialisation loop, after [n]
    lines have been created and registered. *)
Definition building (ax0 : Axes) (xl yl tl : string) (lg : option (list string))
    (time : list float) (data : list (list float)) (n : nat) : myPlot :=
  {| legend := lg;
     ax := {| ax_xlabel := xl; ax_ylabel := yl; ax_title := tl; ax_grid := true;
              ax_lines := ax_lines ax0 ++ seq 0 n; ax_legend := ax_legend ax0 |};
     colors := palette_colors;
     line_styles := palette_styles;
     line := seq 0 n;
     init := true;
     heap := imap (registered ax0 lg time) (take n data) |}.

(** The subplot once initialised, showing [time] and [data]. *)
Definition live (ax0 : Axes) (xl yl tl : string) (lg : option (list string))
    (time : list float) (data : list (list float)) : myPlot :=
  {| legend := lg;
     ax := {| ax_xlabel := xl; ax_ylabel := yl; ax_title := tl; ax_grid := true;
              ax_lines := ax_lines ax0 ++ seq 0 (length data);
              ax_legend := match lg with
                           | Some _ => Some (seq 0 (length data))
                           | None => ax_legend ax0
                           end |};
     colors := palette_colors;
     line_styles := palette_styles;
     line := seq 0 (length data);
     init := false;
     heap := imap (registered ax0 lg time) data |}.

(** The store in the middle of the refresh loop: the first [n] lines
    carry the new data. *)
Definition refreshed (time : list float) (data : list (list float)) (n : nat)
    (h : list Line2D) : list Line2D :=
  imap (fun i l => if decide (i < n)
                   then mkLine2D time (default [] (data !! i)) (color l) (ls l) (label l)
                   else l) h.

(** The subplot whose initialisation loop stopped at index [n] because
    the axes refused the line: the line is created, as [Line2D(...)]
    yields it, and is in [self.line], but it is not registered. *)
Definition stalled (ax0 : Axes) (xl yl tl : string) (lg : option (list string))
    (time : list float) (data : list (list float)) (n : nat) : myPlot :=
  {| legend := lg;
     ax := {| ax_xlabel := xl; ax_ylabel := yl; ax_title := tl; ax_grid := true;
              ax_lines := ax_lines ax0 ++ seq 0 n; ax_legend := ax_legend ax0 |};
     colors := palette_colors;
     line_styles := palette_styles;
     line := seq 0 (S n);
     init := true;
     heap := imap (registered ax0 lg time) (take n data)
             ++ [created lg time n (default [] (data !! n))] |}.

(** Every series can be drawn against [time]. *)
Definition shapes_ok (time : list float) (data : list (list float)) : bool :=
  forallb (fun d => broadcastable (length time) (length d)) data.

(** The legend has no label for index [n]. *)
Definition label_missing (lg : option (list string)) (n : nat) : bool :=
  match lg with
  | Some l => length l <=? n
  | None => false
  end.

(** A legend fits [k] series when it is absent or has at least [k] labels. *)
Definition legend_fits (lg : option (list string)) (k : nat) : Prop :=
  match lg with
  | Some l => k <= length l
  | None => True
  end.

End PanelState.

(** ** Closed forms of the states the plotter goes through *)

Module PlotterState.
Import Plotter.

(** The subplot that [__init__] creates for one group. *)
Definition fresh_panel (plot : PlotConfig) : Panel.myPlot :=
  Panel.__init__ Panel.blank_axes (default "" (xlabel plot)) (default "" (ylabel plot))
                 (default "" (title plot)) (legend plot).

(** The plotter as [__init__] leaves it. *)
Definition constructed (config : list PlotConfig) : MotorDataPlotter :=
  {| plot_config := config;
     num_plots := length config;
     time_history := [];
     data_histories := init_histories config;
     handle := map fresh_panel config |}.

(** The histories after the loop over the keyword arguments. *)
Definition recorded (h : gmap string (list float)) (kwargs : list (string * float))
    : gmap string (list float) :=
  foldl (fun h' kv => match h' !! fst kv with
                      | Some hist => <[fst kv := hist ++ [snd kv]]> h'
                      | None => h'
                      end) h kwargs.

(** The plotter after the history part of [update], before the subplots
    are refreshed. *)
Definition appended (t : float) (kwargs : list (string * float)) (self : MotorDataPlotter)
    : MotorDataPlotter :=
  {| plot_config := plot_config self;
     num_plots := num_plots self;
     time_history := time_history self ++ [t];
     data_histories := recorded (data_histories self) kwargs;
     handle := handle self |}.

(** The subplot of a group once it shows the current histories. *)
Definition shown (self : MotorDataPlotter) (plot : PlotConfig) : Panel.myPlot :=
  PanelState.live Panel.blank_axes (default "" (xlabel plot)) (default "" (ylabel plot))
                  (default "" (title plot)) (legend plot)
                  (time_history self) (plot_data self plot).

(** Every subplot is either new or shows one series per signal. *)
Definition ready (self : MotorDataPlotter) : Prop :=
  length (handle self) = length (plot_config self) /\
  forall i plot p, plot_config self !! i = Some plot -> handle self !! i = Some p ->
    p = fresh_panel plot \/
    exists time data, length data = length (signals plot) /\
      p = PanelState.live Panel.blank_axes (default "" (xlabel plot))
            (default "" (ylabel plot)) (default "" (title plot)) (legend plot) time data.

(** The keyword arguments of a call: no name is bound twice. *)
Definition well_formed (kwargs : list (string * float)) : Prop := NoDup (kwargs.*1).

(** Two plotters that differ at most in their subplots. *)
Definition same_history (s1 s2 : MotorDataPlotter) : Prop :=
  plot_config s2 = plot_config s1 /\ num_plots s2 = num_plots s1 /\
  time_history s2 = time_history s1 /\ data_histories s2 = data_histories s1.

End PlotterState.

(** ** What the calls keep, and what the histories hold *)

Module Kept.

(** What a call on a subplot leaves in place: the legend list, the
    palettes and the decorations of the axes are the same, [self.line]
    and the lines of the axes are only extended, and every line object
    is still there with its colour and style, and with its label unless
    it had none and was given a placeholder; when [strict] is set, the
    label is the same in every case. *)
Definition panel_keeps (strict : bool) (p p' : Panel.myPlot) : Prop :=
  Panel.legend p' = Panel.legend p /\
  Panel.colors p' = Panel.colors p /\
  Panel.line_styles p' = Panel.line_styles p /\
  Panel.ax_xlabel (Panel.ax p') = Panel.ax_xlabel (Panel.ax p) /\
  Panel.ax_ylabel (Panel.ax p') = Panel.ax_ylabel (Panel.ax p) /\
  Panel.ax_title (Panel.ax p') = Panel.ax_title (Panel.ax p) /\
  Panel.ax_grid (Panel.ax p') = Panel.ax_grid (Panel.ax p) /\
  Panel.line p `prefix_of` Panel.line p' /\
  Panel.ax_lines (Panel.ax p) `prefix_of` Panel.ax_lines (Panel.ax p') /\
  forall a ln, Panel.heap p !! a = Some ln ->
    exists ln', Panel.heap p' !! a = Some ln' /\
      Panel.color ln' = Panel.color ln /\ Panel.ls ln' = Panel.ls ln /\
      (Panel.label ln' = Panel.label ln \/
       strict = false /\ Panel.unlabelled ln = true /\
       exists n : nat, Panel.label ln' = Some ("_child" +:+ pretty n)).

(** The values that a call supplies for the signal [s], in the order of
    the keyword arguments. *)
Definition values_for (s : string) (kwargs : list (string * float)) : list float :=
  (filter (fun kv : string * float => fst kv = s) kwargs).*2.

(** Every group has a legend that is absent or has a label for each of
    its signals. *)
Definition legends_fit (config : list Plotter.PlotConfig) : Prop :=
  Forall (fun plot => PanelState.legend_fits (Plotter.legend plot)
                        (length (Plotter.signals plot))) config.

End Kept.

(** * Properties *)

(** ** The monad *)

(** Case analysis on membership in an explicit list. *)
Ltac each_elem H :=
  repeat (apply elem_of_cons in H as [->|H]);
  [..|apply elem_of_nil in H; destruct H].

Lemma for_each_app {S A} (body : A -> M S unit) (l1 l2 : list A) (s : S) :
  for_each body (l1 ++ l2) s = (for_each body l1 ;; for_each body l2) s.
Proof.
  revert s. induction l1 as [|a l1 IH]; intros s; simpl.
  - reflexivity.
  - unfold bind. destruct (body a s) as [s1 [e|[]]]; [reflexivity|].
    rewrite IH. reflexivity.
Qed.

(** A loop whose body keeps a relation between the object before and
    after it, whatever the outcome, keeps it as a whole. *)
Lemma for_each_preserves {S A} (R : S -> S -> Prop) (body : A -> M S unit) (l : list A) :
  (forall s, R s s) ->
  (forall s1 s2 s3, R s1 s2 -> R s2 s3 -> R s1 s3) ->
  (forall a s, R s (state_after (body a) s)) ->
  forall s, R s (state_after (for_each body l) s).
Proof.
  intros Hrefl Htrans Hbody. induction l as [|a l IH]; intros s.
  - apply Hrefl.
  - unfold state_after in *. simpl. unfold bind.
    specialize (Hbody a s). destruct (body a s) as [s1 [e|[]]]; simpl in *.
    + exact Hbody.
    + eapply Htrans; [exact Hbody | apply IH].
Qed.

Lemma alter_twice {A} (f g : A -> A) (i : nat) (l : list A) :
  alter f i (alter g i l) = alter (fun x => f (g x)) i l.
Proof.
  apply list_eq. intros j. destruct (decide (j = i)) as [->|Hne].
  - rewrite !list_lookup_alter_eq. destruct (l !! i); reflexivity.
  - rewrite !list_lookup_alter_ne by auto. reflexivity.
Qed.

(** ** The subplot: initialisation and refresh loops *)

Section PanelLoops.
Import Panel PanelState.

Variables (ax0 : Axes) (xl yl tl : string) (lg : option (list string)).
Variables (time : list float) (data : list (list float)).

Lemma building_0 :
  building ax0 xl yl tl lg time data 0 = __init__ ax0 xl yl tl lg.
Proof.
  unfold building, __init__. simpl. rewrite app_nil_r. reflexivity.
Qed.

Lemma palette_color_lookup (i : nat) :
  palette_colors !! (i mod length palette_colors)
  = Some (default "" (palette_colors !! (i mod 7))).
Proof.
  change (length palette_colors) with 7.
  destruct (lookup_lt_is_Some_2 palette_colors (i mod 7)) as [c Hc].
  - change (length palette_colors) with 7. apply Nat.mod_upper_bound. lia.
  - rewrite Hc. reflexivity.
Qed.

Lemma palette_style_lookup (i : nat) :
  palette_styles !! (i mod length palette_styles)
  = Some (default "" (palette_styles !! (i mod 5))).
Proof.
  change (length palette_styles) with 5.
  destruct (lookup_lt_is_Some_2 palette_styles (i mod 5)) as [c Hc].
  - change (length palette_styles) with 5. apply Nat.mod_upper_bound. lia.
  - rewrite Hc. reflexivity.
Qed.

Lemma shapes_ok_take_S (n : nat) (d : list float) :
  data !! n = Some d ->
  shapes_ok time (take (S n) data)
  = shapes_ok time (take n data) && broadcastable (length time) (length d).
Proof.
  intros Hd. unfold shapes_ok. rewrite (take_S_r _ _ _ Hd), forallb_app. cbn.
  rewrite andb_true_r. reflexivity.
Qed.

Lemma legend_fits_S (n : nat) :
  legend_fits lg n -> label_missing lg n = false -> legend_fits lg (S n).
Proof.
  unfold legend_fits, label_missing. destruct lg as [l|]; [|auto].
  intros Hn Hm. apply Nat.leb_gt in Hm. lia.
Qed.

Lemma label_missing_true (n : nat) :
  label_missing lg n = true -> exists l, lg = Some l /\ length l <= n.
Proof.
  unfold label_missing. destruct lg as [l|]; [|discriminate].
  intros H. apply Nat.leb_le in H. eauto.
Qed.

(** One turn of the initialisation loop that finds its label: the line
    is created and appended, and the axes take it or refuse it. *)
Lemma new_line_go (n : nat) (d : list float) :
  data !! n = Some d ->
  legend_fits lg (S n) ->
  new_line time data n (building ax0 xl yl tl lg time data n)
  = if broadcastable (length time) (length d)
    then (building ax0 xl yl tl lg time data (S n), inr tt)
    else (stalled ax0 xl yl tl lg time data n, inl ValueError).
Proof.
  intros Hd Hfit. pose proof (lookup_lt_Some _ _ _ Hd) as Hn.
  assert (Hlbl : exists lbl, lbl = match lg with Some l => l !! n | None => None end /\
    forall s : myPlot,
    (match lg with
     | Some lg0 => l <- index lg0 n ;; ret (Some l)
     | None => ret None
     end) s = (s, inr lbl)).
  { destruct lg as [l|]; simpl in *.
    - destruct (lookup_lt_is_Some_2 l n ltac:(lia)) as [x Hx].
      exists (Some x). split; [done|]. intros s. unfold index, bind, ret. rewrite Hx. auto.
    - exists None. auto. }
  destruct Hlbl as [lbl [Hlbl Hrun]].
  unfold new_line, bind, get. cbn [legend colors line_styles building].
  unfold index at 1. rewrite Hd. unfold ret at 1.
  unfold index at 1. rewrite palette_color_lookup. unfold ret at 1.
  unfold index at 1. rewrite palette_style_lookup. unfold ret at 1.
  rewrite Hrun.
  unfold alloc, add_line, modify, get, bind, ret, raise, index. cbn -[Nat.modulo].
  rewrite length_imap, length_take, Nat.min_l by lia.
  rewrite lookup_app_r by (rewrite length_seq; lia).
  rewrite length_seq, Nat.sub_diag. cbn -[Nat.modulo].
  rewrite lookup_app_r by (rewrite length_imap, length_take; lia).
  rewrite length_imap, length_take, Nat.min_l, Nat.sub_diag by lia.
  cbn -[Nat.modulo]. unfold drawable. cbn -[Nat.modulo].
  assert (Hnew : mkLine2D time d (default "" (palette_colors !! (n mod 7)))
                   (default "" (palette_styles !! (n mod 5))) lbl
                 = created lg time n d)
    by (unfold created; subst lbl; reflexivity).
  rewrite Hnew. clear Hnew.
  destruct (broadcastable (length time) (length d)).
  - unfold building, set_ax, set_line, set_heap. cbn -[Nat.modulo placeholder].
    change (0 :: seq 1 n) with (seq 0 (S n)). rewrite seq_S, app_assoc.
    rewrite (take_S_r _ _ _ Hd), imap_app.
    cbn -[Nat.modulo placeholder]. rewrite length_take, Nat.min_l, Nat.add_0_r by lia.
    rewrite length_app, length_seq.
    assert (Halt : forall (f : Line2D -> Line2D) (h : list Line2D) (x : Line2D),
              length h = n -> alter f n (h ++ [x]) = h ++ [f x]).
    { intros f h x Hh. rewrite <- Hh, <- (Nat.add_0_r (length h)), alter_app_r.
      reflexivity. }
    rewrite Halt by (rewrite length_imap, length_take; lia).
    reflexivity.
  - unfold building, stalled, set_ax, set_line, set_heap. cbn -[Nat.modulo].
    change (0 :: seq 1 n) with (seq 0 (S n)). rewrite seq_S, Hd. reflexivity.
Qed.

(** One turn of the initialisation loop that runs past the legend. *)
Lemma new_line_short (l : list string) (n : nat) :
  lg = Some l ->
  length l <= n < length data ->
  new_line time data n (building ax0 xl yl tl lg time data n)
  = (building ax0 xl yl tl lg time data n, inl IndexError).
Proof.
  intros Hlg [Hl Hn].
  destruct (lookup_lt_is_Some_2 data n Hn) as [d Hd].
  unfold new_line, bind, get. cbn [legend colors line_styles building].
  unfold index at 1. rewrite Hd. unfold ret at 1.
  unfold index at 1. rewrite palette_color_lookup. unfold ret at 1.
  unfold index at 1. rewrite palette_style_lookup. unfold ret at 1.
  rewrite Hlg. unfold index, bind. rewrite (lookup_ge_None_2 l n Hl).
  unfold raise. rewrite <- Hlg. reflexivity.
Qed.

(** Every way the initialisation loop can end: it runs through, it
    stops with [IndexError] where the legend ends, or it stops with
    [ValueError] at the first series that cannot be drawn. *)
Lemma init_loop_outcome (n : nat) :
  n <= length data ->
  let r := for_each (new_line time data) (seq 0 n) (__init__ ax0 xl yl tl lg) in
  (r = (building ax0 xl yl tl lg time data n, inr tt) /\
   legend_fits lg n /\ shapes_ok time (take n data) = true) \/
  (exists m, m < n /\ r = (building ax0 xl yl tl lg time data m, inl IndexError) /\
     label_missing lg m = true /\ shapes_ok time (take m data) = true) \/
  (exists m, m < n /\ r = (stalled ax0 xl yl tl lg time data m, inl ValueError) /\
     legend_fits lg (S m) /\ shapes_ok time (take m data) = true /\
     shapes_ok time (take (S m) data) = false).
Proof.
  induction n as [|n IH]; intros Hn r.
  - left. unfold r. cbn. unfold ret. rewrite building_0.
    split; [reflexivity|]. split; [destruct lg; simpl; [lia|exact I]|reflexivity].
  - assert (Heq : r = let (s', s0) := for_each (new_line time data) (seq 0 n)
                                     (__init__ ax0 xl yl tl lg) in
                      match s0 with
                      | inl e => (s', inl e)
                      | inr _ => new_line time data n s'
                      end).
    { unfold r. rewrite seq_S, for_each_app. unfold bind. cbn [for_each Nat.add].
      unfold bind, ret.
      destruct (for_each _ (seq 0 n) _) as [s' [e|[]]]; [reflexivity|].
      destruct (new_line time data n s') as [s'' [e|[]]]; reflexivity. }
    clearbody r. subst r.
    destruct (IH ltac:(lia)) as [(Hr & Hfit & Hsh)|[(m & Hm & Hr & Hlm & Hsh)|
                                                   (m & Hm & Hr & Hfit & Hsh & Hbad)]];
      cbv zeta in Hr; rewrite Hr.
    + destruct (lookup_lt_is_Some_2 data n ltac:(lia)) as [d Hd].
      destruct (label_missing lg n) eqn:Hlm.
      * right. left. exists n. split; [lia|].
        destruct (label_missing_true n Hlm) as (l & Hlg & Hl).
        rewrite (new_line_short l) by (done || lia).
        split; [reflexivity|]. split; [exact Hlm|exact Hsh].
      * pose proof (legend_fits_S n Hfit Hlm) as Hfit'.
        rewrite (new_line_go n d Hd Hfit').
        destruct (broadcastable (length time) (length d)) eqn:Hb.
        -- left. split; [reflexivity|]. split; [exact Hfit'|].
           rewrite (shapes_ok_take_S n d Hd), Hsh, Hb. reflexivity.
        -- right. right. exists n. split; [lia|]. split; [reflexivity|].
           split; [exact Hfit'|]. split; [exact Hsh|].
           rewrite (shapes_ok_take_S n d Hd), Hsh, Hb. reflexivity.
    + right. left. exists m. split; [lia|]. auto.
    + right. right. exists m. split; [lia|]. auto.
Qed.

Lemma shapes_ok_take_le (n m : nat) :
  m <= n -> shapes_ok time (take n data) = true -> shapes_ok time (take m data) = true.
Proof.
  intros Hle Hn. unfold shapes_ok in *.
  replace (take m data) with (take m (take n data)) by (rewrite take_take; f_equal; lia).
  rewrite <- (take_drop m (take n data)), forallb_app in Hn.
  apply andb_true_iff in Hn as [Hn _]. exact Hn.
Qed.

Lemma init_loop_ok (n : nat) :
  n <= length data ->
  legend_fits lg n ->
  shapes_ok time (take n data) = true ->
  for_each (new_line time data) (seq 0 n) (__init__ ax0 xl yl tl lg)
  = (building ax0 xl yl tl lg time data n, inr tt).
Proof.
  intros Hn Hfit Hsh.
  destruct (init_loop_outcome n Hn) as [(Hr & _)|[(m & Hm & _ & Hlm & _)|
                                                  (m & Hm & _ & _ & _ & Hbad)]].
  - exact Hr.
  - exfalso. unfold label_missing, legend_fits in *. destruct lg as [l|]; [|discriminate].
    apply Nat.leb_le in Hlm. lia.
  - rewrite (shapes_ok_take_le n (S m)) in Hbad by (lia || exact Hsh). discriminate.
Qed.

Lemma init_loop_short (l : list string) :
  lg = Some l ->
  length l < length data ->
  shapes_ok time (take (length l) data) = true ->
  for_each (new_line time data) (seq 0 (length data)) (__init__ ax0 xl yl tl lg)
  = (building ax0 xl yl tl lg time data (length l), inl IndexError).
Proof.
  intros Hlg Hl Hsh.
  replace (length data) with (length l + (length data - length l)) at 1 by lia.
  rewrite seq_app, for_each_app. unfold bind at 1.
  rewrite init_loop_ok; [|lia|rewrite Hlg; simpl; lia|exact Hsh].
  destruct (length data - length l) as [|m] eqn:Hm; [lia|].
  cbn [seq for_each Nat.add]. unfold bind.
  rewrite (new_line_short l) by (done || lia). reflexivity.
Qed.

(** [relim] on a subplot all of whose lines can be drawn. *)
Lemma relim_ok (p : myPlot) :
  (forall a l, heap p !! a = Some l -> drawable l = true) ->
  relim p = (p, inr tt).
Proof.
  intros Hall. unfold relim, bind, get.
  replace (forallb _ (ax_lines (ax p))) with true; [reflexivity|].
  symmetry. apply forallb_forall. intros a _.
  destruct (heap p !! a) as [l|] eqn:Hl; [|reflexivity]. eapply Hall; eauto.
Qed.

Lemma registered_data (i : nat) (d : list float) :
  xdata (registered ax0 lg time i d) = time /\ ydata (registered ax0 lg time i d) = d.
Proof.
  unfold registered, placeholder. destruct (unlabelled _); split; reflexivity.
Qed.

Lemma drawable_registered (i : nat) (d : list float) :
  drawable (registered ax0 lg time i d) = broadcastable (length time) (length d).
Proof.
  unfold registered, placeholder. destruct (unlabelled _); reflexivity.
Qed.

Lemma shapes_ok_lookup (i : nat) (d : list float) :
  shapes_ok time data = true -> data !! i = Some d ->
  broadcastable (length time) (length d) = true.
Proof.
  intros Hsh Hd. unfold shapes_ok in Hsh.
  rewrite forallb_forall in Hsh. apply Hsh.
  apply list_elem_of_In. eapply list_elem_of_lookup_2; eauto.
Qed.

(** [relim] on an initialised subplot succeeds exactly when every
    series can be drawn against the time. *)
Lemma relim_live :
  relim (live ax0 xl yl tl lg time data)
  = (live ax0 xl yl tl lg time data,
     if shapes_ok time data then inr tt else inl ValueError).
Proof.
  destruct (shapes_ok time data) eqn:Hsh.
  - apply relim_ok. intros a l Hl. cbn [heap live] in Hl.
    rewrite list_lookup_imap in Hl.
    destruct (data !! a) as [d|] eqn:Hd; [|discriminate]. cbn in Hl. injection Hl as <-.
    rewrite drawable_registered. eapply shapes_ok_lookup; eauto.
  - unfold relim, bind, get.
    replace (forallb _ (ax_lines (ax (live ax0 xl yl tl lg time data)))) with false;
      [reflexivity|].
    symmetry. apply not_true_is_false. intros Hall.
    rewrite forallb_forall in Hall.
    assert (Hok : shapes_ok time data = true); [|congruence].
    unfold shapes_ok. apply forallb_forall. intros d Hd.
    apply list_elem_of_In, list_elem_of_lookup in Hd as [i Hi].
    specialize (Hall i). cbn [heap ax ax_lines live] in Hall.
    rewrite list_lookup_imap, Hi in Hall. cbn [fmap option_fmap option_map] in Hall.
    rewrite drawable_registered in Hall. apply Hall.
    apply in_or_app. right. apply in_seq. pose proof (lookup_lt_Some _ _ _ Hi). lia.
Qed.

(** The first call of [update] on a new subplot whose legend fits and
    whose series can be drawn. *)
Lemma update_fresh :
  legend_fits lg (length data) ->
  shapes_ok time data = true ->
  update time data (__init__ ax0 xl yl tl lg)
  = (live ax0 xl yl tl lg time data, inr tt).
Proof.
  intros Hfit Hsh.
  assert (Hmid : (modify (set_init false) ;;
                  self <- get ;;
                  match legend self with
                  | Some _ => ax_set_legend (line self)
                  | None => ret tt
                  end) (building ax0 xl yl tl lg time data (length data))
                 = (live ax0 xl yl tl lg time data, inr tt)).
  { unfold building. rewrite firstn_all.
    unfold modify, get, bind, ret, ax_set_legend, set_init, set_ax.
    destruct lg; reflexivity. }
  unfold update.
  unfold bind at 1. unfold get at 1. cbn [init __init__].
  unfold bind at 1. unfold bind at 1.
  rewrite init_loop_ok by (done || lia || (rewrite firstn_all; exact Hsh)).
  cbv beta iota. rewrite Hmid. cbv beta iota.
  unfold bind. rewrite relim_live, Hsh. reflexivity.
Qed.

(** The first call of [update] on a new subplot whose legend is too
    short, the series before the end of the legend being drawable. *)
Lemma update_fresh_short (l : list string) :
  lg = Some l ->
  length l < length data ->
  shapes_ok time (take (length l) data) = true ->
  update time data (__init__ ax0 xl yl tl lg)
  = (building ax0 xl yl tl lg time data (length l), inl IndexError).
Proof.
  intros Hlg Hl Hsh. unfold update.
  unfold bind at 1. unfold get at 1. cbn [init __init__].
  unfold bind at 1. unfold bind at 1.
  rewrite (init_loop_short l) by done. reflexivity.
Qed.

(** Every way the first call of [update] on a new subplot can end. *)
Lemma update_fresh_outcome :
  (update time data (__init__ ax0 xl yl tl lg) = (live ax0 xl yl tl lg time data, inr tt) /\
   legend_fits lg (length data) /\ shapes_ok time data = true) \/
  (exists m, m < length data /\
     update time data (__init__ ax0 xl yl tl lg)
     = (building ax0 xl yl tl lg time data m, inl IndexError) /\
     label_missing lg m = true /\ shapes_ok time (take m data) = true) \/
  (exists m, m < length data /\
     update time data (__init__ ax0 xl yl tl lg)
     = (stalled ax0 xl yl tl lg time data m, inl ValueError) /\
     shapes_ok time data = false /\ legend_fits lg (S m) /\
     shapes_ok time (take m data) = true /\
     shapes_ok time (take (S m) data) = false).
Proof.
  destruct (init_loop_outcome (length data) (Nat.le_refl _))
    as [(Hr & Hfit & Hsh)|[(m & Hm & Hr & Hlm & Hsh)|(m & Hm & Hr & Hfit & Hsh & Hbad)]];
    cbv zeta in Hr.
  - left. rewrite firstn_all in Hsh. split; [apply update_fresh; assumption|auto].
  - right. left. exists m. split; [exact Hm|]. split; [|split; [exact Hlm|exact Hsh]].
    unfold update. unfold bind at 1. unfold get at 1. cbn [init __init__].
    unfold bind at 1. unfold bind at 1. rewrite Hr. reflexivity.
  - right. right. exists m. split; [exact Hm|].
    split; [|split; [|split; [assumption|split; assumption]]].
    + unfold update. unfold bind at 1. unfold get at 1. cbn [init __init__].
      unfold bind at 1. unfold bind at 1. rewrite Hr. reflexivity.
    + destruct (shapes_ok time data) eqn:Hall; [|reflexivity].
      rewrite <- (firstn_all data) in Hall.
      rewrite (shapes_ok_take_le (length data) (S m)) in Hbad by (lia || exact Hall).
      discriminate.
Qed.

End PanelLoops.

Section PanelRefresh.
Import Panel PanelState.

Variables (time : list float) (data : list (list float)).

(** One turn of the refresh loop changes the object at address [n] and
    nothing else. *)
Lemma refresh_line_step (p : myPlot) (k n : nat) (d : list float) :
  line p = seq 0 k ->
  n < k ->
  data !! n = Some d ->
  refresh_line time data n p
  = (set_heap (alter (fun l => mkLine2D time d (color l) (ls l) (label l)) n) p, inr tt).
Proof.
  intros Hline Hn Hd.
  assert (Hl : line p !! n = Some n).
  { rewrite Hline. apply lookup_seq_lt. lia. }
  unfold refresh_line, bind, get, index. rewrite Hl. unfold ret at 1.
  unfold set_xdata, set_ydata, modify. rewrite Hd. unfold ret.
  unfold set_heap. cbn. rewrite alter_twice. reflexivity.
Qed.

Lemma refreshed_0 (h : list Line2D) : refreshed time data 0 h = h.
Proof.
  unfold refreshed. apply list_eq. intros i. rewrite list_lookup_imap.
  destruct (h !! i); reflexivity.
Qed.

Lemma refreshed_S (h : list Line2D) (n : nat) (d : list float) :
  data !! n = Some d ->
  alter (fun l => mkLine2D time d (color l) (ls l) (label l)) n (refreshed time data n h)
  = refreshed time data (S n) h.
Proof.
  intros Hd. unfold refreshed. apply list_eq. intros i.
  destruct (decide (i = n)) as [->|Hne].
  - rewrite list_lookup_alter_eq, !list_lookup_imap.
    destruct (h !! n); simpl; [|reflexivity].
    rewrite decide_False by lia. rewrite decide_True by lia. rewrite Hd. reflexivity.
  - rewrite list_lookup_alter_ne by auto. rewrite !list_lookup_imap.
    destruct (h !! i); simpl; [|reflexivity].
    destruct (decide (i < n)); [rewrite decide_True by lia|rewrite decide_False by lia];
      reflexivity.
Qed.

Lemma refresh_loop (p : myPlot) (k n : nat) :
  line p = seq 0 k ->
  n <= k ->
  n <= length data ->
  for_each (refresh_line time data) (seq 0 n) p
  = (set_heap (refreshed time data n) p, inr tt).
Proof.
  intros Hline. induction n as [|n IH]; intros Hk Hn.
  - simpl. unfold ret, set_heap. rewrite refreshed_0. destruct p; reflexivity.
  - rewrite seq_S, for_each_app. unfold bind at 1. rewrite IH by lia.
    destruct (lookup_lt_is_Some_2 data n ltac:(lia)) as [d Hd].
    cbn [for_each Nat.add]. unfold bind.
    rewrite (refresh_line_step _ k n d) by (done || lia).
    unfold ret, set_heap. cbn. rewrite (refreshed_S _ _ _ Hd). reflexivity.
Qed.

(** The refresh loop stops with an [IndexError] at the first line that
    has no series. *)
Lemma refresh_line_short (p : myPlot) (k n : nat) :
  line p = seq 0 k ->
  length data <= n < k ->
  snd (refresh_line time data n p) = inl IndexError.
Proof.
  intros Hline [Hd Hn].
  assert (Hl : line p !! n = Some n).
  { rewrite Hline. apply lookup_seq_lt. lia. }
  unfold refresh_line, bind, get, index. rewrite Hl. unfold ret at 1.
  unfold set_xdata, modify. rewrite (lookup_ge_None_2 data n Hd). reflexivity.
Qed.

Variables (ax0 : Axes) (xl yl tl : string) (lg : option (list string)).
Variables (time0 : list float) (data0 : list (list float)).

Lemma refreshed_live :
  length data = length data0 ->
  refreshed time data (length data0) (imap (registered ax0 lg time0) data0)
  = imap (registered ax0 lg time) data.
Proof.
  intros Hlen. unfold refreshed. apply list_eq. intros i.
  rewrite !list_lookup_imap.
  destruct (data0 !! i) as [d0|] eqn:H0.
  - pose proof (lookup_lt_Some _ _ _ H0) as Hi.
    destruct (lookup_lt_is_Some_2 data i ltac:(lia)) as [d Hd].
    rewrite Hd. cbn [fmap option_fmap option_map default].
    rewrite decide_True by lia. f_equal.
    unfold registered, placeholder.
    change (unlabelled (created lg time0 i d0)) with (unlabelled (created lg time i d)).
    destruct (unlabelled (created lg time i d)); reflexivity.
  - rewrite (lookup_ge_None_2 data i); [reflexivity|].
    apply lookup_ge_None_1 in H0. lia.
Qed.

(** A later call of [update] with as many series as there are lines:
    the lines take the new data, and the call returns when these can be
    drawn. *)
Lemma update_live :
  length data = length data0 ->
  update time data (live ax0 xl yl tl lg time0 data0)
  = (live ax0 xl yl tl lg time data,
     if shapes_ok time data then inr tt else inl ValueError).
Proof.
  intros Hlen. unfold update.
  unfold bind at 1. unfold get at 1. cbn [init live].
  unfold bind at 1.
  replace (length (line (live ax0 xl yl tl lg time0 data0))) with (length data0)
    by (simpl; rewrite length_seq; reflexivity).
  rewrite (refresh_loop _ (length data0)) by (reflexivity || lia).
  assert (Hst : set_heap (refreshed time data (length data0))
                  (live ax0 xl yl tl lg time0 data0)
                = live ax0 xl yl tl lg time data).
  { unfold set_heap, live. cbn [heap legend ax colors line_styles line init].
    rewrite refreshed_live by done. rewrite Hlen. reflexivity. }
  rewrite Hst. unfold bind. rewrite relim_live.
  destruct (shapes_ok time data); reflexivity.
Qed.

End PanelRefresh.

(** ** The subplot over a sequence of calls *)

Lemma last_cons_default {A} (a d : A) (l : list A) :
  List.last (a :: l) d = List.last l a.
Proof.
  revert a d. induction l as [|b l IH]; intros a d; [reflexivity|].
  change (List.last (a :: b :: l) d) with (List.last (b :: l) d).
  rewrite !IH. reflexivity.
Qed.

Section PanelRuns.
Import Panel PanelState.

Variables (ax0 : Axes) (xl yl tl : string) (lg : option (list string)).

Lemma updates_live (calls : list (list float * list (list float)))
    (time0 : list float) (data0 : list (list float)) :
  (forall c, c ∈ calls -> length (snd c) = length data0) ->
  (forall c, c ∈ calls -> shapes_ok (fst c) (snd c) = true) ->
  updates calls (live ax0 xl yl tl lg time0 data0)
  = (live ax0 xl yl tl lg (fst (List.last calls (time0, data0)))
                          (snd (List.last calls (time0, data0))), inr tt).
Proof.
  revert time0 data0. induction calls as [|[t d] calls IH]; intros time0 data0 Hlen Hsh.
  - reflexivity.
  - unfold updates. cbn [for_each]. unfold bind. cbn [fst snd].
    rewrite update_live by (apply (Hlen (t, d)); left).
    pose proof (Hsh (t, d) ltac:(left)) as Htd. cbn [fst snd] in Htd. rewrite Htd.
    fold (updates calls). rewrite IH.
    + rewrite last_cons_default. reflexivity.
    + intros c Hc. rewrite (Hlen c) by (right; exact Hc).
      symmetry. apply (Hlen (t, d)). left.
    + intros c Hc. apply Hsh. right. exact Hc.
Qed.

Lemma updates_fresh (calls : list (list float * list (list float))) (k : nat)
    (c0 : list float * list (list float)) :
  legend_fits lg k ->
  (forall c, c ∈ calls -> length (snd c) = k) ->
  (forall c, c ∈ calls -> shapes_ok (fst c) (snd c) = true) ->
  calls <> [] ->
  updates calls (__init__ ax0 xl yl tl lg)
  = (live ax0 xl yl tl lg (fst (List.last calls c0)) (snd (List.last calls c0)), inr tt).
Proof.
  intros Hfit Hlen Hsh Hne. destruct calls as [|[t d] calls]; [done|].
  assert (Hd : length d = k) by (apply (Hlen (t, d)); left).
  unfold updates. cbn [for_each]. unfold bind. cbn [fst snd].
  rewrite update_fresh by ((rewrite Hd; exact Hfit) || (apply (Hsh (t, d)); left)).
  fold (updates calls). rewrite updates_live.
  - rewrite last_cons_default. reflexivity.
  - intros c Hc. rewrite Hd. apply Hlen. right. exact Hc.
  - intros c Hc. apply Hsh. right. exact Hc.
Qed.

(** Over later calls with as many series as there are lines, whether
    they return or not, an initialised subplot stays an initialised
    subplot with the same number of lines. *)
Lemma updates_live_any (calls : list (list float * list (list float)))
    (time0 : list float) (data0 : list (list float)) :
  (forall c, c ∈ calls -> length (snd c) = length data0) ->
  exists t d, length d = length data0 /\
    state_after (updates calls) (live ax0 xl yl tl lg time0 data0)
    = live ax0 xl yl tl lg t d.
Proof.
  revert time0 data0. induction calls as [|[t d] calls IH]; intros time0 data0 Hlen.
  - exists time0, data0. split; reflexivity.
  - assert (Hd : length d = length data0) by (apply (Hlen (t, d)); left).
    unfold state_after, updates. cbn [for_each]. unfold bind. cbn [fst snd].
    rewrite update_live by exact Hd.
    destruct (shapes_ok t d).
    + destruct (IH t d) as (t' & d' & Hd' & Hst).
      { intros c Hc. rewrite Hd. apply Hlen. right. exact Hc. }
      exists t', d'. split; [congruence|exact Hst].
    + exists t, d. split; [exact Hd|reflexivity].
Qed.

Lemma lookup_live (time : list float) (data : list (list float)) (i : nat) (d : list float) :
  data !! i = Some d ->
  line (live ax0 xl yl tl lg time data) !! i = Some i /\
  heap (live ax0 xl yl tl lg time data) !! i = Some (registered ax0 lg time i d).
Proof.
  intros Hd. simpl. split.
  - apply lookup_seq_lt. eapply lookup_lt_Some; eauto.
  - rewrite list_lookup_imap, Hd. reflexivity.
Qed.

End PanelRuns.

Section PanelStyles.
Import Panel PanelState.

Variables (ax0 : Axes) (xl yl tl : string) (lg : option (list string)).
Variables (time : list float) (data : list (list float)).

Lemma created_style (i : nat) (d : list float) :
  palette_colors !! (i mod 7) = Some (color (created lg time i d)) /\
  palette_styles !! (i mod 5) = Some (ls (created lg time i d)).
Proof.
  unfold created. cbn [color ls].
  pose proof (palette_color_lookup i) as Hc. pose proof (palette_style_lookup i) as Hs.
  change (length palette_colors) with 7 in Hc.
  change (length palette_styles) with 5 in Hs. auto.
Qed.

Lemma registered_style (i : nat) (d : list float) :
  palette_colors !! (i mod 7) = Some (color (registered ax0 lg time i d)) /\
  palette_styles !! (i mod 5) = Some (ls (registered ax0 lg time i d)).
Proof.
  unfold registered, placeholder.
  destruct (unlabelled _); apply created_style.
Qed.

(** In a store built by the initialisation loop, the line at address
    [i] has the colour and the style of index [i]. *)
Lemma styled_store (p : myPlot) (n : nat) :
  colors p = palette_colors -> line_styles p = palette_styles ->
  line p = seq 0 n ->
  (forall i, i < n -> exists ln, heap p !! i = Some ln /\
     palette_colors !! (i mod 7) = Some (color ln) /\
     palette_styles !! (i mod 5) = Some (ls ln)) ->
  forall i a, line p !! i = Some a ->
    exists ln, heap p !! a = Some ln /\
      colors p !! (i mod 7) = Some (color ln) /\
      line_styles p !! (i mod 5) = Some (ls ln).
Proof.
  intros Hc Hs Hline Hheap i a Hi. rewrite Hline in Hi.
  apply lookup_seq in Hi as [-> Hi]. simpl in Hi.
  rewrite Hc, Hs. apply Hheap. exact Hi.
Qed.

Lemma registered_store (l : list (list float)) (i : nat) :
  i < length l ->
  exists ln, imap (registered ax0 lg time) l !! i = Some ln /\
    palette_colors !! (i mod 7) = Some (color ln) /\
    palette_styles !! (i mod 5) = Some (ls ln).
Proof.
  intros Hi. destruct (lookup_lt_is_Some_2 l i Hi) as [d Hd].
  exists (registered ax0 lg time i d). rewrite list_lookup_imap, Hd.
  split; [reflexivity|]. apply registered_style.
Qed.

Lemma styled_building (n : nat) :
  n <= length data ->
  forall i a, line (building ax0 xl yl tl lg time data n) !! i = Some a ->
    exists ln, heap (building ax0 xl yl tl lg time data n) !! a = Some ln /\
      colors (building ax0 xl yl tl lg time data n) !! (i mod 7) = Some (color ln) /\
      line_styles (building ax0 xl yl tl lg time data n) !! (i mod 5) = Some (ls ln).
Proof.
  intros Hn. apply (styled_store _ n); try reflexivity.
  intros i Hi. cbn [heap building]. apply registered_store.
  rewrite length_take. lia.
Qed.

Lemma styled_stalled (n : nat) :
  n < length data ->
  forall i a, line (stalled ax0 xl yl tl lg time data n) !! i = Some a ->
    exists ln, heap (stalled ax0 xl yl tl lg time data n) !! a = Some ln /\
      colors (stalled ax0 xl yl tl lg time data n) !! (i mod 7) = Some (color ln) /\
      line_styles (stalled ax0 xl yl tl lg time data n) !! (i mod 5) = Some (ls ln).
Proof.
  intros Hn. apply (styled_store _ (S n)); try reflexivity.
  intros i Hi. cbn [heap stalled].
  assert (Hlen : length (imap (registered ax0 lg time) (take n data)) = n)
    by (rewrite length_imap, length_take; lia).
  destruct (decide (i < n)) as [Hlt|Hge].
  - rewrite lookup_app_l by lia. apply registered_store. rewrite length_take. lia.
  - assert (i = n) as -> by lia.
    rewrite lookup_app_r by lia. rewrite Hlen, Nat.sub_diag.
    eexists. split; [reflexivity|]. apply created_style.
Qed.

Lemma styled_live :
  forall i a, line (live ax0 xl yl tl lg time data) !! i = Some a ->
    exists ln, heap (live ax0 xl yl tl lg time data) !! a = Some ln /\
      colors (live ax0 xl yl tl lg time data) !! (i mod 7) = Some (color ln) /\
      line_styles (live ax0 xl yl tl lg time data) !! (i mod 5) = Some (ls ln).
Proof.
  apply (styled_store _ (length data)); try reflexivity.
  intros i Hi. cbn [heap live]. apply registered_store. exact Hi.
Qed.

End PanelStyles.

(** C1 (counterexamples).  A subplot over two series with a legend of
    one label: the first [update] leaves one line object, not two, and
    the second [update] runs the initialisation again and creates a
    further line object.  A subplot over one series of two points
    against a time of three points: the first [update] raises
    [ValueError], the subplot stays in its initialisation phase, and the
    second [update] creates a second line object. *)
Lemma lines_added_after_first_update :
  (let p0 := Panel.__init__ Panel.blank_axes "" "y" "" (Some ["a"]) in
   let call := Panel.update [0%float] [[1%float]; [2%float]] in
   let p1 := state_after call p0 in
   let p2 := state_after call p1 in
   length (Panel.heap p1) = 1 /\ Panel.init p1 = true /\
   length (Panel.heap p2) = 2 /\ Panel.line p2 = [0; 1]) /\
  (let p0 := Panel.__init__ Panel.blank_axes "" "y" "" None in
   let call := Panel.update [0%float; 1%float; 2%float] [[1%float; 2%float]] in
   let p1 := state_after call p0 in
   let p2 := state_after call p1 in
   snd (call p0) = inl ValueError /\ Panel.init p1 = true /\
   length (Panel.heap p1) = 1 /\
   length (Panel.heap p2) = 2 /\ Panel.line p2 = [0; 1]).
Proof. vm_compute. auto 10. Qed.

(** C1 (amended).  Take a new subplot, a sequence of calls of [update]
    with [k] series each, every series drawable against the time of its
    call, the legend absent or long enough for the [k] series, and any
    [N = n + 1 >= 1] of these calls, the last one with [time] and
    [data].  The [N] calls return; after them the subplot is out of its
    initialisation phase, [self.line] holds [k] addresses, the same for
    every [N] (the ones given out by the first call), the store holds
    exactly [k] line objects, so none was created after the first call,
    each is registered once with the axes, and the object at address [i]
    is the line created for index [i], as the axes registered it,
    carrying the data of the latest call. *)
Theorem update_initialises_once
    (ax0 : Panel.Axes) (xl yl tl : string) (lg : option (list string)) (k : nat)
    (calls : list (list float * list (list float))) (n : nat)
    (time : list float) (data : list (list float)) :
  PanelState.legend_fits lg k ->
  (forall c, c ∈ calls -> length (snd c) = k) ->
  (forall c, c ∈ calls -> PanelState.shapes_ok (fst c) (snd c) = true) ->
  calls !! n = Some (time, data) ->
  let p0 := Panel.__init__ ax0 xl yl tl lg in
  let run := Panel.updates (take (S n) calls) in
  returns run p0 /\
  Panel.init (state_after run p0) = false /\
  Panel.line (state_after run p0) = seq 0 k /\
  length (Panel.heap (state_after run p0)) = k /\
  Panel.ax_lines (Panel.ax (state_after run p0)) = Panel.ax_lines ax0 ++ seq 0 k /\
  forall i d, data !! i = Some d ->
    Panel.heap (state_after run p0) !! i = Some (PanelState.registered ax0 lg time i d).
Proof.
  intros Hfit Hlen Hsh Hn p0 run.
  assert (Hk : length data = k) by (apply (Hlen (time, data)); eapply list_elem_of_lookup_2; eauto).
  assert (Hrun : run p0 = (PanelState.live ax0 xl yl tl lg time data, inr tt)).
  { unfold run, p0. rewrite (updates_fresh _ _ _ _ _ _ k (time, data)); try done.
    - rewrite (take_S_r _ _ _ Hn), last_last. reflexivity.
    - intros c Hc. apply Hlen. apply elem_of_take in Hc as (j & Hj & _).
      eapply list_elem_of_lookup_2; eauto.
    - intros c Hc. apply Hsh. apply elem_of_take in Hc as (j & Hj & _).
      eapply list_elem_of_lookup_2; eauto.
    - rewrite (take_S_r _ _ _ Hn). intros Habs. apply app_eq_nil in Habs as [_ ?]. done. }
  unfold returns, state_after. rewrite Hrun. cbn [fst snd].
  split; [eauto|]. split; [reflexivity|]. rewrite <- Hk.
  split; [reflexivity|]. split; [simpl; apply length_imap|].
  split; [reflexivity|].
  intros i d Hd. apply lookup_live. exact Hd.
Qed.

Lemma update_initialises_once_witness :
  let calls := [([0%float], [[1%float]; [2%float]]);
                ([0%float; 1%float], [[1%float; 3%float]; [2%float; 4%float]])] in
  let p0 := Panel.__init__ Panel.blank_axes "" "y" "" (Some ["a"; "b"]) in
  Panel.line (state_after (Panel.updates (take 2 calls)) p0) = [0; 1].
Proof.
  intros calls p0.
  refine (proj1 (proj2 (proj2
    (update_initialises_once Panel.blank_axes "" "y" "" (Some ["a"; "b"]) 2 calls 1
       [0%float; 1%float] [[1%float; 3%float]; [2%float; 4%float]] _ _ _ _)))).
  - simpl. lia.
  - intros c Hc. unfold calls in Hc. each_elem Hc; reflexivity.
  - intros c Hc. unfold calls in Hc. each_elem Hc; reflexivity.
  - reflexivity.
Defined.

(** C8.  The palettes of a subplot have 7 colours and 5 line styles.
    The line created at index [i] by the first [update] of a new
    subplot, whether that call returns or raises, has the colour at
    [i mod 7] and the style at [i mod 5] of the palettes, whatever the
    number of series and their values; and when the legend fits, the
    line at index [i] still has that colour and style after every later
    call. *)
Theorem line_style_cycles
    (ax0 : Panel.Axes) (xl yl tl : string) (lg : option (list string)) :
  let p0 := Panel.__init__ ax0 xl yl tl lg in
  length (Panel.colors p0) = 7 /\ length (Panel.line_styles p0) = 5 /\
  (forall time data i a,
     let p := state_after (Panel.update time data) p0 in
     Panel.line p !! i = Some a ->
     exists ln, Panel.heap p !! a = Some ln /\
       Panel.colors p !! (i mod 7) = Some (Panel.color ln) /\
       Panel.line_styles p !! (i mod 5) = Some (Panel.ls ln)) /\
  (forall calls time data i a,
     PanelState.legend_fits lg (length data) ->
     (forall c, c ∈ calls -> length (snd c) = length data) ->
     let p := state_after (Panel.updates ((time, data) :: calls)) p0 in
     Panel.line p !! i = Some a ->
     exists ln, Panel.heap p !! a = Some ln /\
       Panel.colors p !! (i mod 7) = Some (Panel.color ln) /\
       Panel.line_styles p !! (i mod 5) = Some (Panel.ls ln)).
Proof.
  intros p0. split; [reflexivity|]. split; [reflexivity|].
  assert (Hfirst : forall time data,
    (exists t d, state_after (Panel.update time data) p0
                 = PanelState.live ax0 xl yl tl lg t d /\ length d = length data /\
                 snd (Panel.update time data p0) = inr tt) \/
    (snd (Panel.update time data p0) <> inr tt /\
     forall i a, Panel.line (state_after (Panel.update time data) p0) !! i = Some a ->
       exists ln, Panel.heap (state_after (Panel.update time data) p0) !! a = Some ln /\
         Panel.colors (state_after (Panel.update time data) p0) !! (i mod 7)
         = Some (Panel.color ln) /\
         Panel.line_styles (state_after (Panel.update time data) p0) !! (i mod 5)
         = Some (Panel.ls ln))).
  { intros time data. unfold p0, state_after.
    destruct (update_fresh_outcome ax0 xl yl tl lg time data)
      as [(Hr & _)|[(m & Hm & Hr & _)|(m & Hm & Hr & _)]]; rewrite Hr; cbn [fst snd].
    - left. exists time, data. auto.
    - right. split; [discriminate|]. apply styled_building. lia.
    - right. split; [discriminate|]. apply styled_stalled. exact Hm. }
  split.
  - intros time data i a p Hline. unfold p in *.
    destruct (Hfirst time data) as [(t & d & Hst & _)|[_ Hsty]].
    + rewrite Hst in *. apply styled_live. exact Hline.
    + apply Hsty. exact Hline.
  - intros calls time data i a Hfit Hlen p Hline.
    assert (Hp : (exists t d, p = PanelState.live ax0 xl yl tl lg t d) \/
                 p = state_after (Panel.update time data) p0 /\
                 snd (Panel.update time data p0) <> inr tt).
    { unfold p, state_after, Panel.updates. cbn [for_each fst snd]. unfold bind.
      destruct (Hfirst time data) as [(t & d & Hst & Hd & Hok)|[Hbad _]].
      - left. unfold state_after in Hst.
        destruct (Panel.update time data p0) as [s1 r1]. cbn [fst snd] in *.
        subst s1 r1. fold (Panel.updates calls).
        destruct (updates_live_any ax0 xl yl tl lg calls t d) as (t' & d' & _ & Hst').
        { intros c Hc. rewrite Hd. apply Hlen. exact Hc. }
        exists t', d'. exact Hst'.
      - right. destruct (Panel.update time data p0) as [s1 [e|[]]]; cbn [fst snd] in *.
        + split; [reflexivity|discriminate].
        + contradiction. }
    destruct Hp as [(t & d & Hp)|[Hp Hbad]].
    + rewrite Hp in *. apply styled_live. exact Hline.
    + destruct (Hfirst time data) as [(t & d & _ & _ & Hok)|[_ Hsty]]; [contradiction|].
      rewrite Hp in *. apply Hsty. exact Hline.
Qed.

Lemma line_style_cycles_witness :
  let p := state_after (Panel.update [0%float] (replicate 8 [1%float]))
             (Panel.__init__ Panel.blank_axes "" "y" "" None) in
  exists ln, Panel.heap p !! 7 = Some ln /\
    Panel.colors p !! (7 mod 7) = Some (Panel.color ln) /\
    Panel.line_styles p !! (7 mod 5) = Some (Panel.ls ln).
Proof.
  intros p.
  refine (proj1 (proj2 (proj2
    (line_style_cycles Panel.blank_axes "" "y" "" None)))
    [0%float] (replicate 8 [1%float]) 7 7 _).
  reflexivity.
Defined.

(** C10 (counterexample).  A legend of one label on two series of two
    points against a time of three points: the first [update] raises
    [ValueError] when the axes refuse the first line, before any index
    into the legend is out of range, and that line is in [self.line]
    but not registered with the axes. *)
Lemma short_legend_undrawable_series :
  let p0 := Panel.__init__ Panel.blank_axes "" "y" "" (Some ["a"]) in
  let call := Panel.update [0%float; 1%float; 2%float]
                [[1%float; 2%float]; [3%float; 4%float]] in
  snd (call p0) = inl ValueError /\
  Panel.line (state_after call p0) = [0] /\
  Panel.ax_lines (Panel.ax (state_after call p0)) = [].
Proof. vm_compute. auto. Qed.

(** C10 (amended).  A subplot constructed with a legend shorter than
    the number of series it then receives is constructed without error,
    and its first [update] raises and leaves it in its initialisation
    phase.  When the series that have a label can be drawn against the
    time, the exception is [IndexError], raised when the loop reaches
    index [len(legend)], and the lines created before that index stay
    in [self.line] and in the axes.  When one of them cannot be drawn,
    the exception is [ValueError], raised at the index [m] of the first
    such series, below [len(legend)]; the lines before [m] stay in
    [self.line] and in the axes, and the line of index [m] is in
    [self.line] only. *)
Theorem short_legend_fails_at_first_update
    (ax0 : Panel.Axes) (xl yl tl : string) (l : list string)
    (time : list float) (data : list (list float)) :
  length l < length data ->
  let p0 := Panel.__init__ ax0 xl yl tl (Some l) in
  let p := state_after (Panel.update time data) p0 in
  Panel.legend p0 = Some l /\ Panel.line p0 = [] /\
  l !! length l = None /\
  Panel.init p = true /\
  (PanelState.shapes_ok time (take (length l) data) = true ->
   snd (Panel.update time data p0) = inl IndexError /\
   Panel.line p = seq 0 (length l) /\
   Panel.ax_lines (Panel.ax p) = Panel.ax_lines ax0 ++ seq 0 (length l) /\
   length (Panel.heap p) = length l /\
   snd (Panel.new_line time data (length l) p) = inl IndexError /\
   forall i, i < length l ->
     snd (Panel.new_line time data i
            (PanelState.building ax0 xl yl tl (Some l) time data i)) = inr tt) /\
  (PanelState.shapes_ok time (take (length l) data) = false ->
   snd (Panel.update time data p0) = inl ValueError /\
   exists m, m < length l /\
     PanelState.shapes_ok time (take m data) = true /\
     PanelState.shapes_ok time (take (S m) data) = false /\
     Panel.line p = seq 0 (S m) /\
     Panel.ax_lines (Panel.ax p) = Panel.ax_lines ax0 ++ seq 0 m /\
     length (Panel.heap p) = S m).
Proof.
  intros Hshort p0 p.
  assert (Hgood : PanelState.shapes_ok time (take (length l) data) = true ->
            Panel.update time data p0
            = (PanelState.building ax0 xl yl tl (Some l) time data (length l),
               inl IndexError)).
  { intros Hsh. unfold p0. apply update_fresh_short; done. }
  assert (Hbad : PanelState.shapes_ok time (take (length l) data) = false ->
            exists m, m < length l /\
              PanelState.shapes_ok time (take m data) = true /\
              PanelState.shapes_ok time (take (S m) data) = false /\
              Panel.update time data p0
              = (PanelState.stalled ax0 xl yl tl (Some l) time data m, inl ValueError)).
  { intros Hsh. unfold p0.
    destruct (update_fresh_outcome ax0 xl yl tl (Some l) time data)
      as [(_ & Hfit & _)|[(m & Hm & Hr & Hlm & Hok)|(m & Hm & Hr & _ & Hfit & Hok & Hno)]].
    - simpl in Hfit. lia.
    - apply Nat.leb_le in Hlm.
      rewrite (shapes_ok_take_le time data m (length l) Hlm Hok) in Hsh. discriminate.
    - simpl in Hfit. exists m. split; [lia|]. auto. }
  split; [reflexivity|]. split; [reflexivity|].
  split; [apply lookup_ge_None_2; lia|].
  split.
  { unfold p, state_after.
    destruct (PanelState.shapes_ok time (take (length l) data)) eqn:Hsh.
    - rewrite (Hgood eq_refl). reflexivity.
    - destruct (Hbad eq_refl) as (m & _ & _ & _ & Hr). rewrite Hr. reflexivity. }
  split.
  - intros Hsh. unfold p, state_after. rewrite (Hgood Hsh). cbn [fst snd].
    split; [reflexivity|]. split; [reflexivity|]. split; [reflexivity|].
    split; [simpl; rewrite length_imap, length_take; lia|].
    split.
    + rewrite (new_line_short _ _ _ _ _ _ _ l); [reflexivity|reflexivity|lia].
    + intros i Hi. destruct (lookup_lt_is_Some_2 data i ltac:(lia)) as [d Hd].
      rewrite (new_line_go _ _ _ _ _ _ _ i d Hd) by (simpl; lia).
      assert (Hb : Panel.broadcastable (length time) (length d) = true).
      { apply (shapes_ok_lookup time (take (length l) data) i d Hsh).
        rewrite lookup_take_lt by exact Hi. exact Hd. }
      rewrite Hb. reflexivity.
  - intros Hsh. destruct (Hbad Hsh) as (m & Hm & Hok & Hno & Hr).
    unfold p, state_after. rewrite Hr. cbn [fst snd].
    split; [reflexivity|]. exists m.
    split; [exact Hm|]. split; [exact Hok|]. split; [exact Hno|].
    split; [reflexivity|]. split; [reflexivity|].
    simpl. rewrite length_app, length_imap, length_take. simpl. lia.
Qed.

Lemma short_legend_fails_at_first_update_witness :
  let p0 := Panel.__init__ Panel.blank_axes "" "y" "" (Some ["a"]) in
  let p := state_after (Panel.update [0%float] [[1%float]; [2%float]]) p0 in
  snd (Panel.update [0%float] [[1%float]; [2%float]] p0) = inl IndexError /\
  Panel.line p = [0] /\ Panel.init p = true.
Proof.
  intros p0 p.
  pose proof (short_legend_fails_at_first_update Panel.blank_axes "" "y" "" ["a"]
    [0%float] [[1%float]; [2%float]] ltac:(simpl; lia)) as (_ & _ & _ & Hinit & Hgood & _).
  destruct (Hgood eq_refl) as (Herr & Hline & _).
  split; [exact Herr|]. split; [exact Hline|exact Hinit].
Defined.

(** ** The plotter: construction *)

Section PlotterInit.
Import Plotter PlotterState.

Lemma init_handles_loop (axs : list Panel.Axes) (l : list PlotConfig) (i : nat)
    (acc : list Panel.myPlot) :
  (forall j, i <= j < i + length l -> axs !! j = Some Panel.blank_axes) ->
  for_each (fun ip : nat * PlotConfig =>
              a <- index axs (fst ip) ;;
              modify (fun h => h ++
                [Panel.__init__ a (default "" (xlabel (snd ip)))
                                  (default "" (ylabel (snd ip)))
                                  (default "" (title (snd ip)))
                                  (legend (snd ip))]))
           (zip (seq i (length l)) l) acc
  = (acc ++ map fresh_panel l, inr tt).
Proof.
  revert i acc. induction l as [|plot l IH]; intros i acc Hax.
  - simpl. unfold ret. rewrite app_nil_r. reflexivity.
  - cbn [length seq zip zip_with for_each]. unfold bind at 1. unfold bind at 1.
    unfold index. cbn [fst snd]. rewrite Hax by (simpl; lia).
    unfold ret, modify. rewrite IH.
    + rewrite <- app_assoc. reflexivity.
    + intros j Hj. apply Hax. simpl. lia.
Qed.

Lemma init_nonempty (config : list PlotConfig) :
  config <> [] -> __init__ (Some config) = inr (constructed config).
Proof.
  intros Hne. unfold __init__, subplots.
  destruct (length config) as [|n] eqn:Hlen.
  { destruct config; [done|discriminate]. }
  unfold init_handles, enumerate. rewrite <- Hlen.
  rewrite init_handles_loop.
  - unfold constructed. rewrite Hlen. reflexivity.
  - intros j Hj. apply lookup_replicate_2. lia.
Qed.

Lemma init_empty : __init__ (Some []) = inl ValueError.
Proof. reflexivity. Qed.

Lemma init_default : __init__ None = inr (constructed default_config).
Proof. apply (init_nonempty default_config). discriminate. Qed.

Lemma init_cases (config : option (list PlotConfig)) (p0 : MotorDataPlotter) :
  __init__ config = inr p0 -> exists c, c <> [] /\ p0 = constructed c.
Proof.
  destruct config as [c|].
  - destruct c as [|plot c].
    + rewrite init_empty. discriminate.
    + rewrite init_nonempty by discriminate. intros [= <-]. eexists; split; [|reflexivity].
      discriminate.
  - rewrite init_default. intros [= <-]. eexists; split; [|reflexivity]. discriminate.
Qed.

(** The histories created at construction: one empty list per declared
    signal. *)
Lemma init_histories_signals (h : gmap string (list float)) (sigs : list string)
    (name : string) :
  foldl (fun h' signal => <[signal := []]> h') h sigs !! name
  = if decide (name ∈ sigs) then Some [] else h !! name.
Proof.
  revert h. induction sigs as [|s sigs IH]; intros h; cbn [foldl].
  - rewrite decide_False by apply not_elem_of_nil. reflexivity.
  - rewrite IH. destruct (decide (name ∈ sigs)) as [Hin|Hnin].
    + rewrite decide_True by (right; exact Hin). reflexivity.
    + destruct (decide (name = s)) as [->|Hne].
      * rewrite decide_True by left. apply lookup_insert_eq.
      * rewrite decide_False.
        -- apply lookup_insert_ne. congruence.
        -- intros Hc. apply elem_of_cons in Hc as [?|?]; contradiction.
Qed.

Lemma init_histories_fold (h : gmap string (list float)) (config : list PlotConfig)
    (name : string) :
  let r := foldl (fun h' plot =>
                    foldl (fun h'' signal => <[signal := []]> h'') h' (signals plot))
                 h config !! name in
  ((exists plot, plot ∈ config /\ name ∈ signals plot) /\ r = Some []) \/
  (~ (exists plot, plot ∈ config /\ name ∈ signals plot) /\ r = h !! name).
Proof.
  revert h. induction config as [|plot config IH]; intros h; cbn [foldl].
  - right. split; [|reflexivity].
    intros (plot & Hin & _). apply elem_of_nil in Hin. exact Hin.
  - destruct (IH (foldl (fun h'' signal => <[signal := []]> h'') h (signals plot)))
      as [[Hex Hr]|[Hnex Hr]].
    + left. split; [|exact Hr].
      destruct Hex as (q & Hq & Hn). exists q. split; [right; exact Hq|exact Hn].
    + cbv zeta in *. rewrite Hr, init_histories_signals.
      destruct (decide (name ∈ signals plot)) as [Hin|Hnin].
      * left. split; [|reflexivity]. exists plot. split; [left|exact Hin].
      * right. split; [|reflexivity].
        intros (q & Hq & Hn). apply elem_of_cons in Hq as [->|Hq]; [contradiction|].
        apply Hnex. exists q. auto.
Qed.

Lemma constructed_histories (config : list PlotConfig) (name : string) :
  (declared (constructed config) name /\
   data_histories (constructed config) !! name = Some []) \/
  (~ declared (constructed config) name /\
   data_histories (constructed config) !! name = None).
Proof.
  cbn [data_histories constructed]. unfold init_histories, declared. cbn [plot_config].
  destruct (init_histories_fold ∅ config name) as [[Hex Hr]|[Hnex Hr]].
  - left. auto.
  - right. split; [exact Hnex|]. cbv zeta in Hr. rewrite Hr. apply lookup_empty.
Qed.

End PlotterInit.

(** ** The plotter: the history part of [update] *)

Section PlotterHistory.
Import Plotter PlotterState.

Lemma record_loop (kwargs : list (string * float)) (self : MotorDataPlotter) :
  for_each record_signal kwargs self
  = (set_data_histories (fun h => recorded h kwargs) self, inr tt).
Proof.
  revert self. induction kwargs as [|kv kwargs IH]; intros self.
  - destruct self; reflexivity.
  - cbn [for_each]. unfold bind at 1. unfold record_signal at 1.
    unfold bind at 1. unfold get at 1.
    unfold recorded. cbn [foldl]. fold (recorded).
    destruct (data_histories self !! kv.1) as [hist|] eqn:Hh.
    + unfold modify. rewrite IH. unfold set_data_histories. destruct self.
      cbn [data_histories plot_config num_plots time_history handle] in *.
      rewrite Hh. reflexivity.
    + unfold ret. rewrite IH. unfold set_data_histories. rewrite Hh. reflexivity.
Qed.

Lemma update_eq (t : float) (kwargs : list (string * float)) (self : MotorDataPlotter) :
  update t kwargs self
  = for_each refresh_panel (enumerate (plot_config self)) (appended t kwargs self).
Proof.
  unfold update. unfold bind at 1. unfold modify at 1.
  unfold bind at 1. rewrite record_loop.
  unfold bind, get. destruct self; reflexivity.
Qed.

Lemma refresh_panel_frame (ip : nat * PlotConfig) (s : MotorDataPlotter) :
  same_history s (state_after (refresh_panel ip) s).
Proof.
  unfold state_after, refresh_panel, bind, get, at_handle.
  destruct (handle s !! ip.1) as [p|]; [|repeat split].
  destruct (Panel.update _ _ p) as [p' r]. repeat split.
Qed.

Lemma refresh_loop_frame (l : list (nat * PlotConfig)) (s : MotorDataPlotter) :
  same_history s (state_after (for_each refresh_panel l) s).
Proof.
  apply (for_each_preserves same_history).
  - intros s0. repeat split.
  - intros s1 s2 s3 (H1 & H2 & H3 & H4) (H1' & H2' & H3' & H4').
    repeat split; congruence.
  - intros a s0. apply refresh_panel_frame.
Qed.

(** What one call of [update] does to the histories, whether the
    subplots accept the data or raise. *)
Lemma update_history (t : float) (kwargs : list (string * float)) (self : MotorDataPlotter) :
  let self' := state_after (update t kwargs) self in
  plot_config self' = plot_config self /\
  time_history self' = time_history self ++ [t] /\
  data_histories self' = recorded (data_histories self) kwargs.
Proof.
  intros self'. unfold self', state_after. rewrite update_eq.
  destruct (refresh_loop_frame (enumerate (plot_config self)) (appended t kwargs self))
    as (H1 & _ & H3 & H4).
  unfold state_after in *. rewrite H1, H3, H4. repeat split.
Qed.

Lemma recorded_is_Some (h : gmap string (list float)) (kwargs : list (string * float))
    (name : string) :
  is_Some (recorded h kwargs !! name) <-> is_Some (h !! name).
Proof.
  revert h. induction kwargs as [|kv kwargs IH]; intros h; [reflexivity|].
  unfold recorded. cbn [foldl]. fold recorded. rewrite IH.
  destruct (h !! kv.1) as [hist|] eqn:Hh; [|reflexivity].
  destruct (decide (kv.1 = name)) as [<-|Hne].
  - rewrite lookup_insert_eq, Hh. split; eauto.
  - rewrite lookup_insert_ne by exact Hne. reflexivity.
Qed.

Lemma recorded_absent (h : gmap string (list float)) (kwargs : list (string * float))
    (name : string) :
  name ∉ kwargs.*1 -> recorded h kwargs !! name = h !! name.
Proof.
  revert h. induction kwargs as [|kv kwargs IH]; intros h Hnin; [reflexivity|].
  unfold recorded. cbn [foldl]. fold recorded.
  cbn [fmap list_fmap] in Hnin. apply not_elem_of_cons in Hnin as [Hne Hnin].
  rewrite IH by exact Hnin.
  destruct (h !! kv.1); [|reflexivity]. apply lookup_insert_ne. congruence.
Qed.

(** A declared signal supplied once in a call gets its value appended. *)
Lemma recorded_supplied (h : gmap string (list float)) (kwargs : list (string * float))
    (name : string) (v : float) (hist : list float) :
  well_formed kwargs ->
  (name, v) ∈ kwargs ->
  h !! name = Some hist ->
  recorded h kwargs !! name = Some (hist ++ [v]).
Proof.
  unfold well_formed. revert h. induction kwargs as [|kv kwargs IH]; intros h Hwf Hin Hh.
  - apply elem_of_nil in Hin. destruct Hin.
  - cbn [fmap list_fmap] in Hwf. apply NoDup_cons in Hwf as [Hfresh Hwf].
    unfold recorded. cbn [foldl]. fold recorded.
    apply elem_of_cons in Hin as [<-|Hin].
    + cbn [fst snd] in *. rewrite Hh. rewrite recorded_absent by exact Hfresh.
      apply lookup_insert_eq.
    + assert (Hne : kv.1 <> name).
      { intros Heq. apply Hfresh. rewrite Heq.
        apply (list_elem_of_fmap_2 fst) in Hin. exact Hin. }
      apply IH; [exact Hwf|exact Hin|].
      destruct (h !! kv.1); [|exact Hh]. rewrite lookup_insert_ne by exact Hne. exact Hh.
Qed.

(** An entry whose name has no history leaves the histories as they
    are. *)
Lemma recorded_unknown (h : gmap string (list float)) (pre post : list (string * float))
    (name : string) (v : float) :
  h !! name = None ->
  recorded h (pre ++ (name, v) :: post) = recorded h (pre ++ post).
Proof.
  intros Hh. unfold recorded. rewrite !foldl_app. cbn [foldl fst snd].
  fold (recorded h pre).
  destruct (recorded h pre !! name) as [hist|] eqn:Hr; [|reflexivity].
  assert (Hs : is_Some (h !! name)) by (apply (recorded_is_Some h pre); eauto).
  rewrite Hh in Hs. destruct Hs as [? [=]].
Qed.

Lemma after_calls_snoc (self : MotorDataPlotter) (calls : list (float * list (string * float)))
    (c : float * list (string * float)) :
  after_calls self (calls ++ [c]) = state_after (update (fst c) (snd c)) (after_calls self calls).
Proof. unfold after_calls. rewrite foldl_app. reflexivity. Qed.

(** On every plotter a program can hold, the signals with a history are
    the declared ones. *)
Lemma histories_declared (config : list PlotConfig)
    (calls : list (float * list (string * float))) (name : string) :
  let self := after_calls (constructed config) calls in
  plot_config self = config /\
  (is_Some (data_histories self !! name) <-> declared self name).
Proof.
  induction calls as [|c calls IH] using rev_ind.
  - change (after_calls (constructed config) []) with (constructed config).
    cbv zeta. split; [reflexivity|].
    destruct (constructed_histories config name) as [[Hd Hh]|[Hd Hh]]; rewrite Hh.
    + split; eauto.
    + split; [intros [? [=]]|intros; contradiction].
  - cbv zeta in *. rewrite after_calls_snoc.
    destruct (update_history c.1 c.2 (after_calls (constructed config) calls))
      as (Hc & _ & Hh).
    cbv zeta in *. destruct IH as [IHc IHd].
    split; [congruence|].
    rewrite Hh, recorded_is_Some, IHd. unfold declared. rewrite Hc. reflexivity.
Qed.

End PlotterHistory.

Section PlotterRuns.
Import Plotter PlotterState.

Lemma after_calls_lengths (self : MotorDataPlotter)
    (calls : list (float * list (string * float))) :
  (forall c, c ∈ calls -> well_formed (snd c)) ->
  length (time_history (after_calls self calls)) = length (time_history self) + length calls /\
  forall s hist, data_histories self !! s = Some hist ->
    (forall c, c ∈ calls -> s ∈ (snd c).*1) ->
    exists hist', data_histories (after_calls self calls) !! s = Some hist' /\
      length hist' = length hist + length calls.
Proof.
  induction calls as [|c calls IH] using rev_ind; intros Hwf.
  - cbn. split; [lia|]. intros s hist Hh _. exists hist. split; [exact Hh|lia].
  - rewrite after_calls_snoc.
    destruct (update_history c.1 c.2 (after_calls self calls)) as (_ & Ht & Hh).
    cbv zeta in *. destruct IH as [IHt IHh].
    { intros c' Hc'. apply Hwf. apply elem_of_app. left. exact Hc'. }
    split.
    + rewrite Ht, !length_app, IHt. simpl. lia.
    + intros s hist Hs Hsup.
      destruct (IHh s hist Hs) as (hist' & Hh' & Hlen).
      { intros c' Hc'. apply Hsup. apply elem_of_app. left. exact Hc'. }
      assert (Hin : s ∈ (c.2).*1).
      { apply Hsup. apply elem_of_app. right. left. }
      apply list_elem_of_fmap in Hin as ([s' v] & -> & Hin). cbn [fst] in *.
      exists (hist' ++ [v]). split.
      * rewrite Hh. apply (recorded_supplied _ _ _ v); [|exact Hin|exact Hh'].
        apply Hwf. apply elem_of_app. right. left.
      * rewrite !length_app, Hlen. simpl. lia.
Qed.

End PlotterRuns.

(** C4.  On a constructed plotter, after [M] calls of [update] (no
    keyword bound twice within a call, as Python guarantees), the time
    history has [M] entries, and every declared signal that each of the
    calls supplies has a history of [M] entries; this holds whether or
    not the subplots accepted the data. *)
Theorem history_lengths
    (config : option (list Plotter.PlotConfig)) (p0 : Plotter.MotorDataPlotter)
    (calls : list (float * list (string * float))) :
  Plotter.__init__ config = inr p0 ->
  (forall c, c ∈ calls -> PlotterState.well_formed (snd c)) ->
  length (Plotter.time_history (Plotter.after_calls p0 calls)) = length calls /\
  forall s, Plotter.declared p0 s ->
    (forall c, c ∈ calls -> s ∈ (snd c).*1) ->
    exists hist, Plotter.data_histories (Plotter.after_calls p0 calls) !! s = Some hist /\
      length hist = length calls.
Proof.
  intros Hinit Hwf.
  destruct (init_cases _ _ Hinit) as (c & _ & ->).
  destruct (after_calls_lengths (PlotterState.constructed c) calls Hwf) as [Ht Hh].
  split; [exact Ht|].
  intros s Hdecl Hsup.
  destruct (constructed_histories c s) as [[_ Hs]|[Hn _]]; [|contradiction].
  destruct (Hh s [] Hs Hsup) as (hist & Hhist & Hlen). exists hist. auto.
Qed.

Lemma history_lengths_witness :
  let cfg := [Plotter.mkConfig ["omega"] None None None None None] in
  let calls := [(0%float, [("omega", 1%float)]); (1%float, [("omega", 2%float)])] in
  length (Plotter.time_history
            (Plotter.after_calls (PlotterState.constructed cfg) calls)) = 2.
Proof.
  intros cfg calls.
  refine (proj1 (history_lengths (Some cfg) (PlotterState.constructed cfg) calls _ _)).
  - reflexivity.
  - intros c Hc. unfold calls in Hc. each_elem Hc; apply NoDup_singleton.
Defined.

(** C9.  On every plotter a program can hold, a keyword whose name no
    group declares is dropped: the call does exactly what it does
    without that keyword (same object left, same outcome), the loop
    over the keywords returns normally, the name gets no history, and
    the set of names with a history is unchanged. *)
Theorem unknown_signal_dropped
    (config : option (list Plotter.PlotConfig)) (p0 : Plotter.MotorDataPlotter)
    (calls : list (float * list (string * float)))
    (t : float) (pre post : list (string * float)) (name : string) (v : float) :
  Plotter.__init__ config = inr p0 ->
  let self := Plotter.after_calls p0 calls in
  ~ Plotter.declared self name ->
  Plotter.update t (pre ++ (name, v) :: post) self = Plotter.update t (pre ++ post) self /\
  (forall s, snd (for_each Plotter.record_signal (pre ++ (name, v) :: post) s) = inr tt) /\
  Plotter.data_histories
    (state_after (Plotter.update t (pre ++ (name, v) :: post)) self) !! name = None /\
  dom (Plotter.data_histories
         (state_after (Plotter.update t (pre ++ (name, v) :: post)) self))
  = dom (Plotter.data_histories self).
Proof.
  intros Hinit self Hdecl.
  destruct (init_cases _ _ Hinit) as (c & _ & ->).
  destruct (histories_declared c calls name) as [_ Hiff]. fold self in Hiff.
  assert (Hnone : Plotter.data_histories self !! name = None).
  { destruct (Plotter.data_histories self !! name) eqn:E; [|reflexivity].
    exfalso. apply Hdecl, Hiff. eauto. }
  destruct (update_history t (pre ++ (name, v) :: post) self) as (_ & _ & Hh).
  cbv zeta in Hh.
  split; [|split; [|split]].
  - rewrite !update_eq. unfold PlotterState.appended.
    rewrite recorded_unknown by exact Hnone. reflexivity.
  - intros s. rewrite record_loop. reflexivity.
  - rewrite Hh. rewrite recorded_unknown by exact Hnone.
    destruct (PlotterState.recorded _ (pre ++ post) !! name) eqn:E; [|reflexivity].
    assert (Hs : is_Some (Plotter.data_histories self !! name))
      by (apply (recorded_is_Some _ (pre ++ post)); eauto).
    rewrite Hnone in Hs. destruct Hs as [? [=]].
  - rewrite Hh. apply set_eq. intros x. rewrite !elem_of_dom. apply recorded_is_Some.
Qed.

Lemma unknown_signal_dropped_witness :
  let cfg := [Plotter.mkConfig ["omega"] None None None None None] in
  let self := Plotter.after_calls (PlotterState.constructed cfg) [] in
  Plotter.update 0%float ([("omega", 1%float)] ++ ("speed", 9%float) :: []) self
  = Plotter.update 0%float ([("omega", 1%float)] ++ []) self.
Proof.
  intros cfg self.
  refine (proj1 (unknown_signal_dropped (Some cfg) (PlotterState.constructed cfg) []
    0%float [("omega", 1%float)] [] "speed" 9%float _ _)).
  - reflexivity.
  - intros (plot & Hin & Hs). cbn in Hin.
    apply elem_of_cons in Hin as [->|Hin]; [|apply elem_of_nil in Hin; exact Hin].
    cbn in Hs. apply elem_of_cons in Hs as [Hs|Hs]; [discriminate|].
    apply elem_of_nil in Hs. exact Hs.
Defined.

(** ** The plotter: the subplots after an [update] that returns *)

Lemma float_mul_comm (x y : float) : (x * y)%float = (y * x)%float.
Proof.
  apply Prim2SF_inj. rewrite !FloatAxioms.mul_spec. unfold SF64mul, SFmul.
  destruct (Prim2SF x) as [sx|sx| |sx mx ex], (Prim2SF y) as [sy|sy| |sy my ey];
    try reflexivity; try (rewrite xorb_comm; reflexivity).
  rewrite xorb_comm, Pos.mul_comm, Z.add_comm. reflexivity.
Qed.

Section PlotterPanels.
Import Plotter PlotterState.

Lemma length_plot_data (self : MotorDataPlotter) (plot : PlotConfig) :
  length (plot_data self plot) = length (signals plot).
Proof. unfold plot_data. apply length_map. Qed.

Lemma plot_data_lookup (self : MotorDataPlotter) (plot : PlotConfig) (j : nat)
    (s : string) (hist : list float) :
  signals plot !! j = Some s ->
  data_histories self !! s = Some hist ->
  plot_data self plot !! j
  = Some (map (fun v => (default 1%float (conversion plot) * v)%float) hist).
Proof.
  intros Hs Hh. unfold plot_data.
  change (map ?f (signals plot)) with (f <$> signals plot).
  rewrite list_lookup_fmap, Hs. cbn [fmap option_fmap option_map]. rewrite Hh.
  f_equal. apply map_ext. intros v. apply float_mul_comm.
Qed.

Lemma same_history_plot_data (s1 s2 : MotorDataPlotter) (plot : PlotConfig) :
  same_history s1 s2 -> plot_data s2 plot = plot_data s1 plot.
Proof. intros (_ & _ & _ & Hh). unfold plot_data. rewrite Hh. reflexivity. Qed.

(** A subplot that is new or live, and accepts as many series as its
    group has signals, shows them afterwards. *)
Lemma panel_update_ok (plot : PlotConfig) (p p' : Panel.myPlot)
    (time : list float) (data : list (list float)) :
  p = fresh_panel plot \/
  (exists time0 data0, length data0 = length (signals plot) /\
     p = PanelState.live Panel.blank_axes (default "" (xlabel plot))
           (default "" (ylabel plot)) (default "" (title plot)) (legend plot) time0 data0) ->
  length data = length (signals plot) ->
  Panel.update time data p = (p', inr tt) ->
  p' = PanelState.live Panel.blank_axes (default "" (xlabel plot))
         (default "" (ylabel plot)) (default "" (title plot)) (legend plot) time data.
Proof.
  intros [->|(time0 & data0 & Hlen0 & ->)] Hlen Hrun.
  - unfold fresh_panel in Hrun.
    destruct (update_fresh_outcome Panel.blank_axes (default "" (xlabel plot))
                (default "" (ylabel plot)) (default "" (title plot)) (legend plot) time data)
      as [(Hr & _)|[(m & _ & Hr & _)|(m & _ & Hr & _)]];
      rewrite Hr in Hrun; congruence.
  - rewrite update_live in Hrun by lia. congruence.
Qed.

Lemma refresh_loop_ok (plots : list PlotConfig) (i : nat) (s s' : MotorDataPlotter) :
  for_each refresh_panel (zip (seq i (length plots)) plots) s = (s', inr tt) ->
  same_history s s' /\
  length (handle s') = length (handle s) /\
  (forall j, j < i -> handle s' !! j = handle s !! j) /\
  (forall k plot, plots !! k = Some plot ->
     exists p p', handle s !! (i + k) = Some p /\
       Panel.update (time_history s) (plot_data s plot) p = (p', inr tt) /\
       handle s' !! (i + k) = Some p').
Proof.
  revert i s. induction plots as [|plot plots IH]; intros i s Hrun.
  - cbn in Hrun. injection Hrun as <-. repeat split.
    intros k plot Hk. rewrite lookup_nil in Hk. discriminate.
  - cbn [length seq zip zip_with for_each] in Hrun. unfold bind at 1 in Hrun.
    destruct (refresh_panel (i, plot) s) as [s1 [e|[]]] eqn:Hstep; [discriminate|].
    unfold refresh_panel, bind, get, at_handle in Hstep. cbn [fst snd] in Hstep.
    destruct (handle s !! i) as [p|] eqn:Hp; [|discriminate].
    destruct (Panel.update (time_history s) (plot_data s plot) p) as [p1 r] eqn:Hupd.
    injection Hstep as <- ->.
    destruct (IH (S i) _ Hrun) as (Hsame & Hlen & Hbelow & Hat).
    split; [exact Hsame|]. split.
    { rewrite Hlen. cbn [handle set_handle]. apply length_insert. }
    split.
    { intros j Hj. rewrite Hbelow by lia. cbn [handle set_handle].
      apply list_lookup_insert_ne. lia. }
    intros [|k] plot' Hk.
    + cbn in Hk. injection Hk as <-. rewrite Nat.add_0_r.
      exists p, p1. split; [exact Hp|]. split; [exact Hupd|].
      rewrite Hbelow by lia. cbn [handle set_handle].
      apply list_lookup_insert_eq. eapply lookup_lt_Some; eauto.
    + cbn in Hk. destruct (Hat k plot' Hk) as (q & q' & Hq & Hqupd & Hq').
      replace (i + S k) with (S i + k) by lia.
      exists q, q'. split; [|split; [exact Hqupd|exact Hq']].
      cbn [handle set_handle] in Hq. rewrite list_lookup_insert_ne in Hq by lia.
      exact Hq.
Qed.

Lemma constructed_ready (config : list PlotConfig) : ready (constructed config).
Proof.
  split.
  - cbn. apply length_map.
  - intros i plot p Hplot Hp. left. cbn [handle plot_config constructed] in *.
    change (map fresh_panel config) with (fresh_panel <$> config) in Hp.
    rewrite list_lookup_fmap, Hplot in Hp. cbn in Hp. congruence.
Qed.

(** After an [update] that returns, every subplot shows the time history
    and the converted histories of its group. *)
Lemma update_ok_shown (t : float) (kwargs : list (string * float))
    (s s' : MotorDataPlotter) :
  ready s ->
  update t kwargs s = (s', inr tt) ->
  ready s' /\
  forall i plot, plot_config s' !! i = Some plot -> handle s' !! i = Some (shown s' plot).
Proof.
  intros [Hlen Hready] Hrun. rewrite update_eq in Hrun.
  apply refresh_loop_ok in Hrun as (Hsame & Hlen' & _ & Hat).
  pose proof Hsame as (Hcfg & _ & Htime & Hhist).
  cbn [plot_config time_history data_histories handle appended] in *.
  assert (Hshown : forall i plot, plot_config s' !! i = Some plot ->
            handle s' !! i = Some (shown s' plot)).
  { intros i plot Hplot. rewrite Hcfg in Hplot.
    destruct (Hat i plot Hplot) as (p & p' & Hp & Hupd & Hp'). cbn [Nat.add] in *.
    rewrite Hp'. f_equal. unfold shown.
    rewrite Htime, (same_history_plot_data _ _ plot Hsame).
    eapply panel_update_ok; [|apply length_plot_data|exact Hupd].
    apply (Hready i); assumption. }
  split; [|exact Hshown]. split.
  - rewrite Hlen', Hcfg. exact Hlen.
  - intros i plot p Hplot Hp. right. rewrite (Hshown i plot Hplot) in Hp.
    injection Hp as <-. exists (time_history s'), (plot_data s' plot).
    split; [apply length_plot_data|reflexivity].
Qed.

Lemma updates_ready (calls : list (float * list (string * float)))
    (s s' : MotorDataPlotter) :
  ready s -> updates calls s = (s', inr tt) -> ready s' /\ s' = after_calls s calls.
Proof.
  revert s. induction calls as [|c calls IH]; intros s Hready Hrun.
  - cbn in Hrun. injection Hrun as <-. auto.
  - unfold updates in Hrun. cbn [for_each] in Hrun. unfold bind in Hrun.
    destruct (update c.1 c.2 s) as [s1 [e|[]]] eqn:Hstep; [discriminate|].
    destruct (update_ok_shown _ _ _ _ Hready Hstep) as [Hready1 _].
    destruct (IH s1 Hready1 Hrun) as [Hr ->]. split; [exact Hr|].
    unfold after_calls. cbn [foldl]. unfold state_after. rewrite Hstep. reflexivity.
Qed.

End PlotterPanels.

(** C2.  The series built for a group are the histories of its signals
    multiplied by the conversion factor of the group (1.0 when absent);
    after every [update] that returns, on a constructed plotter, the
    line of signal [s] in its group's subplot has the time history as
    x-data and the converted history of [s] as y-data; and for the
    single group [theta_ref, theta] with conversion [180/pi], the call
    [update(0.0, theta_ref=pi/4, theta=pi/4)] returns and leaves the two
    lines with x-data [[0.0]] and y-data [[45.0]]. *)
Theorem conversion_rendered :
  (forall (self : Plotter.MotorDataPlotter) (plot : Plotter.PlotConfig) j s hist,
     Plotter.signals plot !! j = Some s ->
     Plotter.data_histories self !! s = Some hist ->
     Plotter.plot_data self plot !! j
     = Some (map (fun v => (default 1%float (Plotter.conversion plot) * v)%float) hist)) /\
  (forall config p0 calls t kwargs self,
     Plotter.__init__ config = inr p0 ->
     Plotter.updates (calls ++ [(t, kwargs)]) p0 = (self, inr tt) ->
     forall i plot j s,
       Plotter.plot_config self !! i = Some plot ->
       Plotter.signals plot !! j = Some s ->
       exists p a ln hist,
         Plotter.handle self !! i = Some p /\
         Panel.line p !! j = Some a /\
         Panel.heap p !! a = Some ln /\
         Plotter.data_histories self !! s = Some hist /\
         Panel.xdata ln = Plotter.time_history self /\
         Panel.ydata ln
         = map (fun v => (default 1%float (Plotter.conversion plot) * v)%float) hist) /\
  (let cfg := [Plotter.mkConfig ["theta_ref"; "theta"] None None None None
                                (Some (180 / Plotter.np_pi)%float)] in
   let call := Plotter.update 0%float [("theta_ref", (Plotter.np_pi / 4)%float);
                                       ("theta", (Plotter.np_pi / 4)%float)] in
   exists p0 panel,
     Plotter.__init__ (Some cfg) = inr p0 /\
     snd (call p0) = inr tt /\
     Plotter.handle (state_after call p0) !! 0 = Some panel /\
     map (fun a => (fun ln => (Panel.xdata ln, Panel.ydata ln)) <$> Panel.heap panel !! a)
         (Panel.line panel)
     = [Some ([0%float], [45%float]); Some ([0%float], [45%float])]).
Proof.
  split; [|split].
  - intros self plot j s hist. apply plot_data_lookup.
  - intros config p0 calls t kwargs self Hinit Hrun i plot j s Hplot Hs.
    destruct (init_cases _ _ Hinit) as (c & _ & ->).
    unfold Plotter.updates in Hrun. rewrite for_each_app in Hrun.
    unfold bind in Hrun. fold (Plotter.updates calls) in Hrun.
    destruct (Plotter.updates calls (PlotterState.constructed c)) as [s1 [e|[]]] eqn:Hpre;
      [discriminate|].
    destruct (updates_ready _ _ _ (constructed_ready c) Hpre) as [Hready1 Hs1].
    cbn [for_each fst snd] in Hrun. unfold bind in Hrun.
    destruct (Plotter.update t kwargs s1) as [s2 [e|[]]] eqn:Hstep; [discriminate|].
    cbn in Hrun. injection Hrun as ->.
    destruct (update_ok_shown _ _ _ _ Hready1 Hstep) as [_ Hshown].
    assert (Hself : self = Plotter.after_calls (PlotterState.constructed c)
                             (calls ++ [(t, kwargs)])).
    { rewrite after_calls_snoc, <- Hs1. unfold state_after. cbn [fst snd].
      rewrite Hstep. reflexivity. }
    destruct (histories_declared c (calls ++ [(t, kwargs)]) s) as [_ Hiff].
    rewrite <- Hself in Hiff.
    destruct (proj2 Hiff) as [hist Hhist].
    { exists plot. split; eapply list_elem_of_lookup_2; eauto. }
    pose proof (plot_data_lookup self plot j s hist Hs Hhist) as Hpd.
    destruct (lookup_live Panel.blank_axes (default "" (Plotter.xlabel plot))
                (default "" (Plotter.ylabel plot)) (default "" (Plotter.title plot))
                (Plotter.legend plot) (Plotter.time_history self) _ j _ Hpd)
      as [Hline Hheap].
    eexists (PlotterState.shown self plot), j, _, hist.
    split; [apply Hshown; exact Hplot|].
    split; [exact Hline|]. split; [exact Hheap|]. split; [exact Hhist|].
    apply registered_data.
  - eexists _, _. split; [reflexivity|]. vm_compute. auto.
Qed.

Lemma conversion_rendered_witness :
  let self := Plotter.mkPlotter [] 0 [] {["omega" := [2%float]]} [] in
  let plot := Plotter.mkConfig ["omega"] None None None None (Some 3%float) in
  Plotter.plot_data self plot !! 0 = Some [6%float].
Proof.
  intros self plot.
  refine (proj1 conversion_rendered self plot 0 "omega" [2%float] _ _); reflexivity.
Defined.

(** C3 (counterexample).  A single group with two signals and three
    legend labels is accepted by the constructor. *)
Lemma legend_mismatch_accepted :
  let group := Plotter.mkConfig ["theta_ref"; "theta"] (Some "Angle (deg)") None None
                                (Some ["Reference"; "Actual"; "Extra"]) None in
  length (Plotter.signals group) = 2 /\
  (exists l, Plotter.legend group = Some l /\ length l = 3) /\
  exists p, Plotter.__init__ (Some [group]) = inr p.
Proof.
  intros group. split; [reflexivity|]. split; [eexists; split; reflexivity|].
  eexists. reflexivity.
Qed.

(** C3 (amended).  The constructor checks nothing about the groups: a
    non-empty configuration is always accepted, and each subplot stores
    the legend of its group as given, whatever its length; the default
    configuration is used when none is given; and the only
    configuration that is refused is the empty one, by the [ValueError]
    of [plt.subplots] for a figure without rows. *)
Theorem construction_unchecked (config : list Plotter.PlotConfig) :
  (config = [] -> Plotter.__init__ (Some config) = inl ValueError) /\
  (config <> [] ->
     exists p, Plotter.__init__ (Some config) = inr p /\
       Plotter.plot_config p = config /\
       length (Plotter.handle p) = length config /\
       forall i plot, config !! i = Some plot ->
         exists panel, Plotter.handle p !! i = Some panel /\
           Panel.legend panel = Plotter.legend plot /\
           Panel.init panel = true /\ Panel.line panel = []) /\
  (exists p, Plotter.__init__ None = inr p /\
     Plotter.plot_config p = Plotter.default_config).
Proof.
  split; [|split].
  - intros ->. apply init_empty.
  - intros Hne. exists (PlotterState.constructed config).
    split; [apply init_nonempty; exact Hne|]. split; [reflexivity|].
    split; [cbn; apply length_map|].
    intros i plot Hplot. exists (PlotterState.fresh_panel plot).
    cbn [Plotter.handle PlotterState.constructed].
    change (map PlotterState.fresh_panel config) with (PlotterState.fresh_panel <$> config).
    rewrite list_lookup_fmap, Hplot. repeat split.
  - exists (PlotterState.constructed Plotter.default_config).
    split; [apply init_default|reflexivity].
Qed.

Lemma construction_unchecked_witness :
  let group := Plotter.mkConfig ["theta_ref"; "theta"] None None None
                                (Some ["Reference"; "Actual"; "Extra"]) None in
  exists p, Plotter.__init__ (Some [group]) = inr p /\
    Plotter.plot_config p = [group] /\
    length (Plotter.handle p) = 1 /\
    forall i plot, [group] !! i = Some plot ->
      exists panel, Plotter.handle p !! i = Some panel /\
        Panel.legend panel = Plotter.legend plot /\
        Panel.init panel = true /\ Panel.line panel = [].
Proof.
  intros group.
  refine (proj1 (proj2 (construction_unchecked [group])) _).
  discriminate.
Defined.

(** ** The schematic: every renderer is new or drawn *)

Section MotorStates.
Import Motor.
Context {numpy : Numpy}.

Variables (rs rr rsh : float).

Lemma update_constructed (theta : float) (omega torque : option float) :
  update theta omega torque (constructed rs rr rsh)
  = (drawn rs rr rsh theta omega torque, inr tt).
Proof.
  unfold drawn, state_after.
  destruct omega, torque; vm_compute; reflexivity.
Qed.

Lemma update_drawn (theta0 theta : float) (omega0 torque0 omega torque : option float) :
  update theta omega torque (drawn rs rr rsh theta0 omega0 torque0)
  = (drawn rs rr rsh theta omega torque, inr tt).
Proof.
  unfold drawn, state_after.
  destruct omega0, torque0, omega, torque; vm_compute; reflexivity.
Qed.

End MotorStates.

Section MotorFacts.
Import Motor.
Context {numpy : Numpy}.

Lemma init_constructed (rs rr rsh : float) (a : ACMotorAnimation) :
  __init__ rs rr rsh = inr a -> a = constructed rs rr rsh.
Proof.
  unfold __init__. destruct (PrimFloat.is_finite _); congruence.
Qed.

Lemma reachable_cases (a : ACMotorAnimation) :
  reachable a ->
  exists rs rr rsh, a = constructed rs rr rsh \/
    exists theta omega torque, a = drawn rs rr rsh theta omega torque.
Proof.
  induction 1 as [rs rr rsh a Hinit|a theta omega torque _ IH].
  - exists rs, rr, rsh. left. apply init_constructed. exact Hinit.
  - destruct IH as (rs & rr & rsh & [->|(theta0 & omega0 & torque0 & ->)]);
      exists rs, rr, rsh; right; exists theta, omega, torque.
    + unfold drawn. reflexivity.
    + unfold state_after. rewrite update_drawn. reflexivity.
Qed.

(** An [update] on a renderer a program can hold returns, and leaves
    the renderer drawn for the arguments of that call. *)
Lemma update_reachable (a : ACMotorAnimation) (theta : float) (omega torque : option float) :
  reachable a ->
  exists rs rr rsh,
    shaft_radius a = rsh /\ stator_radius a = rs /\
    update theta omega torque a = (drawn rs rr rsh theta omega torque, inr tt).
Proof.
  intros Hr.
  destruct (reachable_cases a Hr)
    as (rs & rr & rsh & [->|(theta0 & omega0 & torque0 & ->)]);
    exists rs, rr, rsh.
  - split; [reflexivity|]. split; [reflexivity|]. apply update_constructed.
  - split; [destruct omega0, torque0; vm_compute; reflexivity|].
    split; [destruct omega0, torque0; vm_compute; reflexivity|]. apply update_drawn.
Qed.

Lemma drawn_title (rs rr rsh theta : float) (omega torque : option float) :
  ax_title (ax (drawn rs rr rsh theta omega torque)) = title_text theta omega torque.
Proof. destruct omega, torque; vm_compute; reflexivity. Qed.

Lemma drawn_ref_mark (rs rr rsh theta : float) (omega torque : option float) :
  ref_mark (drawn rs rr rsh theta omega torque) = Some 18 /\
  heap (drawn rs rr rsh theta omega torque) !! 18
  = Some (Line [0; rsh * np_cos theta] [0; rsh * np_sin theta] "r-")%float /\
  18 ∈ children (ax (drawn rs rr rsh theta omega torque)).
Proof.
  split; [destruct omega, torque; vm_compute; reflexivity|].
  split; [destruct omega, torque; vm_compute; reflexivity|].
  assert (H : children (ax (drawn rs rr rsh theta omega torque)) = seq 0 19)
    by (destruct omega, torque; vm_compute; reflexivity).
  rewrite H. apply list_elem_of_lookup. exists 18. reflexivity.
Qed.

End MotorFacts.


(** C5.  Every [update] of the schematic returns and sets the title to
    the f-string chosen by [omega] and [torque]: it names and shows
    theta always, names and shows omega exactly when [omega] is given,
    and names and shows the torque exactly when both [omega] and
    [torque] are given; with [theta = 1.0], no [omega] and
    [torque = 5.0] the title is the one with theta alone. *)
Theorem title_shows_theta_omega_torque {numpy : Motor.Numpy}
    (a : Motor.ACMotorAnimation) (theta : float) (omega torque : option float) :
  Motor.reachable a ->
  let t := Motor.ax_title (Motor.ax (state_after (Motor.update theta omega torque) a)) in
  snd (Motor.update theta omega torque a) = inr tt /\
  Motor.mentions "θ" t = true /\ Motor.displays "θ" theta t /\
  (Motor.mentions "ω" t = true <-> omega <> None) /\
  (forall w, omega = Some w -> Motor.displays "ω" w t) /\
  (Motor.mentions "τ" t = true <-> omega <> None /\ torque <> None) /\
  (forall w tq, omega = Some w -> torque = Some tq -> Motor.displays "τ" tq t) /\
  Motor.ax_title (Motor.ax (state_after (Motor.update 1%float None (Some 5%float)) a))
  = [Motor.Lit "AC Motor: θ="; Motor.Fmt2f 1%float; Motor.Lit " rad"].
Proof.
  intros Hr t.
  destruct (update_reachable a theta omega torque Hr) as (rs & rr & rsh & _ & _ & Hrun).
  destruct (update_reachable a 1%float None (Some 5%float) Hr)
    as (rs' & rr' & rsh' & _ & _ & Hrun').
  unfold t, state_after. rewrite Hrun, Hrun'. cbn [fst snd]. rewrite !drawn_title.
  split; [reflexivity|].
  split; [destruct omega, torque; reflexivity|].
  split.
  { unfold Motor.displays.
    destruct omega as [w|]; [destruct torque as [tq|]|]; cbn [Motor.title_text].
    all: eexists [], _, _; split; [reflexivity|]; exists "AC Motor: "%string; reflexivity. }
  split.
  { destruct omega as [w|]; [destruct torque as [tq|]|]; cbn [Motor.title_text].
    - split; [intros _; discriminate|reflexivity].
    - split; [intros _; discriminate|reflexivity].
    - split; [intros H; vm_compute in H; discriminate|intros H; contradiction]. }
  split.
  { intros w ->. unfold Motor.displays. destruct torque as [tq|]; cbn [Motor.title_text].
    all: eexists [_; _], _, _; split; [reflexivity|]; exists " rad, "%string; reflexivity. }
  split.
  { destruct omega as [w|]; [destruct torque as [tq|]|]; cbn [Motor.title_text].
    - split; [intros _; split; discriminate|reflexivity].
    - split; [intros H; vm_compute in H; discriminate|intros [_ H]; contradiction].
    - split; [intros H; vm_compute in H; discriminate|intros [H _]; contradiction]. }
  split; [|reflexivity].
  intros w tq -> ->. unfold Motor.displays. cbn [Motor.title_text].
  eexists [_; _; _; _], _, _. split; [reflexivity|]. exists " rad/s, "%string. reflexivity.
Qed.

Lemma title_shows_theta_omega_torque_witness :
  exists a0, Motor.__init__ 1.0 0.6 0.15 = inr a0 /\
    Motor.ax_title (Motor.ax (state_after
      (@Motor.update Motor.quarter_turns 1%float None (Some 5%float)) a0))
    = [Motor.Lit "AC Motor: θ="; Motor.Fmt2f 1%float; Motor.Lit " rad"].
Proof.
  exists (Motor.constructed 1.0 0.6 0.15). split; [reflexivity|].
  refine (proj2 (proj2 (proj2 (proj2 (proj2 (proj2 (proj2
    (@title_shows_theta_omega_torque Motor.quarter_turns
       (Motor.constructed 1.0 0.6 0.15) 0%float None None _)))))))).
  apply (Motor.reach_init 1.0 0.6 0.15). reflexivity.
Defined.

(** C6 (counterexample).  A stator smaller than the rotor is accepted
    by the constructor, and the renderer it yields can be updated. *)
Lemma misordered_radii_accepted :
  Motor.ordered_radii 0.5 0.6 0.15 = false /\
  exists a, Motor.__init__ 0.5 0.6 0.15 = inr a /\
    forall numpy : Motor.Numpy, snd (Motor.update 0 None None a) = inr tt.
Proof.
  split; [reflexivity|].
  exists (Motor.constructed 0.5 0.6 0.15). split; [reflexivity|].
  intros numpy. rewrite update_constructed. reflexivity.
Qed.

(** C6 (amended).  The constructor of the schematic compares the radii
    with nothing.  Whenever [1.5 * stator_radius] is a finite float,
    whatever the order and the signs of the three radii, it returns a
    renderer that stores the three radii as given, is in its
    initialisation phase and has no handle, and on which [update]
    returns.  It raises, with [ValueError], exactly when
    [1.5 * stator_radius] is NaN or infinite, whatever the other two
    radii. *)
Theorem constructor_accepts_any_radii {numpy : Motor.Numpy} (rs rr rsh : float) :
  (PrimFloat.is_finite (1.5 * rs) = true ->
   exists a, Motor.__init__ rs rr rsh = inr a /\
     Motor.stator_radius a = rs /\ Motor.rotor_radius a = rr /\
     Motor.shaft_radius a = rsh /\
     Motor.flagInit a = true /\ Motor.handle a = [] /\
     forall theta omega torque, snd (Motor.update theta omega torque a) = inr tt) /\
  (PrimFloat.is_finite (1.5 * rs) = false ->
   Motor.__init__ rs rr rsh = inl ValueError).
Proof.
  split; intros Hfin.
  - exists (Motor.constructed rs rr rsh).
    split; [unfold Motor.__init__; rewrite Hfin; reflexivity|].
    do 5 (split; [reflexivity|]).
    intros theta omega torque. rewrite update_constructed. reflexivity.
  - unfold Motor.__init__. rewrite Hfin. reflexivity.
Qed.

Lemma constructor_accepts_any_radii_witness :
  (exists a, Motor.__init__ (-1) 2 0 = inr a /\
     Motor.stator_radius a = (-1)%float /\ Motor.rotor_radius a = 2%float /\
     Motor.shaft_radius a = 0%float /\
     Motor.flagInit a = true /\ Motor.handle a = [] /\
     forall theta omega torque,
       snd (@Motor.update Motor.quarter_turns theta omega torque a) = inr tt) /\
  Motor.__init__ infinity 0.6 0.15 = inl ValueError.
Proof.
  split.
  - apply (proj1 (@constructor_accepts_any_radii Motor.quarter_turns (-1) 2 0)).
    reflexivity.
  - apply (proj2 (@constructor_accepts_any_radii Motor.quarter_turns infinity 0.6 0.15)).
    reflexivity.
Defined.

(** C7.  Every [update] with angle [theta] returns, and after it the
    reference mark of the shaft is one line object, registered with the
    axes, whose data are [x = [0, shaft_radius * np.cos(theta)]] and
    [y = [0, shaft_radius * np.sin(theta)]], the products being those of
    binary64 floats.  With the radii 1.0, 0.6 and 0.15, and numpy's
    values of the cosine and the sine at 0 and at [np.pi / 2], the mark
    runs from (0, 0) to (0.15, 0) after [update(0)]; after a following
    [update(np.pi / 2)] the same line object runs from (0, 0) to
    (9.184850993605149e-18, 0.15), an abscissa below 1e-16 in absolute
    value and not 0. *)
Theorem reference_mark_follows_theta {numpy : Motor.Numpy}
    (a : Motor.ACMotorAnimation) (theta : float) (omega torque : option float) :
  Motor.reachable a ->
  let a' := state_after (Motor.update theta omega torque) a in
  snd (Motor.update theta omega torque a) = inr tt /\
  (exists m, Motor.ref_mark a' = Some m /\ m ∈ Motor.children (Motor.ax a') /\
     Motor.heap a' !! m
     = Some (Motor.Line [0; Motor.shaft_radius a * Motor.np_cos theta]
                        [0; Motor.shaft_radius a * Motor.np_sin theta] "r-")%float) /\
  (Motor.numpy_at_quarter_turns numpy ->
   let a1 := state_after (Motor.update 0 None None) (Motor.constructed 1.0 0.6 0.15) in
   let a2 := state_after (Motor.update (Motor.np_pi / 2) None None) a1 in
   exists m x, Motor.ref_mark a1 = Some m /\ Motor.ref_mark a2 = Some m /\
     Motor.heap a1 !! m = Some (Motor.Line [0; 0.15] [0; 0] "r-")%float /\
     Motor.heap a2 !! m = Some (Motor.Line [0; x] [0; 0.15] "r-")%float /\
     x = 9.184850993605149e-18%float /\
     (abs x <? 1e-16)%float = true /\ (x =? 0)%float = false).
Proof.
  intros Hr a'.
  destruct (update_reachable a theta omega torque Hr) as (rs & rr & rsh & Hsh & Hst & Hrun).
  split; [rewrite Hrun; reflexivity|].
  split.
  - unfold a', state_after. rewrite Hrun. cbn [fst]. rewrite Hsh.
    destruct (drawn_ref_mark rs rr rsh theta omega torque) as (Hm & Hheap & Hreg).
    exists 18. auto.
  - intros (Hc0 & Hs0 & Hc1 & Hs1) a1 a2. exists 18, 9.184850993605149e-18%float.
    assert (H1 : a1 = Motor.drawn 1.0 0.6 0.15 0 None None)
      by (unfold a1, Motor.drawn; reflexivity).
    assert (H2 : a2 = Motor.drawn 1.0 0.6 0.15 (Motor.np_pi / 2) None None).
    { unfold a2, state_after. rewrite H1, update_drawn. reflexivity. }
    rewrite H1, H2.
    destruct (drawn_ref_mark 1.0 0.6 0.15 0 None None) as (Hm1 & Hh1 & _).
    destruct (drawn_ref_mark 1.0 0.6 0.15 (Motor.np_pi / 2) None None) as (Hm2 & Hh2 & _).
    split; [exact Hm1|]. split; [exact Hm2|].
    rewrite Hh1, Hh2, Hc0, Hs0, Hc1, Hs1.
    split; [vm_compute; reflexivity|]. split; [vm_compute; reflexivity|].
    split; [reflexivity|]. split; vm_compute; reflexivity.
Qed.

Lemma reference_mark_follows_theta_witness :
  let a1 := state_after (@Motor.update Motor.quarter_turns 0 None None)
              (Motor.constructed 1.0 0.6 0.15) in
  let a2 := state_after (@Motor.update Motor.quarter_turns (Motor.np_pi / 2) None None) a1 in
  exists m x, Motor.ref_mark a1 = Some m /\ Motor.ref_mark a2 = Some m /\
    Motor.heap a1 !! m = Some (Motor.Line [0; 0.15] [0; 0] "r-")%float /\
    Motor.heap a2 !! m = Some (Motor.Line [0; x] [0; 0.15] "r-")%float /\
    x = 9.184850993605149e-18%float /\
    (abs x <? 1e-16)%float = true /\ (x =? 0)%float = false.
Proof.
  refine (proj2 (proj2 (@reference_mark_follows_theta Motor.quarter_turns
    (Motor.constructed 1.0 0.6 0.15) 0%float None None _)) _).
  - apply (Motor.reach_init 1.0 0.6 0.15). reflexivity.
  - vm_compute. auto.
Defined.
(** ** Examples *)

(** The default configuration yields four subplots and six histories. *)
Example default_plotter :
  exists p, Plotter.__init__ None = inr p /\
    length (Plotter.handle p) = 4 /\ size (Plotter.data_histories p) = 6.
Proof. eexists. split; [reflexivity|]. vm_compute. auto. Qed.

(** A legend of one label on two series: the first [update] stops
    after one line, and because the subplot stays in its initialisation
    phase a second [update] creates a further line object and registers
    the first one again. *)
Example short_legend_second_update :
  let p0 := Panel.__init__ Panel.blank_axes "" "y" "" (Some ["a"]) in
  let p1 := state_after (Panel.update [0%float] [[1%float]; [2%float]]) p0 in
  let p2 := state_after (Panel.update [0%float] [[1%float]; [2%float]]) p1 in
  Panel.line p1 = [0] /\ Panel.line p2 = [0; 1] /\
  Panel.ax_lines (Panel.ax p2) = [0; 0] /\ Panel.init p2 = true.
Proof. vm_compute. auto. Qed.

(** A call that omits a declared signal leaves that history shorter
    than the time history. *)
Example omitted_signal_falls_behind :
  let cfg := [Plotter.mkConfig ["theta"; "omega"] None None None None None] in
  let p := Plotter.after_calls (PlotterState.constructed cfg)
             [(0%float, [("theta", 1%float); ("omega", 2%float)]);
              (1%float, [("theta", 3%float)])] in
  Plotter.time_history p = [0%float; 1%float] /\
  Plotter.data_histories p !! "omega" = Some [2%float] /\
  Plotter.data_histories p !! "theta" = Some [1%float; 3%float].
Proof. vm_compute. auto. Qed.

(** The schematic holds 19 objects after its first [update]: two stator
    disks, six coils, the rotor body, eight bars, the shaft and the
    reference mark. *)
Example schematic_objects {numpy : Motor.Numpy} :
  let a := state_after (Motor.update 0 None None) (Motor.constructed 1.0 0.6 0.15) in
  length (Motor.heap a) = 19 /\ Motor.handle a = seq 0 19 /\
  Motor.rotor_bar_handles a = Some (seq 9 8) /\ Motor.flagInit a = false.
Proof. vm_compute. auto. Qed.

(** * Further properties of the code *)

(** ** The subplot: what [update] keeps *)

Section PanelKeeps.
Import Panel Kept.

Variable strict : bool.

Lemma panel_keeps_refl (p : myPlot) : panel_keeps strict p p.
Proof.
  unfold panel_keeps. repeat split; try reflexivity. intros a ln Hln. eauto 6.
Qed.

Lemma panel_keeps_trans (p1 p2 p3 : myPlot) :
  panel_keeps strict p1 p2 -> panel_keeps strict p2 p3 -> panel_keeps strict p1 p3.
Proof.
  intros (H1 & H2 & H3 & H4 & H5 & H6 & H7 & H8 & H9 & H10)
         (G1 & G2 & G3 & G4 & G5 & G6 & G7 & G8 & G9 & G10).
  unfold panel_keeps. repeat split; try congruence.
  - etransitivity; eauto.
  - etransitivity; eauto.
  - intros a ln Hln. destruct (H10 a ln Hln) as (ln2 & Hln2 & Hc & Hs & Hl).
    destruct (G10 a ln2 Hln2) as (ln3 & Hln3 & Hc' & Hs' & Hl').
    exists ln3. split; [exact Hln3|]. split; [congruence|]. split; [congruence|].
    destruct Hl as [Hl|(Hst & Hun & n & Hn)], Hl' as [Hl'|(Hst' & Hun' & n' & Hn')].
    + left. congruence.
    + right. split; [exact Hst'|]. split; [|eauto].
      unfold unlabelled in *. rewrite <- Hl. exact Hun'.
    + right. split; [exact Hst|]. split; [exact Hun|]. exists n. congruence.
    + right. split; [exact Hst|]. split; [exact Hun|]. eauto.
Qed.

Lemma bind_keeps {A B} (m : M myPlot A) (k : A -> M myPlot B) :
  (forall s, panel_keeps strict s (state_after m s)) ->
  (forall a s, panel_keeps strict s (state_after (k a) s)) ->
  forall s, panel_keeps strict s (state_after (bind m k) s).
Proof.
  intros Hm Hk s. unfold state_after, bind in *.
  specialize (Hm s). destruct (m s) as [s1 [e|a]]; [exact Hm|].
  eapply panel_keeps_trans; [exact Hm|apply Hk].
Qed.

Lemma index_keeps {A} (l : list A) (i : nat) (s : myPlot) :
  panel_keeps strict s (state_after (index l i) s).
Proof. unfold state_after, index. destruct (l !! i); apply panel_keeps_refl. Qed.

Lemma alloc_keeps (l : Line2D) (s : myPlot) :
  panel_keeps strict s (state_after (alloc l) s).
Proof.
  unfold state_after, alloc, bind, get, modify, ret, set_heap. cbn.
  unfold panel_keeps. cbn. repeat split; try reflexivity.
  intros a ln Hln. exists ln. rewrite lookup_app_l by (eapply lookup_lt_Some; eauto). auto.
Qed.

Lemma set_data_keeps (f : Line2D -> Line2D) (a : nat) (s : myPlot) :
  (forall l, color (f l) = color l /\ ls (f l) = ls l /\ label (f l) = label l) ->
  panel_keeps strict s (set_heap (alter f a) s).
Proof.
  intros Hf. unfold panel_keeps, set_heap. cbn. repeat split; try reflexivity.
  intros a0 ln Hln. destruct (decide (a = a0)) as [->|Hne].
  - exists (f ln). rewrite list_lookup_alter_eq, Hln. split; [reflexivity|].
    destruct (Hf ln) as (Hc & Hs & Hl). auto.
  - exists ln. rewrite list_lookup_alter_ne by exact Hne. auto.
Qed.

Lemma refresh_line_keeps (time : list float) (data : list (list float)) (i : nat)
    (s : myPlot) :
  panel_keeps strict s (state_after (refresh_line time data i) s).
Proof.
  revert s. unfold refresh_line.
  apply bind_keeps; [intros s; apply panel_keeps_refl|intros self].
  apply bind_keeps; [intros s; apply index_keeps|intros a].
  apply bind_keeps; [intros s; apply set_data_keeps; intros l; auto|intros _].
  apply bind_keeps; [intros s; apply index_keeps|intros a'].
  apply bind_keeps; [intros s; apply index_keeps|intros d s].
  apply set_data_keeps. intros l. auto.
Qed.

Lemma relim_keeps (s : myPlot) : panel_keeps strict s (state_after relim s).
Proof.
  unfold state_after, relim, bind, get.
  destruct (forallb _ _); apply panel_keeps_refl.
Qed.

(** The refresh branch of [update], followed by [relim] and
    [autoscale]. *)
Lemma refresh_keeps (time : list float) (data : list (list float)) (n : nat) (s : myPlot) :
  panel_keeps strict s
    (state_after (for_each (refresh_line time data) (seq 0 n) ;; relim ;; autoscale) s).
Proof.
  revert s. apply bind_keeps.
  - apply (for_each_preserves (panel_keeps strict));
      [apply panel_keeps_refl|apply panel_keeps_trans|intros; apply refresh_line_keeps].
  - intros _. apply bind_keeps; [apply relim_keeps|intros; apply panel_keeps_refl].
Qed.

End PanelKeeps.

Section PanelKeepsInit.
Import Panel Kept.

Lemma add_line_keeps (a : nat) (s : myPlot) :
  panel_keeps false s (state_after (add_line a) s).
Proof.
  unfold state_after, add_line, bind, get.
  destruct (match heap s !! a with Some l => drawable l | None => true end);
    [|apply panel_keeps_refl].
  unfold modify, set_ax, set_heap, panel_keeps. cbn.
  repeat split; try reflexivity; try (apply prefix_app_r; reflexivity).
  intros a0 ln Hln. destruct (decide (a = a0)) as [->|Hne].
  - eexists. rewrite list_lookup_alter_eq, Hln. split; [reflexivity|].
    unfold placeholder. destruct (unlabelled ln) eqn:Hun; cbn; eauto 8.
  - exists ln. rewrite list_lookup_alter_ne by exact Hne. auto.
Qed.

Lemma new_line_keeps (time : list float) (data : list (list float)) (i : nat) (s : myPlot) :
  panel_keeps false s (state_after (new_line time data i) s).
Proof.
  revert s. unfold new_line.
  apply bind_keeps; [intros s; apply panel_keeps_refl|intros self].
  apply bind_keeps; [intros s; apply index_keeps|intros d].
  apply bind_keeps; [intros s; apply index_keeps|intros c].
  apply bind_keeps; [intros s; apply index_keeps|intros st].
  apply bind_keeps.
  { destruct (legend self) as [lg|]; [|intros s; apply panel_keeps_refl].
    apply bind_keeps; [intros s; apply index_keeps|intros l s; apply panel_keeps_refl]. }
  intros lbl. apply bind_keeps; [intros s; apply alloc_keeps|intros a].
  apply bind_keeps.
  { intros s. unfold state_after, modify, set_line, panel_keeps. cbn.
    repeat split; try reflexivity; try (apply prefix_app_r; reflexivity).
    intros a0 ln0 Hln0. exists ln0. auto. }
  intros _. apply bind_keeps; [intros s; apply panel_keeps_refl|intros self'].
  apply bind_keeps; [intros s; apply index_keeps|intros b s].
  apply add_line_keeps.
Qed.

Lemma update_keeps (time : list float) (data : list (list float)) (s : myPlot) :
  panel_keeps false s (state_after (update time data) s).
Proof.
  revert s. unfold update.
  apply bind_keeps; [intros s; apply panel_keeps_refl|intros self].
  apply bind_keeps;
    [|intros _; apply bind_keeps; [apply relim_keeps|intros; apply panel_keeps_refl]].
  destruct (init self).
  - apply bind_keeps.
    { apply (for_each_preserves (panel_keeps false));
        [apply panel_keeps_refl|apply panel_keeps_trans|intros; apply new_line_keeps]. }
    intros _. apply bind_keeps.
    { intros s. unfold state_after, modify, set_init, panel_keeps. cbn.
      repeat split; try reflexivity. intros a0 ln0 Hln0. exists ln0. auto. }
    intros _. apply bind_keeps; [intros s; apply panel_keeps_refl|intros self'].
    destruct (legend self'); [|intros s; apply panel_keeps_refl].
    intros s. unfold state_after, ax_set_legend, modify, set_ax, panel_keeps. cbn.
    repeat split; try reflexivity. intros a0 ln0 Hln0. exists ln0. auto.
  - apply (for_each_preserves (panel_keeps false));
      [apply panel_keeps_refl|apply panel_keeps_trans|intros; apply refresh_line_keeps].
Qed.

(** Past the initialisation phase, [update] changes no label. *)
Lemma update_keeps_labels (time : list float) (data : list (list float)) (s : myPlot) :
  init s = false -> panel_keeps true s (state_after (update time data) s).
Proof.
  intros Hinit.
  assert (Heq : update time data s
                = (for_each (refresh_line time data) (seq 0 (length (line s))) ;;
                   relim ;; autoscale) s).
  { unfold update. unfold bind at 1. unfold get at 1. rewrite Hinit. reflexivity. }
  unfold state_after. rewrite Heq. apply refresh_keeps.
Qed.

End PanelKeepsInit.

(** X1.  Whatever the subplot and the data, and whether [update]
    returns or raises, the legend list, the palettes, the axis labels,
    the title and the grid are as before, and the lines in [self.line]
    and in the axes are those of before, in the same order, possibly
    followed by new ones: [update] never removes or reorders a line. *)
Theorem update_only_appends_lines
    (p : Panel.myPlot) (time : list float) (data : list (list float)) :
  let p' := state_after (Panel.update time data) p in
  Panel.legend p' = Panel.legend p /\
  Panel.colors p' = Panel.colors p /\
  Panel.line_styles p' = Panel.line_styles p /\
  Panel.ax_xlabel (Panel.ax p') = Panel.ax_xlabel (Panel.ax p) /\
  Panel.ax_ylabel (Panel.ax p') = Panel.ax_ylabel (Panel.ax p) /\
  Panel.ax_title (Panel.ax p') = Panel.ax_title (Panel.ax p) /\
  Panel.ax_grid (Panel.ax p') = Panel.ax_grid (Panel.ax p) /\
  Panel.line p `prefix_of` Panel.line p' /\
  Panel.ax_lines (Panel.ax p) `prefix_of` Panel.ax_lines (Panel.ax p').
Proof.
  intros p'. destruct (update_keeps time data p)
    as (H1 & H2 & H3 & H4 & H5 & H6 & H7 & H8 & H9 & _).
  repeat split; assumption.
Qed.

(** X2.  Whatever the subplot and the data, and whether [update]
    returns or raises, every line object that existed before the call
    still exists at the same address with the same colour and line
    style.  Its label is the same too, with one exception: in the
    initialisation phase a line without label ([None] or the empty
    string) can be given a placeholder [_child<n>] by the axes.  Apart
    from that, only the x- and y-data of an existing line change. *)
Theorem update_keeps_line_styles
    (p : Panel.myPlot) (time : list float) (data : list (list float))
    (a : nat) (ln : Panel.Line2D) :
  Panel.heap p !! a = Some ln ->
  exists ln', Panel.heap (state_after (Panel.update time data) p) !! a = Some ln' /\
    Panel.color ln' = Panel.color ln /\ Panel.ls ln' = Panel.ls ln /\
    (Panel.label ln' = Panel.label ln \/
     Panel.init p = true /\ Panel.unlabelled ln = true /\
     exists n : nat, Panel.label ln' = Some ("_child" +:+ pretty n)).
Proof.
  intros Hln. destruct (Panel.init p) eqn:Hinit.
  - destruct (update_keeps time data p) as (_ & _ & _ & _ & _ & _ & _ & _ & _ & H).
    destruct (H a ln Hln) as (ln' & Hln' & Hc & Hs & Hl). exists ln'.
    split; [exact Hln'|]. split; [exact Hc|]. split; [exact Hs|].
    destruct Hl as [Hl|(_ & Hun & Hn)]; [left; exact Hl|right; auto].
  - destruct (update_keeps_labels time data p Hinit)
      as (_ & _ & _ & _ & _ & _ & _ & _ & _ & H).
    destruct (H a ln Hln) as (ln' & Hln' & Hc & Hs & [Hl|(Hst & _)]);
      [exists ln'; auto|discriminate].
Qed.

Lemma update_keeps_line_styles_witness :
  let p := state_after (Panel.update [0%float] [[1%float]])
             (Panel.__init__ Panel.blank_axes "" "y" "" (Some ["a"])) in
  let ln := Panel.mkLine2D [0%float] [1%float] "b" "-" (Some "a") in
  exists ln', Panel.heap (state_after (Panel.update [0%float; 1%float]
                                         [[1%float; 2%float]]) p) !! 0 = Some ln' /\
    Panel.color ln' = Panel.color ln /\ Panel.ls ln' = Panel.ls ln /\
    (Panel.label ln' = Panel.label ln \/
     Panel.init p = true /\ Panel.unlabelled ln = true /\
     exists n : nat, Panel.label ln' = Some ("_child" +:+ pretty n)).
Proof.
  intros p ln.
  exact (update_keeps_line_styles p [0%float; 1%float] [[1%float; 2%float]] 0 ln eq_refl).
Defined.

(** A subplot in its initialisation phase that holds a line without
    label: [update] registers that line, and the axes give it the
    placeholder [_child0]. *)
Example placeholder_given_to_unlabelled_line :
  let ln := Panel.mkLine2D [0%float] [1%float] "b" "-" None in
  let p := Panel.mkPlot None Panel.blank_axes Panel.palette_colors Panel.palette_styles
             [0] true [ln] in
  exists ln', Panel.heap (state_after (Panel.update [0%float] [[2%float]]) p) !! 0
              = Some ln' /\
    Panel.label ln' = Some "_child0".
Proof. eexists. split; vm_compute; reflexivity. Qed.
(** ** The subplot: legend, and series that do not match the lines *)

Section PanelEdges.
Import Panel PanelState.

Variables (ax0 : Axes) (xl yl tl : string) (lg : option (list string)).
Variables (time0 : list float) (data0 : list (list float)).
Variables (time : list float) (data : list (list float)).

(** The turn of the refresh loop that finds no series: the x-data of
    the line are already replaced when [data[i]] raises. *)
Lemma refresh_line_short_state (p : myPlot) (k n : nat) :
  line p = seq 0 k ->
  length data <= n < k ->
  refresh_line time data n p
  = (set_heap (alter (fun l => mkLine2D time (ydata l) (color l) (ls l) (label l)) n) p,
     inl IndexError).
Proof.
  intros Hline [Hd Hn].
  assert (Hl : line p !! n = Some n) by (rewrite Hline; apply lookup_seq_lt; lia).
  unfold refresh_line, bind, get, index. rewrite Hl. unfold ret at 1.
  unfold set_xdata, modify. unfold ret at 1.
  rewrite (lookup_ge_None_2 data n Hd). reflexivity.
Qed.

Lemma refreshed_take :
  length data0 <= length data ->
  refreshed time data (length data0) (imap (registered ax0 lg time0) data0)
  = imap (registered ax0 lg time) (take (length data0) data).
Proof.
  intros Hlen. unfold refreshed. apply list_eq. intros i.
  rewrite !list_lookup_imap.
  destruct (data0 !! i) as [d0|] eqn:H0.
  - pose proof (lookup_lt_Some _ _ _ H0) as Hi.
    rewrite lookup_take_lt by exact Hi.
    destruct (lookup_lt_is_Some_2 data i ltac:(lia)) as [d Hd].
    rewrite Hd. cbn [fmap option_fmap option_map default].
    rewrite decide_True by lia. f_equal.
    unfold registered, placeholder.
    change (unlabelled (created lg time0 i d0)) with (unlabelled (created lg time i d)).
    destruct (unlabelled (created lg time i d)); reflexivity.
  - apply lookup_ge_None_1 in H0. rewrite lookup_take_ge by exact H0. reflexivity.
Qed.

(** A later call with at least as many series as there are lines uses
    the first of them and ignores the rest; it returns when these can
    be drawn. *)
Lemma update_live_more :
  length data0 <= length data ->
  update time data (live ax0 xl yl tl lg time0 data0)
  = (live ax0 xl yl tl lg time (take (length data0) data),
     if shapes_ok time (take (length data0) data) then inr tt else inl ValueError).
Proof.
  intros Hlen. unfold update.
  unfold bind at 1. unfold get at 1. cbn [init live].
  unfold bind at 1.
  replace (length (line (live ax0 xl yl tl lg time0 data0))) with (length data0)
    by (simpl; rewrite length_seq; reflexivity).
  rewrite (refresh_loop _ _ _ (length data0)) by (reflexivity || lia).
  assert (Hst : set_heap (refreshed time data (length data0))
                  (live ax0 xl yl tl lg time0 data0)
                = live ax0 xl yl tl lg time (take (length data0) data)).
  { unfold set_heap, live. cbn [heap legend ax colors line_styles line init].
    rewrite refreshed_take by done. rewrite length_take_le by exact Hlen. reflexivity. }
  rewrite Hst. unfold bind. rewrite relim_live.
  destruct (shapes_ok time (take (length data0) data)); reflexivity.
Qed.

(** A later call with fewer series than there are lines. *)
Lemma update_live_fewer :
  length data < length data0 ->
  update time data (live ax0 xl yl tl lg time0 data0)
  = (set_heap (fun h =>
       alter (fun l => mkLine2D time (ydata l) (color l) (ls l) (label l)) (length data)
             (refreshed time data (length data) h))
       (live ax0 xl yl tl lg time0 data0),
     inl IndexError).
Proof.
  intros Hlen. unfold update.
  unfold bind at 1. unfold get at 1. cbn [init live].
  unfold bind at 1.
  replace (length (line (live ax0 xl yl tl lg time0 data0))) with (length data0)
    by (simpl; rewrite length_seq; reflexivity).
  replace (length data0) with (length data + (length data0 - length data)) at 1 by lia.
  rewrite seq_app, for_each_app. unfold bind at 1.
  rewrite (refresh_loop _ _ _ (length data0)) by (reflexivity || lia).
  destruct (length data0 - length data) as [|m] eqn:Hm; [lia|].
  cbn [seq for_each Nat.add]. unfold bind at 1.
  rewrite (refresh_line_short_state _ (length data0)) by (reflexivity || lia).
  reflexivity.
Qed.

End PanelEdges.

(** X3.  After the first [update] of a new subplot whose legend has a
    label for every series, the series being drawable against the time,
    the legend of the axes is built from exactly the lines of
    [self.line], in creation order, and the line at index [i] carries
    the label [legend[i]] when that label is not the empty string;
    labels beyond the number of series are not used.  A line whose
    label is the empty string, and every line when there is no legend,
    carries the placeholder [_child<c + i>], [c] being the number of
    lines the axes held at construction; without a legend, the legend
    of the axes is left as it was. *)
Theorem legend_attached_to_created_lines
    (ax0 : Panel.Axes) (xl yl tl : string) (lg : option (list string))
    (time : list float) (data : list (list float)) :
  PanelState.legend_fits lg (length data) ->
  PanelState.shapes_ok time data = true ->
  let p := state_after (Panel.update time data) (Panel.__init__ ax0 xl yl tl lg) in
  let child i := "_child" +:+ pretty (length (Panel.ax_lines ax0) + i) in
  Panel.line p = seq 0 (length data) /\
  match lg with
  | Some l =>
      Panel.ax_legend (Panel.ax p) = Some (Panel.line p) /\
      forall i, i < length data ->
        exists ln lbl, Panel.heap p !! i = Some ln /\ l !! i = Some lbl /\
          Panel.label ln = Some (if bool_decide (lbl = "") then child i else lbl)
  | None =>
      Panel.ax_legend (Panel.ax p) = Panel.ax_legend ax0 /\
      forall i ln, Panel.heap p !! i = Some ln -> Panel.label ln = Some (child i)
  end.
Proof.
  intros Hfit Hsh p child. unfold p, state_after.
  rewrite update_fresh by assumption. cbn [fst].
  split; [reflexivity|]. destruct lg as [l|].
  - split; [reflexivity|]. intros i Hi.
    destruct (lookup_lt_is_Some_2 data i Hi) as [d Hd].
    destruct (lookup_lt_is_Some_2 l i) as [lbl Hlbl]; [simpl in Hfit; lia|].
    exists (PanelState.registered ax0 (Some l) time i d), lbl.
    cbn [Panel.heap PanelState.live]. rewrite list_lookup_imap, Hd.
    split; [reflexivity|]. split; [exact Hlbl|].
    unfold PanelState.registered, Panel.placeholder, Panel.unlabelled, PanelState.created.
    cbn [Panel.label]. rewrite Hlbl. destruct (bool_decide (lbl = "")); reflexivity.
  - split; [reflexivity|]. intros i ln Hln.
    cbn [Panel.heap PanelState.live] in Hln. rewrite list_lookup_imap in Hln.
    destruct (data !! i); [|discriminate]. cbn in Hln. injection Hln as <-. reflexivity.
Qed.

Lemma legend_attached_to_created_lines_witness :
  let p := state_after (Panel.update [0%float] [[1%float]; [2%float]])
             (Panel.__init__ Panel.blank_axes "" "y" "" (Some ["a"; "b"; "c"])) in
  Panel.ax_legend (Panel.ax p) = Some (Panel.line p).
Proof.
  intros p.
  exact (proj1 (proj2 (legend_attached_to_created_lines Panel.blank_axes "" "y" ""
    (Some ["a"; "b"; "c"]) [0%float] [[1%float]; [2%float]] ltac:(simpl; lia) eq_refl))).
Defined.

(** X4.  On a subplot initialised by a first [update] that returned,
    with [k] series, an [update] that brings fewer than [k] series
    raises [IndexError] and leaves the lines half refreshed: the lines
    that have a series carry the new x- and y-data, the first line
    without a series carries the new x-data with its old y-data, and
    the lines after it are unchanged; no line is created and the
    subplot stays initialised. *)
Theorem update_with_too_few_series
    (ax0 : Panel.Axes) (xl yl tl : string) (lg : option (list string))
    (time0 time : list float) (data0 data : list (list float)) :
  PanelState.legend_fits lg (length data0) ->
  PanelState.shapes_ok time0 data0 = true ->
  length data < length data0 ->
  let p0 := state_after (Panel.update time0 data0) (Panel.__init__ ax0 xl yl tl lg) in
  let p := state_after (Panel.update time data) p0 in
  snd (Panel.update time0 data0 (Panel.__init__ ax0 xl yl tl lg)) = inr tt /\
  snd (Panel.update time data p0) = inl IndexError /\
  Panel.init p = false /\ Panel.line p = Panel.line p0 /\
  length (Panel.heap p) = length (Panel.heap p0) /\
  (forall i d, data !! i = Some d ->
     Panel.heap p !! i = Some (PanelState.registered ax0 lg time i d)) /\
  (forall d0, data0 !! length data = Some d0 ->
     Panel.heap p !! length data
     = Some (Panel.mkLine2D time d0
               (Panel.color (PanelState.registered ax0 lg time0 (length data) d0))
               (Panel.ls (PanelState.registered ax0 lg time0 (length data) d0))
               (Panel.label (PanelState.registered ax0 lg time0 (length data) d0)))) /\
  (forall i, length data < i -> Panel.heap p !! i = Panel.heap p0 !! i).
Proof.
  intros Hfit Hsh Hlen p0 p. unfold p, p0, state_after.
  rewrite update_fresh by assumption. cbn [fst snd].
  rewrite update_live_fewer by exact Hlen. cbn [fst snd].
  split; [reflexivity|].
  split; [reflexivity|]. split; [reflexivity|]. split; [reflexivity|].
  unfold Panel.set_heap. cbn [Panel.heap PanelState.live].
  split; [|split; [|split]].
  - rewrite length_alter. unfold PanelState.refreshed. rewrite !length_imap. reflexivity.
  - intros i d Hd. pose proof (lookup_lt_Some _ _ _ Hd) as Hi.
    rewrite list_lookup_alter_ne by lia.
    unfold PanelState.refreshed. rewrite !list_lookup_imap.
    destruct (lookup_lt_is_Some_2 data0 i ltac:(lia)) as [d0 Hd0].
    rewrite Hd0. cbn [fmap option_fmap option_map]. rewrite decide_True by lia.
    rewrite Hd. cbn [default]. f_equal.
    unfold PanelState.registered, Panel.placeholder.
    change (Panel.unlabelled (PanelState.created lg time0 i d0))
      with (Panel.unlabelled (PanelState.created lg time i d)).
    destruct (Panel.unlabelled (PanelState.created lg time i d)); reflexivity.
  - intros d0 Hd0. rewrite list_lookup_alter_eq.
    unfold PanelState.refreshed. rewrite !list_lookup_imap, Hd0.
    cbn [fmap option_fmap option_map]. rewrite decide_False by lia.
    f_equal. f_equal. apply registered_data.
  - intros i Hi. rewrite list_lookup_alter_ne by lia.
    unfold PanelState.refreshed. rewrite !list_lookup_imap.
    destruct (data0 !! i); [|reflexivity].
    cbn [fmap option_fmap option_map]. rewrite decide_False by lia. reflexivity.
Qed.

Lemma update_with_too_few_series_witness :
  let p0 := state_after (Panel.update [0%float] [[1%float]; [2%float]])
              (Panel.__init__ Panel.blank_axes "" "y" "" None) in
  snd (Panel.update [0%float; 1%float] [[1%float; 3%float]] p0) = inl IndexError.
Proof.
  intros p0.
  exact (proj1 (proj2 (update_with_too_few_series Panel.blank_axes "" "y" "" None [0%float]
    [0%float; 1%float] [[1%float]; [2%float]] [[1%float; 3%float]] I eq_refl
    ltac:(simpl; lia)))).
Defined.

(** X5.  On a subplot initialised by a first [update] that returned,
    with [k] series, an [update] that brings at least [k] series
    refreshes the [k] lines with the first [k] series and ignores the
    others: no line is created for a series that was not there at the
    first call.  The call returns when the first [k] series can be
    drawn against the time, and raises [ValueError], after the refresh,
    when one of them cannot. *)
Theorem update_ignores_extra_series
    (ax0 : Panel.Axes) (xl yl tl : string) (lg : option (list string))
    (time0 time : list float) (data0 data : list (list float)) :
  PanelState.legend_fits lg (length data0) ->
  PanelState.shapes_ok time0 data0 = true ->
  length data0 <= length data ->
  let p0 := state_after (Panel.update time0 data0) (Panel.__init__ ax0 xl yl tl lg) in
  let p := state_after (Panel.update time data) p0 in
  snd (Panel.update time0 data0 (Panel.__init__ ax0 xl yl tl lg)) = inr tt /\
  snd (Panel.update time data p0)
  = (if PanelState.shapes_ok time (take (length data0) data)
     then inr tt else inl ValueError) /\
  Panel.line p = Panel.line p0 /\
  Panel.ax_lines (Panel.ax p) = Panel.ax_lines (Panel.ax p0) /\
  length (Panel.heap p) = length data0 /\
  forall i d, i < length data0 -> data !! i = Some d ->
    Panel.heap p !! i = Some (PanelState.registered ax0 lg time i d).
Proof.
  intros Hfit Hsh Hlen p0 p. unfold p, p0, state_after.
  rewrite update_fresh by assumption. cbn [fst snd].
  rewrite update_live_more by exact Hlen. cbn [fst snd].
  split; [reflexivity|]. split; [reflexivity|].
  cbn [Panel.line Panel.ax Panel.ax_lines Panel.heap PanelState.live].
  rewrite length_take_le by exact Hlen.
  split; [reflexivity|]. split; [reflexivity|].
  split; [rewrite length_imap; apply length_take_le; exact Hlen|].
  intros i d Hi Hd. rewrite list_lookup_imap, lookup_take_lt, Hd by exact Hi. reflexivity.
Qed.

Lemma update_ignores_extra_series_witness :
  let p0 := state_after (Panel.update [0%float] [[1%float]])
              (Panel.__init__ Panel.blank_axes "" "y" "" None) in
  let call := Panel.update [0%float; 1%float] [[1%float; 3%float]; [2%float; 4%float]] in
  snd (call p0) = inr tt /\ Panel.line (state_after call p0) = Panel.line p0.
Proof.
  intros p0 call.
  pose proof (update_ignores_extra_series Panel.blank_axes "" "y" "" None
    [0%float] [0%float; 1%float] [[1%float]] [[1%float; 3%float]; [2%float; 4%float]]
    I eq_refl ltac:(simpl; lia)) as H.
  split; [apply H | apply H].
Defined.

(** X6.  A new subplot whose first [update] brings no series leaves its
    initialisation phase without any line, and stays without lines:
    every later [update], whatever series it brings, returns and
    creates nothing. *)
Theorem empty_first_update_leaves_no_lines
    (ax0 : Panel.Axes) (xl yl tl : string) (lg : option (list string))
    (time0 : list float) (calls : list (list float * list (list float))) :
  let run := Panel.updates ((time0, []) :: calls) in
  let p := state_after run (Panel.__init__ ax0 xl yl tl lg) in
  snd (run (Panel.__init__ ax0 xl yl tl lg)) = inr tt /\
  Panel.init p = false /\ Panel.line p = [] /\ Panel.heap p = [] /\
  Panel.ax_lines (Panel.ax p) = Panel.ax_lines (Panel.ax (Panel.__init__ ax0 xl yl tl lg)).
Proof.
  intros run p.
  assert (Hrun : run (Panel.__init__ ax0 xl yl tl lg)
                 = (PanelState.live ax0 xl yl tl lg time0 [], inr tt)).
  { unfold run, Panel.updates. cbn [for_each fst snd]. unfold bind.
    rewrite update_fresh by (reflexivity || (destruct lg; simpl; lia)).
    clear run p. induction calls as [|[t d] cs IH]; [reflexivity|].
    cbn [for_each fst snd]. unfold bind.
    rewrite update_live_more by (simpl; lia). exact IH. }
  unfold p, state_after. rewrite Hrun. cbn [fst snd].
  split; [reflexivity|]. split; [reflexivity|]. split; [reflexivity|].
  split; [reflexivity|]. cbn. apply app_nil_r.
Qed.
(** ** The plotter: what the histories hold *)

Section PlotterValues.
Import Plotter PlotterState Kept.

Lemma recorded_lookup (h : gmap string (list float)) (kwargs : list (string * float))
    (s : string) :
  recorded h kwargs !! s = (fun hist => hist ++ values_for s kwargs) <$> (h !! s).
Proof.
  revert h. induction kwargs as [|kv kwargs IH]; intros h.
  - cbn. destruct (h !! s); cbn; [rewrite app_nil_r|]; reflexivity.
  - unfold recorded. cbn [foldl]. fold recorded. rewrite IH. unfold values_for.
    destruct (decide (kv.1 = s)) as [Heq|Hne].
    + rewrite filter_cons_True by exact Heq. cbn [fmap list_fmap]. rewrite <- Heq.
      destruct (h !! kv.1) as [hist|] eqn:Hh.
      * rewrite lookup_insert_eq. cbn. rewrite <- app_assoc. reflexivity.
      * rewrite Hh. reflexivity.
    + rewrite filter_cons_False by exact Hne.
      destruct (h !! kv.1); [|reflexivity]. rewrite lookup_insert_ne by exact Hne.
      reflexivity.
Qed.

Lemma after_calls_history (self : MotorDataPlotter)
    (calls : list (float * list (string * float))) (s : string) :
  time_history (after_calls self calls) = time_history self ++ calls.*1 /\
  data_histories (after_calls self calls) !! s
  = (fun hist => hist ++ concat (map (fun c => values_for s (snd c)) calls))
      <$> (data_histories self !! s).
Proof.
  induction calls as [|c calls [IHt IHh]] using rev_ind.
  - cbn. rewrite app_nil_r. destruct (data_histories self !! s); cbn;
      [rewrite app_nil_r|]; auto.
  - rewrite after_calls_snoc.
    destruct (update_history c.1 c.2 (after_calls self calls)) as (_ & Ht & Hh).
    cbv zeta in *. rewrite Ht, Hh, recorded_lookup, IHt, IHh. split.
    + rewrite fmap_app, app_assoc. reflexivity.
    + rewrite map_app, concat_app. cbn [map concat]. rewrite app_nil_r.
      destruct (data_histories self !! s); cbn; [rewrite app_assoc|]; reflexivity.
Qed.

Lemma length_values_for (s : string) (kwargs : list (string * float)) :
  well_formed kwargs ->
  length (values_for s kwargs) = if decide (s ∈ kwargs.*1) then 1 else 0.
Proof.
  unfold well_formed, values_for. induction kwargs as [|kv kwargs IH]; intros Hwf.
  - rewrite decide_False by apply not_elem_of_nil. reflexivity.
  - cbn [fmap list_fmap] in *. apply NoDup_cons in Hwf as [Hfresh Hwf].
    destruct (decide (kv.1 = s)) as [Heq|Hne].
    + rewrite filter_cons_True by exact Heq. cbn [fmap list_fmap length].
      rewrite IH by exact Hwf. rewrite <- Heq.
      rewrite decide_False by exact Hfresh. rewrite decide_True by left. reflexivity.
    + rewrite filter_cons_False by exact Hne. rewrite IH by exact Hwf.
      destruct (decide (s ∈ kwargs.*1)) as [Hin|Hnin].
      * rewrite decide_True by (right; exact Hin). reflexivity.
      * rewrite decide_False; [reflexivity|].
        intros Hc. apply elem_of_cons in Hc as [?|?]; [congruence|contradiction].
Qed.

Lemma length_supplied (s : string) (calls : list (float * list (string * float))) :
  (forall c, c ∈ calls -> well_formed (snd c)) ->
  length (concat (map (fun c => values_for s (snd c)) calls))
  = length (filter (fun c : float * list (string * float) => s ∈ (snd c).*1) calls).
Proof.
  induction calls as [|c calls IH]; intros Hwf; [reflexivity|].
  cbn [map concat]. rewrite length_app, IH by (intros; apply Hwf; right; assumption).
  rewrite length_values_for by (apply Hwf; left).
  destruct (decide (s ∈ (c.2).*1)) as [Hin|Hnin].
  - rewrite filter_cons_True by exact Hin. reflexivity.
  - rewrite filter_cons_False by exact Hnin. reflexivity.
Qed.

End PlotterValues.

(** X7.  A constructed plotter has an empty time history, one subplot
    per group, and a history for exactly the signals that some group
    declares, each of them empty. *)
Theorem construction_creates_empty_histories
    (config : option (list Plotter.PlotConfig)) (p : Plotter.MotorDataPlotter) :
  Plotter.__init__ config = inr p ->
  Plotter.time_history p = [] /\
  Plotter.num_plots p = length (Plotter.plot_config p) /\
  length (Plotter.handle p) = length (Plotter.plot_config p) /\
  Plotter.plot_config p <> [] /\
  forall name,
    (Plotter.declared p name -> Plotter.data_histories p !! name = Some []) /\
    (~ Plotter.declared p name -> Plotter.data_histories p !! name = None).
Proof.
  intros Hinit. destruct (init_cases _ _ Hinit) as (c & Hne & ->).
  split; [reflexivity|]. split; [reflexivity|].
  split; [cbn; apply length_map|]. split; [exact Hne|].
  intros name. destruct (constructed_histories c name) as [[Hd Hh]|[Hd Hh]].
  - split; [intros _; exact Hh|intros Hn; contradiction].
  - split; [intros Hn; contradiction|intros _; exact Hh].
Qed.

Lemma construction_creates_empty_histories_witness :
  Plotter.time_history (PlotterState.constructed Plotter.default_config) = [].
Proof.
  exact (proj1 (construction_creates_empty_histories None
                  (PlotterState.constructed Plotter.default_config) eq_refl)).
Defined.

(** X8.  After any sequence of [update] calls on a constructed plotter,
    whether they returned or raised, the time history is the list of
    the times of the calls, in call order, and the history of a
    declared signal is the list of the values the calls supplied for
    it, in call order; a call that does not supply the signal
    contributes nothing to its history. *)
Theorem histories_hold_supplied_values
    (config : option (list Plotter.PlotConfig)) (p0 : Plotter.MotorDataPlotter)
    (calls : list (float * list (string * float))) :
  Plotter.__init__ config = inr p0 ->
  Plotter.time_history (Plotter.after_calls p0 calls) = calls.*1 /\
  forall s, Plotter.declared p0 s ->
    Plotter.data_histories (Plotter.after_calls p0 calls) !! s
    = Some (concat (map (fun c => Kept.values_for s (snd c)) calls)).
Proof.
  intros Hinit. destruct (init_cases _ _ Hinit) as (c & _ & ->).
  split.
  - destruct (after_calls_history (PlotterState.constructed c) calls "") as [Ht _].
    exact Ht.
  - intros s Hdecl.
    destruct (after_calls_history (PlotterState.constructed c) calls s) as [_ Hh].
    destruct (constructed_histories c s) as [[_ Hs]|[Hn _]]; [|contradiction].
    rewrite Hh, Hs. reflexivity.
Qed.

Lemma histories_hold_supplied_values_witness :
  let cfg := [Plotter.mkConfig ["omega"] None None None None None] in
  let calls := [(0%float, [("omega", 1%float)]); (1%float, []);
                (2%float, [("omega", 2%float)])] in
  Plotter.time_history (Plotter.after_calls (PlotterState.constructed cfg) calls)
  = [0%float; 1%float; 2%float].
Proof.
  intros cfg calls.
  exact (proj1 (histories_hold_supplied_values (Some cfg) (PlotterState.constructed cfg)
                  calls eq_refl)).
Defined.

(** X9.  After [M] calls (no keyword bound twice within a call), the
    history of a declared signal has as many entries as there are calls
    that supply it: never more than the time history, and strictly
    fewer as soon as one call omits the signal.  Nothing pads the
    history of an omitted signal. *)
Theorem omitted_signal_shortens_history
    (config : option (list Plotter.PlotConfig)) (p0 : Plotter.MotorDataPlotter)
    (calls : list (float * list (string * float))) (s : string) :
  Plotter.__init__ config = inr p0 ->
  (forall c, c ∈ calls -> PlotterState.well_formed (snd c)) ->
  Plotter.declared p0 s ->
  exists hist,
    Plotter.data_histories (Plotter.after_calls p0 calls) !! s = Some hist /\
    length hist
    = length (filter (fun c : float * list (string * float) => s ∈ (snd c).*1) calls) /\
    length hist <= length (Plotter.time_history (Plotter.after_calls p0 calls)) /\
    ((exists c, c ∈ calls /\ s ∉ (snd c).*1) ->
     length hist < length (Plotter.time_history (Plotter.after_calls p0 calls))).
Proof.
  intros Hinit Hwf Hdecl.
  destruct (histories_hold_supplied_values config p0 calls Hinit) as [Ht Hh].
  exists (concat (map (fun c => Kept.values_for s (snd c)) calls)).
  split; [apply Hh; exact Hdecl|].
  rewrite Ht, length_fmap, length_supplied by exact Hwf.
  split; [reflexivity|]. split; [apply length_filter|].
  intros (c & Hc & Hnin). eapply length_filter_lt; eauto.
Qed.

Lemma omitted_signal_shortens_history_witness :
  let cfg := [Plotter.mkConfig ["omega"] None None None None None] in
  let calls := [(0%float, [("omega", 1%float)]); (1%float, [])] in
  exists hist,
    Plotter.data_histories
      (Plotter.after_calls (PlotterState.constructed cfg) calls) !! "omega" = Some hist /\
    length hist
    = length (filter (fun c : float * list (string * float) => "omega" ∈ (snd c).*1) calls) /\
    length hist <= length (Plotter.time_history
                             (Plotter.after_calls (PlotterState.constructed cfg) calls)) /\
    ((exists c, c ∈ calls /\ "omega" ∉ (snd c).*1) ->
     length hist < length (Plotter.time_history
                             (Plotter.after_calls (PlotterState.constructed cfg) calls))).
Proof.
  intros cfg calls.
  refine (omitted_signal_shortens_history (Some cfg) (PlotterState.constructed cfg)
            calls "omega" eq_refl _ _).
  - intros c Hc. unfold calls in Hc.
    each_elem Hc; [apply NoDup_singleton|apply NoDup_nil_2].
  - exists (Plotter.mkConfig ["omega"] None None None None None).
    split; [left|left].
Defined.

(** ** The plotter: the loop over the subplots *)

Section PlotterLoop.
Import Plotter PlotterState Kept.

Lemma legend_fits_cases (lg : option (list string)) (k : nat) :
  PanelState.legend_fits lg k \/ exists l, lg = Some l /\ length l < k.
Proof.
  destruct lg as [l|]; [|left; exact I].
  destruct (decide (k <= length l)); [left; assumption|right; exists l; split; [done|lia]].
Qed.

(** Against a time of one element every series can be drawn. *)
Lemma shapes_ok_first (time : list float) (data : list (list float)) :
  length time = 1 -> PanelState.shapes_ok time data = true.
Proof.
  intros Ht. unfold PanelState.shapes_ok. apply forallb_forall. intros d _.
  unfold Panel.broadcastable. rewrite Ht.
  change (1 =? 1) with true. rewrite orb_true_r. reflexivity.
Qed.

(** The loop over new subplots, at the first value of the time, returns
    when every legend fits, and raises [IndexError] otherwise. *)
Lemma refresh_fresh_loop (plots : list PlotConfig) (i : nat) (s : MotorDataPlotter) :
  length (time_history s) = 1 ->
  (forall k plot, plots !! k = Some plot -> handle s !! (i + k) = Some (fresh_panel plot)) ->
  (legends_fit plots ->
   snd (for_each refresh_panel (zip (seq i (length plots)) plots) s) = inr tt) /\
  (~ legends_fit plots ->
   snd (for_each refresh_panel (zip (seq i (length plots)) plots) s) = inl IndexError).
Proof.
  revert i s. induction plots as [|plot plots IH]; intros i s Htime Hfresh.
  - split; [reflexivity|]. intros Hn. exfalso. apply Hn. constructor.
  - cbn [length seq zip zip_with for_each].
    pose proof (Hfresh 0 plot eq_refl) as H0. rewrite Nat.add_0_r in H0.
    assert (Hstep : refresh_panel (i, plot) s
              = (set_handle <[i := fst (Panel.update (time_history s) (plot_data s plot)
                                          (fresh_panel plot))]> s,
                 snd (Panel.update (time_history s) (plot_data s plot) (fresh_panel plot)))).
    { unfold refresh_panel, bind, get, at_handle. cbn [fst snd]. rewrite H0.
      destruct (Panel.update _ _ (fresh_panel plot)); reflexivity. }
    unfold bind. rewrite Hstep. clear Hstep. unfold fresh_panel.
    destruct (legend_fits_cases (legend plot) (length (signals plot)))
      as [Hfit|(l & Hl & Hshort)].
    + rewrite update_fresh
        by (apply shapes_ok_first; exact Htime) || (rewrite length_plot_data; exact Hfit).
      cbn [fst snd].
      destruct (IH (S i) (set_handle <[i := PanelState.live Panel.blank_axes
                  (default "" (xlabel plot)) (default "" (ylabel plot))
                  (default "" (title plot)) (legend plot) (time_history s)
                  (plot_data s plot)]> s)) as [IHok IHerr].
      { exact Htime. }
      { intros k plot' Hk. cbn [handle set_handle].
        rewrite list_lookup_insert_ne by lia.
        replace (S i + k) with (i + S k) by lia. apply Hfresh. exact Hk. }
      split.
      * intros Hall. apply Forall_cons in Hall as [_ Hall]. exact (IHok Hall).
      * intros Hn. apply IHerr. intros Hall. apply Hn. constructor; assumption.
    + rewrite (update_fresh_short _ _ _ _ _ _ _ l)
        by (done || (apply shapes_ok_first; exact Htime)
            || (rewrite length_plot_data; exact Hshort)).
      cbn [fst snd]. split; [|reflexivity].
      intros Hall. apply Forall_cons in Hall as [Hfit _].
      rewrite Hl in Hfit. simpl in Hfit. lia.
Qed.

Lemma refresh_panel_length (ip : nat * PlotConfig) (s : MotorDataPlotter) :
  length (handle (state_after (refresh_panel ip) s)) = length (handle s).
Proof.
  unfold state_after, refresh_panel, bind, get, at_handle.
  destruct (handle s !! ip.1) as [p|]; [|reflexivity].
  destruct (Panel.update _ _ p) as [p' r]. cbn. apply length_insert.
Qed.

Lemma refresh_loop_length (l : list (nat * PlotConfig)) (s : MotorDataPlotter) :
  length (handle (state_after (for_each refresh_panel l) s)) = length (handle s).
Proof.
  apply (for_each_preserves
           (fun s1 s2 : MotorDataPlotter => length (handle s2) = length (handle s1))).
  - reflexivity.
  - intros s1 s2 s3 H1 H2. congruence.
  - intros a s0. apply refresh_panel_length.
Qed.

(** When the loop over the subplots raises, the subplots before the
    failing one were refreshed and those after it were not touched. *)
Lemma refresh_loop_err (plots : list PlotConfig) (i : nat) (s s' : MotorDataPlotter)
    (e : exn) :
  for_each refresh_panel (zip (seq i (length plots)) plots) s = (s', inl e) ->
  exists k, k < length plots /\
    (forall j, j < i -> handle s' !! j = handle s !! j) /\
    (forall j, i + k < j -> handle s' !! j = handle s !! j) /\
    (forall k' plot, k' < k -> plots !! k' = Some plot ->
       exists p p', handle s !! (i + k') = Some p /\
         Panel.update (time_history s) (plot_data s plot) p = (p', inr tt) /\
         handle s' !! (i + k') = Some p').
Proof.
  revert i s. induction plots as [|plot plots IH]; intros i s Hrun.
  - cbn in Hrun. discriminate.
  - cbn [length seq zip zip_with for_each] in Hrun. unfold bind at 1 in Hrun.
    destruct (refresh_panel (i, plot) s) as [s1 [e1|[]]] eqn:Hstep.
    + injection Hrun as <- <-. exists 0. split; [simpl; lia|].
      unfold refresh_panel, bind, get, at_handle in Hstep. cbn [fst snd] in Hstep.
      destruct (handle s !! i) as [p|] eqn:Hp.
      * destruct (Panel.update (time_history s) (plot_data s plot) p) as [p1 r].
        injection Hstep as <- _. cbn [handle set_handle].
        split; [intros j Hj; apply list_lookup_insert_ne; lia|].
        split; [intros j Hj; apply list_lookup_insert_ne; lia|].
        intros k' plot' Hk'. lia.
      * injection Hstep as <- _.
        split; [reflexivity|]. split; [reflexivity|]. intros k' plot' Hk'. lia.
    + unfold refresh_panel, bind, get, at_handle in Hstep. cbn [fst snd] in Hstep.
      destruct (handle s !! i) as [p|] eqn:Hp; [|discriminate].
      destruct (Panel.update (time_history s) (plot_data s plot) p) as [p1 r] eqn:Hupd.
      injection Hstep as <- ->.
      destruct (IH (S i) _ Hrun) as (k & Hk & Hbelow & Habove & Hdone).
      cbn [handle set_handle time_history] in *.
      exists (S k). split; [simpl; lia|].
      split; [intros j Hj; rewrite Hbelow by lia; apply list_lookup_insert_ne; lia|].
      split; [intros j Hj; rewrite Habove by lia; apply list_lookup_insert_ne; lia|].
      intros [|k'] plot' Hk' Hplot'.
      * cbn in Hplot'. injection Hplot' as <-. rewrite Nat.add_0_r.
        exists p, p1. split; [exact Hp|]. split; [exact Hupd|].
        rewrite Hbelow by lia. apply list_lookup_insert_eq. eapply lookup_lt_Some; eauto.
      * cbn in Hplot'. destruct (Hdone k' plot' ltac:(lia) Hplot') as (q & q' & Hq & Hqu & Hq').
        replace (i + S k') with (S i + k') by lia.
        exists q, q'. split; [|split; [exact Hqu|exact Hq']].
        rewrite list_lookup_insert_ne in Hq by lia. exact Hq.
Qed.

End PlotterLoop.

(** X10.  The first [update] of a constructed plotter, whatever the
    keywords it is given, returns when every group has a legend that is
    absent or has a label for each of its signals, and raises
    [IndexError] as soon as one group has fewer labels than signals. *)
Theorem first_update_returns_iff_legends_fit
    (config : option (list Plotter.PlotConfig)) (p0 : Plotter.MotorDataPlotter)
    (t : float) (kwargs : list (string * float)) :
  Plotter.__init__ config = inr p0 ->
  (Kept.legends_fit (Plotter.plot_config p0) ->
   snd (Plotter.update t kwargs p0) = inr tt) /\
  (~ Kept.legends_fit (Plotter.plot_config p0) ->
   snd (Plotter.update t kwargs p0) = inl IndexError).
Proof.
  intros Hinit. destruct (init_cases _ _ Hinit) as (c & _ & ->).
  rewrite update_eq. unfold enumerate.
  apply (refresh_fresh_loop (Plotter.plot_config (PlotterState.constructed c)) 0);
    [reflexivity|].
  intros k plot Hk. cbn [Plotter.handle Plotter.plot_config PlotterState.appended
                         PlotterState.constructed Nat.add] in *.
  change (map PlotterState.fresh_panel c) with (PlotterState.fresh_panel <$> c).
  rewrite list_lookup_fmap, Hk. reflexivity.
Qed.

Lemma first_update_returns_iff_legends_fit_witness :
  let cfg := [Plotter.mkConfig ["theta_ref"; "theta"] None None None
                               (Some ["Reference"]) None] in
  snd (Plotter.update 0%float [("theta", 1%float)] (PlotterState.constructed cfg))
  = inl IndexError.
Proof.
  intros cfg.
  refine (proj2 (first_update_returns_iff_legends_fit (Some cfg)
                   (PlotterState.constructed cfg) 0%float [("theta", 1%float)] eq_refl) _).
  intros Hall. apply Forall_cons in Hall as [Hfit _]. simpl in Hfit. lia.
Defined.

(** X11.  When [update] raises, the time and the supplied values are
    already in the histories, the subplots before the one that raised
    are refreshed with the new histories, and the subplots after it are
    exactly as they were before the call. *)
Theorem failed_update_leaves_later_subplots
    (self self' : Plotter.MotorDataPlotter) (t : float) (kwargs : list (string * float))
    (e : exn) :
  Plotter.update t kwargs self = (self', inl e) ->
  Plotter.time_history self' = Plotter.time_history self ++ [t] /\
  Plotter.data_histories self'
  = PlotterState.recorded (Plotter.data_histories self) kwargs /\
  exists k, k < length (Plotter.plot_config self) /\
    (forall j, k < j -> Plotter.handle self' !! j = Plotter.handle self !! j) /\
    (forall j plot, j < k -> Plotter.plot_config self !! j = Some plot ->
       exists p p', Plotter.handle self !! j = Some p /\
         Panel.update (Plotter.time_history self') (Plotter.plot_data self' plot) p
         = (p', inr tt) /\
         Plotter.handle self' !! j = Some p').
Proof.
  intros Hrun.
  destruct (update_history t kwargs self) as (_ & Ht & Hh).
  unfold state_after in Ht, Hh. rewrite Hrun in Ht, Hh. cbn [fst] in Ht, Hh.
  split; [exact Ht|]. split; [exact Hh|].
  rewrite update_eq in Hrun. unfold enumerate in Hrun.
  apply refresh_loop_err in Hrun as (k & Hk & _ & Habove & Hdone).
  cbn [Plotter.handle Plotter.time_history PlotterState.appended Nat.add] in *.
  exists k. split; [exact Hk|]. split; [exact Habove|].
  intros j plot Hj Hplot. destruct (Hdone j plot Hj Hplot) as (p & p' & Hp & Hupd & Hp').
  exists p, p'. split; [exact Hp|]. split; [|exact Hp'].
  rewrite Ht. unfold Plotter.plot_data in *. rewrite Hh. exact Hupd.
Qed.

Lemma failed_update_leaves_later_subplots_witness :
  let cfg := [Plotter.mkConfig ["theta_ref"; "theta"] None None None
                               (Some ["Reference"]) None;
              Plotter.mkConfig ["omega"] None None None None None] in
  let self := PlotterState.constructed cfg in
  let self' := state_after (Plotter.update 0%float [("omega", 1%float)]) self in
  Plotter.time_history self' = Plotter.time_history self ++ [0%float].
Proof.
  intros cfg self self'.
  refine (proj1 (failed_update_leaves_later_subplots self self' 0%float
                   [("omega", 1%float)] IndexError _)).
  vm_compute. reflexivity.
Defined.

(** X12.  Whatever the plotter and the keywords, and whether [update]
    returns or raises, the configuration and the number of subplots are
    unchanged, the time history is extended by exactly the time of the
    call, no history is created or removed, and every history keeps its
    former content as a prefix: the histories are append-only. *)
Theorem update_appends_to_histories
    (self : Plotter.MotorDataPlotter) (t : float) (kwargs : list (string * float)) :
  let self' := state_after (Plotter.update t kwargs) self in
  Plotter.plot_config self' = Plotter.plot_config self /\
  length (Plotter.handle self') = length (Plotter.handle self) /\
  Plotter.time_history self' = Plotter.time_history self ++ [t] /\
  dom (Plotter.data_histories self') = dom (Plotter.data_histories self) /\
  forall s hist, Plotter.data_histories self !! s = Some hist ->
    Plotter.data_histories self' !! s = Some (hist ++ Kept.values_for s kwargs).
Proof.
  intros self'. destruct (update_history t kwargs self) as (Hc & Ht & Hh).
  fold self' in Hc, Ht, Hh.
  split; [exact Hc|]. split.
  { unfold self', state_after. rewrite update_eq.
    apply (refresh_loop_length _ (PlotterState.appended t kwargs self)). }
  split; [exact Ht|]. split.
  - rewrite Hh. apply set_eq. intros x. rewrite !elem_of_dom. apply recorded_is_Some.
  - intros s hist Hs. rewrite Hh, recorded_lookup, Hs. reflexivity.
Qed.

Lemma update_appends_to_histories_witness :
  let self := PlotterState.constructed
                [Plotter.mkConfig ["omega"] None None None None None] in
  Plotter.data_histories
    (state_after (Plotter.update 0%float [("omega", 1%float)]) self) !! "omega"
  = Some ([] ++ Kept.values_for "omega" [("omega", 1%float)]).
Proof.
  intros self.
  refine (proj2 (proj2 (proj2 (proj2
    (update_appends_to_histories self 0%float [("omega", 1%float)])))) "omega" [] _).
  reflexivity.
Defined.

(** ** The schematic: what is drawn *)

Section MotorDrawn.
Import Motor.
Context {numpy : Numpy}.
Local Open Scope float_scope.

Lemma drawn_radii (rs rr rsh theta : float) (omega torque : option float) :
  stator_radius (drawn rs rr rsh theta omega torque) = rs /\
  rotor_radius (drawn rs rr rsh theta omega torque) = rr /\
  shaft_radius (drawn rs rr rsh theta omega torque) = rsh.
Proof. destruct omega, torque; vm_compute; auto. Qed.

Lemma update_reachable_radii (a : ACMotorAnimation) (theta : float)
    (omega torque : option float) :
  reachable a ->
  update theta omega torque a
  = (drawn (stator_radius a) (rotor_radius a) (shaft_radius a) theta omega torque, inr tt).
Proof.
  intros Hr.
  destruct (reachable_cases a Hr)
    as (rs & rr & rsh & [->|(theta0 & omega0 & torque0 & ->)]).
  - apply update_constructed.
  - destruct (drawn_radii rs rr rsh theta0 omega0 torque0) as (-> & -> & ->).
    apply update_drawn.
Qed.

Lemma drawn_handles (rs rr rsh theta : float) (omega torque : option float) :
  flagInit (drawn rs rr rsh theta omega torque) = false /\
  length (heap (drawn rs rr rsh theta omega torque)) = 19%nat /\
  handle (drawn rs rr rsh theta omega torque) = seq 0 19 /\
  children (ax (drawn rs rr rsh theta omega torque)) = seq 0 19 /\
  rotor_bar_handles (drawn rs rr rsh theta omega torque) = Some (seq 9 8).
Proof. destruct omega, torque; vm_compute; auto 6. Qed.

Lemma drawn_rotor_bar (rs rr rsh theta : float) (omega torque : option float) (i : nat) :
  (i < 8)%nat ->
  heap (drawn rs rr rsh theta omega torque) !! (9 + i)%nat
  = Some (Line [(rsh + 0.05) * np_cos (theta + float_of_nat (i * 2) * np_pi / 8);
                (rr - 0.05) * np_cos (theta + float_of_nat (i * 2) * np_pi / 8)]
               [(rsh + 0.05) * np_sin (theta + float_of_nat (i * 2) * np_pi / 8);
                (rr - 0.05) * np_sin (theta + float_of_nat (i * 2) * np_pi / 8)] "k-").
Proof.
  intros Hi.
  destruct i as [|[|[|[|[|[|[|[|i]]]]]]]]; try lia;
    destruct omega, torque; vm_compute; reflexivity.
Qed.

Lemma drawn_stator_coil (rs rr rsh theta : float) (omega torque : option float) (i : nat) :
  (i < 6)%nat ->
  exists c, (["red"; "yellow"; "blue"] : list string) !! (i mod 3)%nat = Some c /\
    heap (drawn rs rr rsh theta omega torque) !! (2 + i)%nat
    = Some (Circle ((rs - 0.15) * np_cos (float_of_nat i * np_pi / 3),
                    (rs - 0.15) * np_sin (float_of_nat i * np_pi / 3)) 0.08 c).
Proof.
  intros Hi.
  destruct i as [|[|[|[|[|[|i]]]]]]; try lia; eexists;
    (split; [reflexivity|]); destruct omega, torque; vm_compute; reflexivity.
Qed.

Lemma drawn_disks (rs rr rsh theta : float) (omega torque : option float) :
  heap (drawn rs rr rsh theta omega torque) !! 0%nat = Some (Circle (0, 0) rs "gray") /\
  heap (drawn rs rr rsh theta omega torque) !! 1%nat
  = Some (Circle (0, 0) (rr + 0.05) "white") /\
  heap (drawn rs rr rsh theta omega torque) !! 8%nat
  = Some (Circle (0, 0) rr "lightblue") /\
  heap (drawn rs rr rsh theta omega torque) !! 17%nat
  = Some (Circle (0, 0) rsh "darkgray").
Proof. destruct omega, torque; vm_compute; auto. Qed.

End MotorDrawn.

(** X13.  After every [update] the schematic is in the state that one
    [update] with the same arguments gives on a new renderer with the
    same radii: nothing accumulates over the calls.  It is out of its
    initialisation phase, holds exactly 19 objects, each in
    [self.handle] and registered with the axes once, eight of them the
    rotor bars, and its radii are those given at construction. *)
Theorem schematic_is_built_once {numpy : Motor.Numpy}
    (a : Motor.ACMotorAnimation) (theta : float) (omega torque : option float) :
  Motor.reachable a ->
  let a' := state_after (Motor.update theta omega torque) a in
  a' = state_after (Motor.update theta omega torque)
         (Motor.constructed (Motor.stator_radius a) (Motor.rotor_radius a)
                            (Motor.shaft_radius a)) /\
  Motor.flagInit a' = false /\
  length (Motor.heap a') = 19 /\
  Motor.handle a' = seq 0 19 /\
  Motor.children (Motor.ax a') = seq 0 19 /\
  Motor.rotor_bar_handles a' = Some (seq 9 8) /\
  Motor.stator_radius a' = Motor.stator_radius a /\
  Motor.rotor_radius a' = Motor.rotor_radius a /\
  Motor.shaft_radius a' = Motor.shaft_radius a.
Proof.
  intros Hr a'. unfold a', state_after.
  rewrite update_reachable_radii by exact Hr. cbn [fst].
  split; [unfold Motor.drawn, state_after; reflexivity|].
  destruct (drawn_handles (Motor.stator_radius a) (Motor.rotor_radius a)
              (Motor.shaft_radius a) theta omega torque) as (H1 & H2 & H3 & H4 & H5).
  destruct (drawn_radii (Motor.stator_radius a) (Motor.rotor_radius a)
              (Motor.shaft_radius a) theta omega torque) as (H6 & H7 & H8).
  repeat (split; [assumption|]). assumption.
Qed.

Lemma schematic_is_built_once_witness :
  let a := state_after (@Motor.update Motor.quarter_turns 1 None None)
             (Motor.constructed 1.0 0.6 0.15) in
  length (Motor.heap (state_after
            (@Motor.update Motor.quarter_turns 2 (Some 3%float) None) a)) = 19.
Proof.
  intros a.
  refine (proj1 (proj2 (proj2
    (@schematic_is_built_once Motor.quarter_turns a 2 (Some 3%float) None _)))).
  apply Motor.reach_update. apply (Motor.reach_init 1.0 0.6 0.15). reflexivity.
Defined.

(** X14.  After every [update] with angle [theta], the rotor bar of
    index [i] (0 to 7) is the line at position [i] of
    [self.rotor_bar_handles], and its data are those the code computes
    in binary64 arithmetic: with [angle = theta + i * 2 * np.pi / 8],
    the integer product [i * 2] converted to a float, it runs from
    [(shaft_radius + 0.05) * (np.cos(angle), np.sin(angle))] to
    [(rotor_radius - 0.05) * (np.cos(angle), np.sin(angle))]. *)
Theorem rotor_bars_follow_theta {numpy : Motor.Numpy}
    (a : Motor.ACMotorAnimation) (theta : float) (omega torque : option float) (i : nat) :
  Motor.reachable a ->
  i < 8 ->
  let a' := state_after (Motor.update theta omega torque) a in
  let angle := (theta + Motor.float_of_nat (i * 2) * Motor.np_pi / 8)%float in
  exists bars b,
    Motor.rotor_bar_handles a' = Some bars /\ length bars = 8 /\ bars !! i = Some b /\
    Motor.heap a' !! b
    = Some (Motor.Line [(Motor.shaft_radius a + 0.05) * Motor.np_cos angle;
                        (Motor.rotor_radius a - 0.05) * Motor.np_cos angle]
                       [(Motor.shaft_radius a + 0.05) * Motor.np_sin angle;
                        (Motor.rotor_radius a - 0.05) * Motor.np_sin angle] "k-")%float.
Proof.
  intros Hr Hi a' angle. unfold a', state_after.
  rewrite update_reachable_radii by exact Hr. cbn [fst].
  destruct (drawn_handles (Motor.stator_radius a) (Motor.rotor_radius a)
              (Motor.shaft_radius a) theta omega torque) as (_ & _ & _ & _ & Hbars).
  exists (seq 9 8), (9 + i). split; [exact Hbars|]. split; [reflexivity|].
  split; [apply lookup_seq_lt; exact Hi|].
  apply drawn_rotor_bar. exact Hi.
Qed.

Lemma rotor_bars_follow_theta_witness :
  let a := Motor.constructed 1.0 0.6 0.15 in
  let a' := state_after (@Motor.update Motor.quarter_turns 0 None None) a in
  let angle := (0 + Motor.float_of_nat (2 * 2) * Motor.np_pi / 8)%float in
  exists bars b,
    Motor.rotor_bar_handles a' = Some bars /\ length bars = 8 /\ bars !! 2 = Some b /\
    Motor.heap a' !! b
    = Some (Motor.Line
              [(Motor.shaft_radius a + 0.05) * @Motor.np_cos Motor.quarter_turns angle;
               (Motor.rotor_radius a - 0.05) * @Motor.np_cos Motor.quarter_turns angle]
              [(Motor.shaft_radius a + 0.05) * @Motor.np_sin Motor.quarter_turns angle;
               (Motor.rotor_radius a - 0.05) * @Motor.np_sin Motor.quarter_turns angle]
              "k-")%float.
Proof.
  intros a a' angle.
  refine (@rotor_bars_follow_theta Motor.quarter_turns a 0 None None 2 _ _).
  - apply (Motor.reach_init 1.0 0.6 0.15). reflexivity.
  - lia.
Defined.

(** X15.  After every [update], whatever the angles of this and of the
    earlier calls, the stator is as the first call built it: the outer
    disk of radius [stator_radius], the inner boundary of radius
    [rotor_radius + 0.05], and six coils of radius 0.08, the coil of
    index [i] centred at
    [(stator_radius - 0.15) * (np.cos(i * np.pi / 3), np.sin(i * np.pi / 3))]
    in the colour [i mod 3] of red, yellow, blue; the rotor body has
    the radius [rotor_radius] and the shaft the radius [shaft_radius].
    The sums, differences and products are those of binary64 floats. *)
Theorem stator_is_fixed {numpy : Motor.Numpy}
    (a : Motor.ACMotorAnimation) (theta : float) (omega torque : option float) :
  Motor.reachable a ->
  let a' := state_after (Motor.update theta omega torque) a in
  Motor.heap a' !! 0 = Some (Motor.Circle (0, 0) (Motor.stator_radius a) "gray")%float /\
  Motor.heap a' !! 1
  = Some (Motor.Circle (0, 0) (Motor.rotor_radius a + 0.05) "white")%float /\
  (forall i, i < 6 ->
     exists c, (["red"; "yellow"; "blue"] : list string) !! (i mod 3) = Some c /\
       Motor.heap a' !! (2 + i)
       = Some (Motor.Circle
                 ((Motor.stator_radius a - 0.15)
                  * Motor.np_cos (Motor.float_of_nat i * Motor.np_pi / 3),
                  (Motor.stator_radius a - 0.15)
                  * Motor.np_sin (Motor.float_of_nat i * Motor.np_pi / 3))
                 0.08 c)%float) /\
  Motor.heap a' !! 8
  = Some (Motor.Circle (0, 0) (Motor.rotor_radius a) "lightblue")%float /\
  Motor.heap a' !! 17
  = Some (Motor.Circle (0, 0) (Motor.shaft_radius a) "darkgray")%float.
Proof.
  intros Hr a'. unfold a', state_after.
  rewrite update_reachable_radii by exact Hr. cbn [fst].
  destruct (drawn_disks (Motor.stator_radius a) (Motor.rotor_radius a)
              (Motor.shaft_radius a) theta omega torque) as (H0 & H1 & H8 & H17).
  split; [exact H0|]. split; [exact H1|]. split; [|split; [exact H8|exact H17]].
  intros i Hi. apply drawn_stator_coil. exact Hi.
Qed.

Lemma stator_is_fixed_witness :
  let a := Motor.constructed 1.0 0.6 0.15 in
  let a' := state_after (@Motor.update Motor.quarter_turns 1 None None) a in
  Motor.heap a' !! 0 = Some (Motor.Circle (0, 0) 1.0 "gray")%float /\
  Motor.heap a' !! 1 = Some (Motor.Circle (0, 0) 0.65 "white")%float.
Proof.
  intros a a'.
  pose proof (@stator_is_fixed Motor.quarter_turns a 1%float None None
                (Motor.reach_init 1.0 0.6 0.15 a eq_refl)) as H.
  split; [apply H | apply H].
Defined.

(** X16.  After a sequence of [update] calls that all return, on a
    constructed plotter, the subplot of every group is out of its
    initialisation phase and has exactly one line object per signal of
    the group, registered once with its axes: the number of lines does
    not depend on the number of calls. *)
Theorem one_line_per_signal
    (config : option (list Plotter.PlotConfig)) (p0 self : Plotter.MotorDataPlotter)
    (calls : list (float * list (string * float))) (t : float)
    (kwargs : list (string * float)) (i : nat) (plot : Plotter.PlotConfig) :
  Plotter.__init__ config = inr p0 ->
  Plotter.updates (calls ++ [(t, kwargs)]) p0 = (self, inr tt) ->
  Plotter.plot_config self !! i = Some plot ->
  exists p, Plotter.handle self !! i = Some p /\
    Panel.init p = false /\
    Panel.line p = seq 0 (length (Plotter.signals plot)) /\
    Panel.ax_lines (Panel.ax p) = seq 0 (length (Plotter.signals plot)) /\
    length (Panel.heap p) = length (Plotter.signals plot).
Proof.
  intros Hinit Hrun Hplot.
  destruct (init_cases _ _ Hinit) as (c & _ & ->).
  unfold Plotter.updates in Hrun. rewrite for_each_app in Hrun.
  unfold bind in Hrun. fold (Plotter.updates calls) in Hrun.
  destruct (Plotter.updates calls (PlotterState.constructed c)) as [s1 [e|[]]] eqn:Hpre;
    [discriminate|].
  destruct (updates_ready _ _ _ (constructed_ready c) Hpre) as [Hready1 _].
  cbn [for_each fst snd] in Hrun. unfold bind in Hrun.
  destruct (Plotter.update t kwargs s1) as [s2 [e|[]]] eqn:Hstep; [discriminate|].
  cbn in Hrun. injection Hrun as ->.
  destruct (update_ok_shown _ _ _ _ Hready1 Hstep) as [_ Hshown].
  exists (PlotterState.shown self plot). split; [apply Hshown; exact Hplot|].
  unfold PlotterState.shown.
  cbn [Panel.init Panel.line Panel.ax Panel.ax_lines Panel.heap PanelState.live
       Panel.blank_axes app].
  rewrite length_imap, length_plot_data. repeat split.
Qed.

Lemma one_line_per_signal_witness :
  let cfg := [Plotter.mkConfig ["theta_ref"; "theta"] None None None None None] in
  let self := state_after (Plotter.update 0%float [("theta", 1%float)])
                (PlotterState.constructed cfg) in
  exists p, Plotter.handle self !! 0 = Some p /\
    Panel.init p = false /\
    Panel.line p = seq 0 2 /\
    Panel.ax_lines (Panel.ax p) = seq 0 2 /\
    length (Panel.heap p) = 2.
Proof.
  intros cfg self.
  refine (one_line_per_signal (Some cfg) (PlotterState.constructed cfg) self []
            0%float [("theta", 1%float)] 0
            (Plotter.mkConfig ["theta_ref"; "theta"] None None None None None) eq_refl _ _).
  - vm_compute. reflexivity.
  - reflexivity.
Defined.

